(** * AutoSecScan: detection heuristics, scoring and probe orchestration

    A shallow embedding of the Go packages [models], [scanner] and
    [orchestrator] of AutoSecScan, and the properties of the header, TLS,
    SQL-injection and XSS analyzers, of the risk classification and of the
    orchestrator that are stated about them.

    Conventions of the embedding.
    - Go [int] is [Z]; every integer of the code that is modelled here is a
      score, a count or a length far below 2^63, so no wrap-around occurs.
    - Go [string] is [string] (a sequence of bytes).
    - A Go function returning [(T, error)] returns [result T]: each such
      function of the code returns either a value and a nil error or a nil
      value and an error.
    - The network is an explicit world: a request takes the world and gives
      an answer and the next world, and every request is appended to a log. *)

From Stdlib Require Import ZArith Lia Bool List Ascii String.
From Stdlib Require Import PrimFloat Uint63.
From stdpp Require Import base option list gmap strings pretty.
Import ListNotations.

Local Open Scope string_scope.
Local Open Scope list_scope.
Local Open Scope Z_scope.

(** ** The part of Go's [strings] package the analyzers use *)

Module strings.

(** [strings.ToLower] on the ASCII range (Go's fast path for ASCII input);
    bytes outside [A-Z] are kept. All payloads, patterns and header names
    of the analyzers are ASCII. *)
Definition lower_ascii (c : ascii) : ascii :=
  let n := nat_of_ascii c in
  if ((65 <=? n)%nat && (n <=? 90)%nat)%bool then ascii_of_nat (n + 32) else c.

Fixpoint ToLower (s : string) : string :=
  match s with
  | EmptyString => EmptyString
  | String c s' => String (lower_ascii c) (ToLower s')
  end.

Fixpoint HasPrefix (s p : string) {struct p} : bool :=
  match p with
  | EmptyString => true
  | String c p' =>
      match s with
      | EmptyString => false
      | String d s' => Ascii.eqb d c && HasPrefix s' p'
      end
  end.

(** [strings.Contains s substr]: [substr] occurs at some offset of [s]. *)
Fixpoint Contains (s substr : string) : bool :=
  HasPrefix s substr ||
  match s with
  | EmptyString => false
  | String _ s' => Contains s' substr
  end.

Fixpoint drop (n : nat) (s : string) : string :=
  match n with
  | O => s
  | S n' => match s with EmptyString => EmptyString | String _ s' => drop n' s' end
  end.

(** [strings.ReplaceAll s old new] for a non-empty [old]; [fuel] bounds the
    number of bytes still to be read and is [String.length s] at the call. *)
Fixpoint replace_from (fuel : nat) (s old new : string) : string :=
  match fuel with
  | O => s
  | S fuel' =>
      match s with
      | EmptyString => EmptyString
      | String c s' =>
          if HasPrefix s old
          then new +:+ replace_from (fuel' - (String.length old - 1)) (drop (String.length old) s) old new
          else String c (replace_from fuel' s' old new)
      end
  end.

Definition ReplaceAll (s old new : string) : string :=
  replace_from (String.length s) s old new.

(** [strings.Join elems sep]. *)
Fixpoint Join (elems : list string) (sep : string) : string :=
  match elems with
  | [] => EmptyString
  | [x] => x
  | x :: rest => x +:+ sep +:+ Join rest sep
  end.

(** [strings.Split s sep] for a one-byte separator. *)
Fixpoint split_on (sep : ascii) (s cur : string) : list string :=
  match s with
  | EmptyString => [cur]
  | String c s' =>
      if Ascii.eqb c sep then cur :: split_on sep s' EmptyString
      else split_on sep s' (cur +:+ String c EmptyString)
  end.

Definition Split (s : string) (sep : ascii) : list string :=
  split_on sep s EmptyString.

Definition is_space (c : ascii) : bool :=
  let n := nat_of_ascii c in
  (((9 <=? n)%nat && (n <=? 13)%nat) || (n =? 32)%nat)%bool.

Fixpoint trim_left (s : string) : string :=
  match s with
  | EmptyString => EmptyString
  | String c s' => if is_space c then trim_left s' else s
  end.

Fixpoint rev_string (s acc : string) : string :=
  match s with
  | EmptyString => acc
  | String c s' => rev_string s' (String c acc)
  end.

(** [strings.TrimSpace] for ASCII white space. *)
Definition TrimSpace (s : string) : string :=
  rev_string (trim_left (rev_string (trim_left s) EmptyString)) EmptyString.

End strings.

(** ** Package [models] *)

(** A Go [error], identified with its message. *)
Definition error := string.

Inductive result (A : Type) : Type :=
| Ok (a : A)
| Err (e : error).
Arguments Ok {A} a.
Arguments Err {A} e.

Module models.

Record TargetInfo := {
  URL : string;
  Domain : string;
  IP : string;
  Protocol : string;
  Port : Z
}.

Record Port_ := {
  Number : Z;
  port_Protocol : string;
  State : string;
  Service : string;
  Version : string
}.

Record NmapScan := {
  OpenPorts : list Port_;
  Duration : Z
}.

Record SecurityHeader := {
  hdr_Name : string;
  hdr_Value : string;
  hdr_Status : string;
  hdr_Severity : string;
  hdr_Description : string
}.

Record HeaderScan := {
  Headers : gmap string string;
  MissingHeaders : list SecurityHeader;
  WeakHeaders : list SecurityHeader;
  PresentHeaders : list SecurityHeader;
  SecurityScore : Z
}.

Record CertificateInfo := {
  Issuer : string;
  Subject : string;
  ValidFrom : Z;
  ValidTo : Z;
  IsExpired : bool;
  DaysToExpiry : Z
}.

Record TLSScan := {
  tls_Protocol : string;
  CipherSuite : string;
  Certificate : CertificateInfo;
  tls_Vulnerabilities : list string;
  Score : Z;
  IsSecure : bool
}.

Record Vulnerability := {
  Type_ : string;
  Severity : string;
  Location : string;
  Payload : string;
  Evidence : string;
  Description : string
}.

(** Pointer fields ([*NmapScan], [*HeaderScan], [*TLSScan]) and the two
    slices an analyzer assigns are options, [None] being nil: a nil slice
    and the empty slice an analyzer returns are told apart. *)
Record ScanResult := {
  Target : TargetInfo;
  StartTime : Z;
  EndTime : Z;
  NmapResults : option NmapScan;
  HeaderResults : option HeaderScan;
  TLSResults : option TLSScan;
  SQLiResults : option (list Vulnerability);
  XSSResults : option (list Vulnerability);
  Errors : list error;
  RiskLevel : string
}.

End models.

(** The elements a [for ... range] over a possibly nil slice visits. *)
Definition slice_elems {A : Type} (s : option (list A)) : list A :=
  match s with
  | Some l => l
  | None => []
  end.

(** ** Package [scanner]: the header analyzer *)

Module headers.
Import models.

Record SecurityHeaderDefinition := {
  def_Name : string;
  def_Description : string;
  def_Severity : string
}.

Definition securityHeaders : list SecurityHeaderDefinition := [
  {| def_Name := "Strict-Transport-Security";
     def_Description := "Enforces secure HTTPS connections";
     def_Severity := "high" |};
  {| def_Name := "Content-Security-Policy";
     def_Description := "Prevents XSS and data injection attacks";
     def_Severity := "high" |};
  {| def_Name := "X-Frame-Options";
     def_Description := "Prevents clickjacking attacks";
     def_Severity := "medium" |};
  {| def_Name := "X-Content-Type-Options";
     def_Description := "Prevents MIME-type sniffing";
     def_Severity := "medium" |};
  {| def_Name := "Referrer-Policy";
     def_Description := "Controls referrer information";
     def_Severity := "low" |};
  {| def_Name := "Permissions-Policy";
     def_Description := "Controls browser features and APIs";
     def_Severity := "medium" |};
  {| def_Name := "X-XSS-Protection";
     def_Description := "Legacy XSS filter (deprecated but still useful)";
     def_Severity := "low" |}
].

(** The [%d] verb of [fmt.Sscanf]: blanks are skipped (a newline is an
    error), then an optional sign and at least one decimal digit are read;
    a value outside int64 is an error. On an error the destination keeps
    its value, which is 0 at the only call. *)
Definition is_digit (c : ascii) : bool :=
  let n := nat_of_ascii c in ((48 <=? n)%nat && (n <=? 57)%nat)%bool.

Fixpoint skip_blanks (s : string) : option string :=
  match s with
  | EmptyString => Some EmptyString
  | String c s' =>
      if (nat_of_ascii c =? 10)%nat then None
      else if strings.is_space c then skip_blanks s'
      else Some s
  end.

Fixpoint digits_value (s : string) (acc : Z) : Z :=
  match s with
  | EmptyString => acc
  | String c s' =>
      if is_digit c
      then digits_value s' (10 * acc + (Z.of_nat (nat_of_ascii c) - 48))
      else acc
  end.

Definition starts_with_digit (s : string) : bool :=
  match s with
  | EmptyString => false
  | String c _ => is_digit c
  end.

Definition in_int64 (v : Z) : bool :=
  (- 2 ^ 63 <=? v) && (v <? 2 ^ 63).

Definition scan_int (s : string) : Z :=
  match skip_blanks s with
  | None => 0
  | Some s1 =>
      let '(neg, s2) :=
        match s1 with
        | String "-" r => (true, r)
        | String "+" r => (false, r)
        | _ => (false, s1)
        end in
      if starts_with_digit s2 then
        let v := digits_value s2 0 in
        let v := if neg then - v else v in
        if in_int64 v then v else 0
      else 0
  end.

(** [extractMaxAge]: the parts are scanned in order, the first one that
    starts with [max-age=] decides. *)
Fixpoint extractMaxAge_parts (parts : list string) : Z :=
  match parts with
  | [] => 0
  | part :: rest =>
      let part := strings.TrimSpace part in
      if strings.HasPrefix part "max-age="
      then scan_int (strings.drop 8 part)
      else extractMaxAge_parts rest
  end.

Definition extractMaxAge (value : string) : Z :=
  extractMaxAge_parts (strings.Split value ";").

Definition isWeakHeader (name value : string) : bool :=
  let lowerValue := strings.ToLower value in
  if String.eqb name "Strict-Transport-Security" then
    if negb (strings.Contains lowerValue "max-age=") then true
    else if strings.Contains lowerValue "max-age=" &&
            (extractMaxAge lowerValue <? 15552000) then true
    else false
  else if String.eqb name "Content-Security-Policy" then
    if strings.Contains lowerValue "unsafe-inline" ||
       strings.Contains lowerValue "unsafe-eval" then true
    else if strings.Contains lowerValue "*" &&
            negb (strings.Contains lowerValue "'*'") then true
    else false
  else if String.eqb name "X-Frame-Options" then
    strings.Contains lowerValue "allow"
  else if String.eqb name "X-XSS-Protection" then
    strings.Contains lowerValue "0"
  else false.

(** One iteration of the loop over [securityHeaders]: [header] is
    [resp.Header], looked up with the definition's name as it is. *)
Definition analyze_step (header : gmap string (list string))
    (scan : HeaderScan) (headerDef : SecurityHeaderDefinition) : HeaderScan :=
  match header !! def_Name headerDef with
  | None =>
      {| Headers := Headers scan;
         MissingHeaders := MissingHeaders scan ++
           [{| hdr_Name := def_Name headerDef; hdr_Value := EmptyString;
               hdr_Status := "missing";
               hdr_Severity := def_Severity headerDef;
               hdr_Description := def_Description headerDef |}];
         WeakHeaders := WeakHeaders scan;
         PresentHeaders := PresentHeaders scan;
         SecurityScore := SecurityScore scan |}
  | Some value =>
      let headerValue := strings.Join value "; " in
      if isWeakHeader (def_Name headerDef) headerValue then
        {| Headers := Headers scan;
           MissingHeaders := MissingHeaders scan;
           WeakHeaders := WeakHeaders scan ++
             [{| hdr_Name := def_Name headerDef; hdr_Value := headerValue;
                 hdr_Status := "weak";
                 hdr_Severity := def_Severity headerDef;
                 hdr_Description :=
                   def_Description headerDef +:+ " (weak configuration)" |}];
           PresentHeaders := PresentHeaders scan;
           SecurityScore := SecurityScore scan |}
      else
        {| Headers := Headers scan;
           MissingHeaders := MissingHeaders scan;
           WeakHeaders := WeakHeaders scan;
           PresentHeaders := PresentHeaders scan ++
             [{| hdr_Name := def_Name headerDef; hdr_Value := headerValue;
                 hdr_Status := "present";
                 hdr_Severity := "info";
                 hdr_Description := def_Description headerDef |}];
           SecurityScore := SecurityScore scan + 15 |}
  end.

Definition analyze_loop (header : gmap string (list string))
    (defs : list SecurityHeaderDefinition) (scan : HeaderScan) : HeaderScan :=
  fold_left (analyze_step header) defs scan.

(** The final score: capped at [maxScore], then turned into a percentage
    with Go's integer division (both operands are non-negative). *)
Definition final_score (defs : list SecurityHeaderDefinition) (score : Z) : Z :=
  let maxScore := Z.of_nat (length defs) * 15 in
  let score := if maxScore <? score then maxScore else score in
  (score * 100) / maxScore.

(** [ScanHeaders] from the response on: the part after a probe answered. *)
Definition analyze (header : gmap string (list string)) : HeaderScan :=
  let scan0 :=
    {| Headers := (fun values => strings.Join values "; ") <$> header;
       MissingHeaders := []; WeakHeaders := []; PresentHeaders := [];
       SecurityScore := 0 |} in
  let scan := analyze_loop header securityHeaders scan0 in
  {| Headers := Headers scan;
     MissingHeaders := MissingHeaders scan;
     WeakHeaders := WeakHeaders scan;
     PresentHeaders := PresentHeaders scan;
     SecurityScore := final_score securityHeaders (SecurityScore scan) |}.

End headers.

(** ** The environment of the analyzers

    What the analyzers obtain from outside the program: the HTTP client, the
    TLS dialer, the clock, and the library functions of [net/url]. *)

Module net.

Record Response := {
  StatusCode : Z;
  Header : gmap string (list string);
  Body : string                       (* what [io.ReadAll] gives *)
}.

Record x509_Certificate := {
  cert_Issuer : string;
  cert_Subject : string;
  NotBefore : Z;
  NotAfter : Z
}.

Record ConnectionState := {
  cs_Version : Z;                     (* uint16 *)
  cs_CipherSuite : Z;                 (* uint16 *)
  PeerCertificates : list x509_Certificate
}.

(** [tls.Config]; 0 and [[]] are the zero values of fields left unset. *)
Record Config := {
  ServerName : string;
  InsecureSkipVerify : bool;
  MinVersion : Z;
  MaxVersion : Z;
  CipherSuites : list Z
}.

(** [*url.URL], with the value of its [Query()]. *)
Record URL_ := {
  Scheme : string;
  Host : string;
  Path : string;
  Query : gmap string (list string)
}.

Inductive Event : Type :=
| EvHead (url : string)
| EvGet (url : string)
| EvDial (addr : string) (cfg : Config)
| EvSleep (ms : Z).

Class Env := {
  World : Type;
  http_Head : string -> World -> result Response * World;
  http_Get : string -> World -> result Response * World;
  tls_Dial : string -> Config -> World -> result ConnectionState * World;
  time_Now : World -> Z * World;      (* nanoseconds *)
  url_Parse : string -> result URL_;
  Values_Encode : gmap string (list string) -> string;
  url_PathEscape : string -> string;
  (** the order in which a [for ... range] visits the keys of a map: each
      key once, in an order the runtime chooses *)
  range_order : gmap string (list string) -> list string;
  range_order_perm : forall v, range_order v ≡ₚ (map_to_list v).*1
}.

(** The state an analyzer threads: the world and the log of what it did. *)
Definition St `{Env} : Type := World * list Event.

Definition M `{Env} (A : Type) : Type := St -> A * St.

Definition ret `{Env} {A : Type} (a : A) : M A := fun s => (a, s).

Definition bind `{Env} {A B : Type} (m : M A) (k : A -> M B) : M B :=
  fun s => let '(a, s') := m s in k a s'.

Definition lift `{Env} {A : Type} (ev : Event) (op : World -> A * World) : M A :=
  fun s => let '(a, w') := op (fst s) in (a, (w', snd s ++ [ev])).

Definition client_Head `{Env} (url : string) : M (result Response) :=
  lift (EvHead url) (http_Head url).

Definition client_Get `{Env} (url : string) : M (result Response) :=
  lift (EvGet url) (http_Get url).

Definition DialWithDialer `{Env} (addr : string) (cfg : Config)
  : M (result ConnectionState) :=
  lift (EvDial addr cfg) (tls_Dial addr cfg).

Definition Now `{Env} : M Z :=
  fun s => let '(t, w') := time_Now (fst s) in (t, (w', snd s)).

Definition Sleep `{Env} (ms : Z) : M unit :=
  fun s => (tt, (fst s, snd s ++ [EvSleep ms])).

End net.

Notation "'let*' x ':=' m 'in' k" := (net.bind m (fun x => k))
  (at level 10, x name, m at level 100, k at level 200).

Module headers_scan.
Import models net headers.

(** [ScanHeaders]: a HEAD request, then a GET request if the HEAD request
    failed or answered with a status of 400 or more. *)
Definition ScanHeaders `{Env} (target : TargetInfo) : M (result HeaderScan) :=
  let* r := client_Head (URL target) in
  match r with
  | Ok resp =>
      if 400 <=? StatusCode resp then
        let* r2 := client_Get (URL target) in
        match r2 with
        | Err e => ret (Err ("failed to connect: " +:+ e))
        | Ok resp2 => ret (Ok (analyze (Header resp2)))
        end
      else ret (Ok (analyze (Header resp)))
  | Err _ =>
      let* r2 := client_Get (URL target) in
      match r2 with
      | Err e => ret (Err ("failed to connect: " +:+ e))
      | Ok resp2 => ret (Ok (analyze (Header resp2)))
      end
  end.

End headers_scan.

(** ** Package [scanner]: the TLS analyzer *)

Module tls.
Import models net.

(** Constants of [crypto/tls]. *)
Definition VersionSSL30 : Z := 0x0300.
Definition VersionTLS10 : Z := 0x0301.
Definition VersionTLS11 : Z := 0x0302.
Definition VersionTLS12 : Z := 0x0303.
Definition VersionTLS13 : Z := 0x0304.

Definition TLS_RSA_WITH_RC4_128_SHA : Z := 0x0005.
Definition TLS_RSA_WITH_3DES_EDE_CBC_SHA : Z := 0x000a.
Definition TLS_RSA_WITH_AES_128_CBC_SHA : Z := 0x002f.
Definition TLS_RSA_WITH_AES_256_CBC_SHA : Z := 0x0035.
Definition TLS_ECDHE_RSA_WITH_RC4_128_SHA : Z := 0xc011.
Definition TLS_ECDHE_RSA_WITH_3DES_EDE_CBC_SHA : Z := 0xc012.

(** [tls.CipherSuiteName] for the suites [crypto/tls] implements; another
    id is printed as [0x%04X]. *)
Definition cipher_suite_names : list (Z * string) := [
  (0x0005, "TLS_RSA_WITH_RC4_128_SHA");
  (0x000a, "TLS_RSA_WITH_3DES_EDE_CBC_SHA");
  (0x002f, "TLS_RSA_WITH_AES_128_CBC_SHA");
  (0x0035, "TLS_RSA_WITH_AES_256_CBC_SHA");
  (0x003c, "TLS_RSA_WITH_AES_128_CBC_SHA256");
  (0x009c, "TLS_RSA_WITH_AES_128_GCM_SHA256");
  (0x009d, "TLS_RSA_WITH_AES_256_GCM_SHA384");
  (0xc007, "TLS_ECDHE_ECDSA_WITH_RC4_128_SHA");
  (0xc009, "TLS_ECDHE_ECDSA_WITH_AES_128_CBC_SHA");
  (0xc00a, "TLS_ECDHE_ECDSA_WITH_AES_256_CBC_SHA");
  (0xc011, "TLS_ECDHE_RSA_WITH_RC4_128_SHA");
  (0xc012, "TLS_ECDHE_RSA_WITH_3DES_EDE_CBC_SHA");
  (0xc013, "TLS_ECDHE_RSA_WITH_AES_128_CBC_SHA");
  (0xc014, "TLS_ECDHE_RSA_WITH_AES_256_CBC_SHA");
  (0xc023, "TLS_ECDHE_ECDSA_WITH_AES_128_CBC_SHA256");
  (0xc027, "TLS_ECDHE_RSA_WITH_AES_128_CBC_SHA256");
  (0xc02f, "TLS_ECDHE_RSA_WITH_AES_128_GCM_SHA256");
  (0xc02b, "TLS_ECDHE_ECDSA_WITH_AES_128_GCM_SHA256");
  (0xc030, "TLS_ECDHE_RSA_WITH_AES_256_GCM_SHA384");
  (0xc02c, "TLS_ECDHE_ECDSA_WITH_AES_256_GCM_SHA384");
  (0xcca8, "TLS_ECDHE_RSA_WITH_CHACHA20_POLY1305_SHA256");
  (0xcca9, "TLS_ECDHE_ECDSA_WITH_CHACHA20_POLY1305_SHA256");
  (0x1301, "TLS_AES_128_GCM_SHA256");
  (0x1302, "TLS_AES_256_GCM_SHA384");
  (0x1303, "TLS_CHACHA20_POLY1305_SHA256")
].

Definition hex_digit (upper : bool) (d : Z) : string :=
  let digits := if upper then "0123456789ABCDEF" else "0123456789abcdef" in
  match String.get (Z.to_nat d) digits with
  | Some c => String c EmptyString
  | None => EmptyString
  end.

(** [%04x] and [%04X] of a uint16. *)
Definition hex4 (upper : bool) (v : Z) : string :=
  hex_digit upper ((v / 4096) mod 16) +:+ hex_digit upper ((v / 256) mod 16) +:+
  hex_digit upper ((v / 16) mod 16) +:+ hex_digit upper (v mod 16).

Fixpoint assoc_name (id : Z) (table : list (Z * string)) : option string :=
  match table with
  | [] => None
  | (k, name) :: rest => if k =? id then Some name else assoc_name id rest
  end.

Definition CipherSuiteName (id : Z) : string :=
  match assoc_name id cipher_suite_names with
  | Some name => name
  | None => "0x" +:+ hex4 true id
  end.

Definition getTLSVersion (version : Z) : string :=
  if version =? VersionSSL30 then "SSL 3.0"
  else if version =? VersionTLS10 then "TLS 1.0"
  else if version =? VersionTLS11 then "TLS 1.1"
  else if version =? VersionTLS12 then "TLS 1.2"
  else if version =? VersionTLS13 then "TLS 1.3"
  else "Unknown (0x" +:+ hex4 false version +:+ ")".

(** [isWeakCipher]: membership in the map literal [weakCiphers]. *)
Definition weakCiphers : list Z := [
  TLS_RSA_WITH_RC4_128_SHA;
  TLS_RSA_WITH_3DES_EDE_CBC_SHA;
  TLS_RSA_WITH_AES_128_CBC_SHA;
  TLS_RSA_WITH_AES_256_CBC_SHA;
  TLS_ECDHE_RSA_WITH_3DES_EDE_CBC_SHA;
  TLS_ECDHE_RSA_WITH_RC4_128_SHA
].

Definition isWeakCipher (suite : Z) : bool :=
  existsb (Z.eqb suite) weakCiphers.

Definition dial_addr (target : TargetInfo) : string :=
  Domain target +:+ ":" +:+ pretty (Port target).

(** [testProtocolSupport]: a fresh handshake pinned to [version]. *)
Definition testProtocolSupport `{Env} (target : TargetInfo) (version : Z) : M bool :=
  let config := {| ServerName := Domain target; InsecureSkipVerify := true;
                   MinVersion := version; MaxVersion := version;
                   CipherSuites := [] |} in
  let* r := DialWithDialer (dial_addr target) config in
  match r with
  | Err _ => ret false
  | Ok _ => ret true
  end.

(** [testWeakCipherSupport]: a fresh handshake offering two weak suites. *)
Definition testWeakCipherSupport `{Env} (target : TargetInfo) : M bool :=
  let weakCipherSuites := [TLS_RSA_WITH_RC4_128_SHA; TLS_RSA_WITH_3DES_EDE_CBC_SHA] in
  let config := {| ServerName := Domain target; InsecureSkipVerify := true;
                   MinVersion := 0; MaxVersion := 0;
                   CipherSuites := weakCipherSuites |} in
  let* r := DialWithDialer (dial_addr target) config in
  match r with
  | Err _ => ret false
  | Ok _ => ret true
  end.

Definition testTLSVulnerabilities `{Env} (target : TargetInfo) : M (list string) :=
  let vulnerabilities := [] in
  let* ssl3 := testProtocolSupport target VersionSSL30 in
  let vulnerabilities :=
    if ssl3 then vulnerabilities ++ ["SSLv3 supported (POODLE vulnerability)"]
    else vulnerabilities in
  let* tls10 := testProtocolSupport target VersionTLS10 in
  let vulnerabilities :=
    if tls10 then vulnerabilities ++ ["TLS 1.0 supported (BEAST vulnerability)"]
    else vulnerabilities in
  let* weak := testWeakCipherSupport target in
  let vulnerabilities :=
    if weak then vulnerabilities ++ ["Weak cipher suites supported"]
    else vulnerabilities in
  ret vulnerabilities.

(** Updates of the [scan] under construction. *)
Definition add_vulnerabilities (scan : TLSScan) (vs : list string) : TLSScan :=
  {| tls_Protocol := tls_Protocol scan; CipherSuite := CipherSuite scan;
     Certificate := Certificate scan;
     tls_Vulnerabilities := tls_Vulnerabilities scan ++ vs;
     Score := Score scan; IsSecure := IsSecure scan |}.

Definition deduct (scan : TLSScan) (n : Z) : TLSScan :=
  {| tls_Protocol := tls_Protocol scan; CipherSuite := CipherSuite scan;
     Certificate := Certificate scan;
     tls_Vulnerabilities := tls_Vulnerabilities scan;
     Score := Score scan - n; IsSecure := IsSecure scan |}.

Definition set_Score (scan : TLSScan) (n : Z) : TLSScan :=
  {| tls_Protocol := tls_Protocol scan; CipherSuite := CipherSuite scan;
     Certificate := Certificate scan;
     tls_Vulnerabilities := tls_Vulnerabilities scan;
     Score := n; IsSecure := IsSecure scan |}.

Definition mark_insecure (scan : TLSScan) : TLSScan :=
  {| tls_Protocol := tls_Protocol scan; CipherSuite := CipherSuite scan;
     Certificate := Certificate scan;
     tls_Vulnerabilities := tls_Vulnerabilities scan;
     Score := Score scan; IsSecure := false |}.

Definition set_Certificate (scan : TLSScan) (c : CertificateInfo) : TLSScan :=
  {| tls_Protocol := tls_Protocol scan; CipherSuite := CipherSuite scan;
     Certificate := c;
     tls_Vulnerabilities := tls_Vulnerabilities scan;
     Score := Score scan; IsSecure := IsSecure scan |}.

Definition zero_CertificateInfo : CertificateInfo :=
  {| Issuer := EmptyString; Subject := EmptyString; ValidFrom := 0; ValidTo := 0;
     IsExpired := false; DaysToExpiry := 0 |}.

Definition nanoseconds_per_day : Z := 24 * 3600 * 1000000000.

(** [time.Until(t)]: a [Duration] in nanoseconds, which saturates at the
    bounds of int64. *)
Definition Until (t now : Z) : Z :=
  Z.max (- 2 ^ 63) (Z.min (2 ^ 63 - 1) (t - now)).

(** The certificate block. [daysToExpiry] is
    [int(time.Until(cert.NotAfter).Hours() / 24)]: the number of whole days,
    truncated towards zero (the division, made in float64 by the code, is
    taken exactly). The clock is read a second time for [IsExpired]. *)
Definition check_certificate `{Env} (scan : TLSScan) (certs : list x509_Certificate)
  : M TLSScan :=
  match certs with
  | [] => ret scan
  | cert :: _ =>
      let* now1 := Now in
      let daysToExpiry := Z.quot (Until (NotAfter cert) now1) nanoseconds_per_day in
      let* now2 := Now in
      let scan := set_Certificate scan
        {| Issuer := cert_Issuer cert; Subject := cert_Subject cert;
           ValidFrom := NotBefore cert; ValidTo := NotAfter cert;
           IsExpired := NotAfter cert <? now2;
           DaysToExpiry := daysToExpiry |} in
      if IsExpired (Certificate scan) then
        ret (deduct (mark_insecure
               (add_vulnerabilities scan ["Certificate has expired"])) 50)
      else if daysToExpiry <? 30 then
        ret (deduct (add_vulnerabilities scan
               ["Certificate expires soon (" +:+ pretty daysToExpiry +:+ " days)"]) 10)
      else ret scan
  end.

Definition check_version (scan : TLSScan) (version : Z) : TLSScan :=
  if version <? VersionTLS12 then
    deduct (mark_insecure (add_vulnerabilities scan
      ["Outdated TLS version: " +:+ tls_Protocol scan +:+ " (TLS 1.2+ recommended)"])) 30
  else if version =? VersionTLS12 then
    deduct (add_vulnerabilities scan
      ["TLS 1.2 is acceptable but TLS 1.3 is recommended"]) 5
  else scan.

Definition check_cipher (scan : TLSScan) (suite : Z) : TLSScan :=
  if isWeakCipher suite then
    mark_insecure (deduct (add_vulnerabilities scan
      ["Weak cipher suite: " +:+ CipherSuite scan]) 20)
  else scan.

Definition check_probes (scan : TLSScan) (vulnerabilities : list string) : TLSScan :=
  let scan := add_vulnerabilities scan vulnerabilities in
  if 0 <? Z.of_nat (length vulnerabilities) then
    mark_insecure (deduct scan (10 * Z.of_nat (length vulnerabilities)))
  else scan.

Definition clamp_score (scan : TLSScan) : TLSScan :=
  if Score scan <? 0 then set_Score scan 0 else scan.

(** The result for a target that is not reached over HTTPS. *)
Definition not_https : TLSScan :=
  {| tls_Protocol := EmptyString; CipherSuite := EmptyString;
     Certificate := zero_CertificateInfo;
     tls_Vulnerabilities := ["Target is not using HTTPS"];
     Score := 0; IsSecure := false |}.

(** The configuration of the first handshake: certificates are not
    verified, version and cipher suites are left to the library. *)
Definition main_config (target : TargetInfo) : Config :=
  {| ServerName := Domain target; InsecureSkipVerify := true;
     MinVersion := 0; MaxVersion := 0; CipherSuites := [] |}.

Definition ScanTLS `{Env} (target : TargetInfo) : M (result TLSScan) :=
  if negb (String.eqb (Protocol target) "https") then ret (Ok not_https)
  else
    let* r := DialWithDialer (dial_addr target) (main_config target) in
    match r with
    | Err e => ret (Err ("TLS connection failed: " +:+ e))
    | Ok state =>
        let scan :=
          {| tls_Protocol := getTLSVersion (cs_Version state);
             CipherSuite := CipherSuiteName (cs_CipherSuite state);
             Certificate := zero_CertificateInfo;
             tls_Vulnerabilities := [];
             Score := 100; IsSecure := true |} in
        let* scan := check_certificate scan (PeerCertificates state) in
        let scan := check_version scan (cs_Version state) in
        let scan := check_cipher scan (cs_CipherSuite state) in
        let* vulnerabilities := testTLSVulnerabilities target in
        let scan := check_probes scan vulnerabilities in
        ret (Ok (clamp_score scan))
    end.

End tls.

(** ** Package [scanner]: the SQL-injection analyzer *)

Module sqli.
Import models net.

Definition len (s : string) : Z := Z.of_nat (String.length s).

(** [sqliPayloads]: payload and description. *)
Definition sqliPayloads : list (string * string) := [
  ("'", "Single quote test");
  ("' OR '1'='1", "Classic OR bypass");
  ("' OR '1'='1' --", "OR bypass with comment");
  ("' OR 1=1 --", "Numeric OR bypass");
  ("admin' --", "Comment injection");
  ("' UNION SELECT NULL--", "UNION injection test");
  ("1' AND '1'='2", "False condition test");
  ("'; DROP TABLE users--", "Destructive command test");
  ("' OR 'x'='x", "Alternative OR bypass");
  ("1' ORDER BY 1--", "ORDER BY enumeration")
].

Definition sqlErrorPatterns : list string := [
  "sql syntax";
  "mysql_fetch";
  "mysql_num_rows";
  "mysqli";
  "sqlexception";
  "postgresql";
  "sqlite";
  "oracle";
  "odbc";
  "mssql";
  "jdbc";
  "ora-";
  "pg_query";
  "pg_exec";
  "syntax error";
  "unterminated quoted string";
  "unclosed quotation mark";
  "error in your sql syntax";
  "you have an error in your sql"
].

(** [detectSQLError]: the first pattern the body contains, or the empty
    string. *)
Fixpoint first_pattern (patterns : list string) (body : string) : string :=
  match patterns with
  | [] => EmptyString
  | pattern :: rest =>
      if strings.Contains body pattern then pattern else first_pattern rest body
  end.

Definition detectSQLError (body : string) : string :=
  first_pattern sqlErrorPatterns body.

(** [detectBehaviorChange]. The code divides in float64,
    [lengthDiff := float64(testLength-baselineLength) / float64(baselineLength)],
    and tests [lengthDiff > 0.1 || lengthDiff < -0.1]. The quotient is
    compared here as the exact rational it rounds, which decides the same
    for body lengths that fit a float64 mantissa; dividing by a zero
    baseline gives an infinity, above 0.1 in absolute value, or NaN for
    0/0, for which both comparisons are false. *)
Definition detectBehaviorChange (baselineStatus testStatus baselineLength testLength : Z)
  : bool :=
  if negb (baselineStatus =? testStatus) then true
  else
    let diff := testLength - baselineLength in
    if baselineLength =? 0 then negb (diff =? 0)
    else (baselineLength <? 10 * diff) || (10 * diff <? - baselineLength).

(** The same function with the arithmetic of the code, in binary64: the
    conversions [float64(...)], the division and the two comparisons with
    the constant 0.1 (the double 0x1.999999999999ap-4). It is kept next to
    [detectBehaviorChange] to compare the two on concrete lengths. *)
Definition float64_of_int (z : Z) : float :=
  if z <? 0 then PrimFloat.opp (PrimFloat.of_uint63 (Uint63.of_Z (- z)))
  else PrimFloat.of_uint63 (Uint63.of_Z z).

Definition detectBehaviorChange_float64
    (baselineStatus testStatus baselineLength testLength : Z) : bool :=
  if negb (baselineStatus =? testStatus) then true
  else
    let lengthDiff :=
      PrimFloat.div (float64_of_int (testLength - baselineLength))
                    (float64_of_int baselineLength) in
    PrimFloat.ltb 0x1.999999999999ap-4%float lengthDiff ||
    PrimFloat.ltb lengthDiff (-0x1.999999999999ap-4)%float.

(** Whether the two agree for all lengths below [n]. *)
Definition agree_below (n : nat) : bool :=
  forallb (fun bl =>
    forallb (fun tl =>
      Bool.eqb (detectBehaviorChange 200 200 (Z.of_nat bl) (Z.of_nat tl))
               (detectBehaviorChange_float64 200 200 (Z.of_nat bl) (Z.of_nat tl)))
      (seq 0 n)) (seq 0 n).

(** [cloneURLValues]: a copy of the map and of each slice of values. *)
Definition cloneURLValues (v : gmap string (list string)) : gmap string (list string) :=
  (fun values => [] ++ values) <$> v.

(** [url.Values.Set]. *)
Definition Values_Set (v : gmap string (list string)) (key value : string)
  : gmap string (list string) :=
  <[key := [value]]> v.

Definition fallback_params : gmap string (list string) :=
  list_to_map [
    ("id", ["1"]); ("user", ["admin"]); ("page", ["1"]);
    ("search", ["test"]); ("q", ["test"]); ("username", ["admin"])
  ].

Definition param_location (paramName : string) : string :=
  "Parameter: " +:+ paramName.

Definition error_finding (paramName payload description sqlError : string)
  : Vulnerability :=
  {| Type_ := "sqli"; Severity := "critical";
     Location := param_location paramName;
     Payload := payload;
     Evidence := "SQL error detected: " +:+ sqlError;
     Description := description +:+ " - SQL error exposed" |}.

Definition behavior_finding (paramName payload description : string)
    (baselineLength testLength : Z) : Vulnerability :=
  {| Type_ := "sqli"; Severity := "high";
     Location := param_location paramName;
     Payload := payload;
     Evidence := "Response behavior changed: baseline=" +:+ pretty baselineLength +:+
                 " bytes, test=" +:+ pretty testLength +:+ " bytes";
     Description := description +:+ " - Response indicates potential SQL injection" |}.

Definition test_url `{Env} (parsedURL : URL_) (testParams : gmap string (list string))
  : string :=
  Scheme parsedURL +:+ "://" +:+ Host parsedURL +:+ Path parsedURL +:+ "?" +:+
  Values_Encode testParams.

(** The loop over the payloads for one parameter: [continue] on a failed
    request, [break] after a finding, a pause of 100 ms otherwise. *)
Fixpoint test_payloads `{Env} (parsedURL : URL_) (queryParams : gmap string (list string))
    (baselineStatus baselineLength : Z) (paramName : string)
    (payloads : list (string * string)) (vulnerabilities : list Vulnerability)
  : M (list Vulnerability) :=
  match payloads with
  | [] => ret vulnerabilities
  | (payload, description) :: rest =>
      let testParams := Values_Set (cloneURLValues queryParams) paramName payload in
      let testURL := test_url parsedURL testParams in
      let* r := client_Get testURL in
      match r with
      | Err _ =>
          test_payloads parsedURL queryParams baselineStatus baselineLength
            paramName rest vulnerabilities
      | Ok resp =>
          let body := Body resp in
          let bodyStr := strings.ToLower body in
          let sqlError := detectSQLError bodyStr in
          if negb (String.eqb sqlError EmptyString) then
            ret (vulnerabilities ++ [error_finding paramName payload description sqlError])
          else if detectBehaviorChange baselineStatus (StatusCode resp)
                    baselineLength (len body) then
            ret (vulnerabilities ++
                 [behavior_finding paramName payload description baselineLength (len body)])
          else
            let* _ := Sleep 100 in
            test_payloads parsedURL queryParams baselineStatus baselineLength
              paramName rest vulnerabilities
      end
  end.

(** The loop over the parameters, in the order of the [range]. *)
Fixpoint test_params `{Env} (parsedURL : URL_) (queryParams : gmap string (list string))
    (baselineStatus baselineLength : Z)
    (paramNames : list string) (vulnerabilities : list Vulnerability)
  : M (list Vulnerability) :=
  match paramNames with
  | [] => ret vulnerabilities
  | paramName :: rest =>
      let* vulnerabilities :=
        test_payloads parsedURL queryParams baselineStatus baselineLength
          paramName sqliPayloads vulnerabilities in
      test_params parsedURL queryParams baselineStatus baselineLength rest vulnerabilities
  end.

Definition path_finding (payload sqlError : string) : Vulnerability :=
  {| Type_ := "sqli"; Severity := "critical";
     Location := "URL Path";
     Payload := payload;
     Evidence := "SQL error detected: " +:+ sqlError;
     Description := "SQL injection in URL path" |}.

Fixpoint test_path_payloads `{Env} (parsedURL : URL_) (pathPayloads : list string)
    (vulnerabilities : list Vulnerability) : M (list Vulnerability) :=
  match pathPayloads with
  | [] => ret vulnerabilities
  | payload :: rest =>
      let testPath := Path parsedURL +:+ "/" +:+ url_PathEscape payload in
      let testURL := Scheme parsedURL +:+ "://" +:+ Host parsedURL +:+ testPath in
      let* r := client_Get testURL in
      match r with
      | Err _ => test_path_payloads parsedURL rest vulnerabilities
      | Ok resp =>
          let bodyStr := strings.ToLower (Body resp) in
          let sqlError := detectSQLError bodyStr in
          if negb (String.eqb sqlError EmptyString) then
            ret (vulnerabilities ++ [path_finding payload sqlError])
          else
            let* _ := Sleep 100 in
            test_path_payloads parsedURL rest vulnerabilities
      end
  end.

(** [testPathInjection]; it parses [target.URL] again, which gives the
    [parsedURL] its caller already has. *)
Definition testPathInjection `{Env} (parsedURL : URL_)
    (vulnerabilities : list Vulnerability) : M (list Vulnerability) :=
  test_path_payloads parsedURL ["'"; "' OR '1'='1"] vulnerabilities.

Definition ScanSQLi `{Env} (target : TargetInfo) : M (result (list Vulnerability)) :=
  match url_Parse (URL target) with
  | Err e => ret (Err ("failed to parse URL: " +:+ e))
  | Ok parsedURL =>
      let queryParams := Query parsedURL in
      let queryParams :=
        if Z.of_nat (size queryParams) =? 0 then fallback_params else queryParams in
      let* b := client_Get (URL target) in
      match b with
      | Err e => ret (Err ("failed to get baseline response: " +:+ e))
      | Ok baselineResp =>
          let baselineLength := len (Body baselineResp) in
          let* vulnerabilities :=
            test_params parsedURL queryParams (StatusCode baselineResp) baselineLength
              (range_order queryParams) [] in
          let* vulnerabilities :=
            if 1 <? len (Path parsedURL)
            then testPathInjection parsedURL vulnerabilities
            else ret vulnerabilities in
          ret (Ok vulnerabilities)
      end
  end.

End sqli.

(** ** Package [scanner]: the XSS analyzer *)

Module xss.
Import models net.

Definition dquote : string := String (ascii_of_nat 34) EmptyString.

Record xssPayload := {
  payload : string;
  pattern : string;
  description : string
}.

Definition xssPayloads : list xssPayload := [
  {| payload := "<script>alert('XSS')</script>";
     pattern := "<script>alert('xss')</script>";
     description := "Basic script injection" |};
  {| payload := "<img src=x onerror=alert('XSS')>";
     pattern := "<img src=x onerror=alert('xss')>";
     description := "Image tag with onerror handler" |};
  {| payload := "<svg/onload=alert('XSS')>";
     pattern := "<svg/onload=alert('xss')>";
     description := "SVG with onload handler" |};
  {| payload := dquote +:+ "><script>alert('XSS')</script>";
     pattern := dquote +:+ "><script>alert('xss')</script>";
     description := "Breaking out of attribute" |};
  {| payload := "javascript:alert('XSS')";
     pattern := "javascript:alert('xss')";
     description := "JavaScript protocol handler" |};
  {| payload := "<iframe src=javascript:alert('XSS')>";
     pattern := "<iframe src=javascript:alert('xss')>";
     description := "Iframe with JavaScript URL" |};
  {| payload := "<body onload=alert('XSS')>";
     pattern := "<body onload=alert('xss')>";
     description := "Body tag with onload" |};
  {| payload := "<input onfocus=alert('XSS') autofocus>";
     pattern := "<input onfocus=alert('xss') autofocus>";
     description := "Input with autofocus" |};
  {| payload := "<marquee onstart=alert('XSS')>";
     pattern := "<marquee onstart=alert('xss')>";
     description := "Marquee tag exploitation" |};
  {| payload := "<details open ontoggle=alert('XSS')>";
     pattern := "<details open ontoggle=alert('xss')>";
     description := "Details tag with ontoggle" |}
].

Definition fallback_params : gmap string (list string) :=
  list_to_map [
    ("q", ["test"]); ("search", ["test"]); ("query", ["test"]);
    ("keyword", ["test"]); ("name", ["test"]); ("comment", ["test"]);
    ("message", ["test"]); ("input", ["test"])
  ].

Definition checkPartialReflection (body payload : string) : bool :=
  let cleanPayload := strings.ReplaceAll payload "<" EmptyString in
  let cleanPayload := strings.ReplaceAll cleanPayload ">" EmptyString in
  let cleanPayload := strings.ReplaceAll cleanPayload "'" EmptyString in
  let cleanPayload := strings.ReplaceAll cleanPayload dquote EmptyString in
  let cleanPayload := strings.ToLower cleanPayload in
  if strings.Contains cleanPayload "alert" && strings.Contains body "alert" then true
  else if strings.Contains cleanPayload "xss" && strings.Contains body "xss" then true
  else false.

Definition reflected_finding (paramName : string) (p : xssPayload) : Vulnerability :=
  {| Type_ := "xss"; Severity := "high";
     Location := sqli.param_location paramName;
     Payload := payload p;
     Evidence := "Payload reflected unescaped in response";
     Description := description p +:+
       " - Payload found in response without proper encoding" |}.

Definition partial_finding (paramName : string) (p : xssPayload) : Vulnerability :=
  {| Type_ := "xss"; Severity := "medium";
     Location := sqli.param_location paramName;
     Payload := payload p;
     Evidence := "Payload partially reflected, may be bypassable";
     Description := description p +:+ " - Input reflected with partial encoding" |}.

(** The loop over the payloads for one parameter. *)
Fixpoint test_payloads `{Env} (parsedURL : URL_) (queryParams : gmap string (list string))
    (paramName : string) (payloads : list xssPayload)
    (vulnerabilities : list Vulnerability) : M (list Vulnerability) :=
  match payloads with
  | [] => ret vulnerabilities
  | payloadInfo :: rest =>
      let testParams :=
        sqli.Values_Set (sqli.cloneURLValues queryParams) paramName (payload payloadInfo) in
      let testURL := sqli.test_url parsedURL testParams in
      let* r := client_Get testURL in
      match r with
      | Err _ => test_payloads parsedURL queryParams paramName rest vulnerabilities
      | Ok resp =>
          let bodyStr := strings.ToLower (Body resp) in
          if strings.Contains bodyStr (pattern payloadInfo) then
            ret (vulnerabilities ++ [reflected_finding paramName payloadInfo])
          else if checkPartialReflection bodyStr (payload payloadInfo) then
            ret (vulnerabilities ++ [partial_finding paramName payloadInfo])
          else
            let* _ := Sleep 100 in
            test_payloads parsedURL queryParams paramName rest vulnerabilities
      end
  end.

Fixpoint test_params `{Env} (parsedURL : URL_) (queryParams : gmap string (list string))
    (paramNames : list string) (vulnerabilities : list Vulnerability)
  : M (list Vulnerability) :=
  match paramNames with
  | [] => ret vulnerabilities
  | paramName :: rest =>
      let* vulnerabilities :=
        test_payloads parsedURL queryParams paramName xssPayloads vulnerabilities in
      test_params parsedURL queryParams rest vulnerabilities
  end.

Definition dangerousPatterns : list string := [
  "location.hash";
  "window.location.hash";
  "document.location.hash";
  "location.href";
  "document.write(";
  "eval(";
  "innerhtml";
  "outerhtml"
].

Definition dom_finding (dangerousPattern : string) : Vulnerability :=
  {| Type_ := "xss"; Severity := "medium";
     Location := "DOM (client-side JavaScript)";
     Payload := "DOM manipulation pattern detected";
     Evidence := "Found dangerous pattern: " +:+ dangerousPattern;
     Description :=
       "Page uses potentially unsafe DOM manipulation that could lead to XSS" |}.

(** The first dangerous pattern the body contains ([foundDangerous] and
    [dangerousPattern] of the code). *)
Fixpoint find_dangerous (patterns : list string) (bodyStr : string) : option string :=
  match patterns with
  | [] => None
  | p :: rest =>
      if strings.Contains bodyStr p then Some p else find_dangerous rest bodyStr
  end.

Definition testDOMXSS `{Env} (parsedURL : URL_) (vulnerabilities : list Vulnerability)
  : M (list Vulnerability) :=
  let testURL := Scheme parsedURL +:+ "://" +:+ Host parsedURL +:+ Path parsedURL +:+
                 "#<script>alert('XSS')</script>" in
  let* r := client_Get testURL in
  match r with
  | Err _ => ret vulnerabilities
  | Ok resp =>
      let bodyStr := strings.ToLower (Body resp) in
      match find_dangerous dangerousPatterns bodyStr with
      | Some dangerousPattern => ret (vulnerabilities ++ [dom_finding dangerousPattern])
      | None => ret vulnerabilities
      end
  end.

Definition ScanXSS `{Env} (target : TargetInfo) : M (result (list Vulnerability)) :=
  match url_Parse (URL target) with
  | Err e => ret (Err ("failed to parse URL: " +:+ e))
  | Ok parsedURL =>
      let queryParams := Query parsedURL in
      let queryParams :=
        if Z.of_nat (size queryParams) =? 0 then fallback_params else queryParams in
      let* vulnerabilities :=
        test_params parsedURL queryParams (range_order queryParams) [] in
      let* vulnerabilities := testDOMXSS parsedURL vulnerabilities in
      ret (Ok vulnerabilities)
  end.

End xss.

(** ** Package [orchestrator] *)

Module orchestrator.
Import models net.

(** [ScanOptions]; the [Progress] reporter is an interface whose calls are
    recorded in the log of the run ([PCall]). *)
Record ScanOptions := {
  SkipNmap : bool;
  SkipHeaders : bool;
  SkipTLS : bool;
  SkipSQLi : bool;
  SkipXSS : bool;
  Timeout : Z
}.

Inductive PCall : Type :=
| UpdateStatus (message : string)
| UpdateProgress (step : string) (percent : Z).

(** *** [CalculateRiskLevel] *)

Record counts := {
  criticalCount : Z;
  highCount : Z;
  mediumCount : Z
}.

(** The [switch vuln.Severity] in the body of the two loops. *)
Definition count_vuln (c : counts) (vuln : Vulnerability) : counts :=
  if String.eqb (Severity vuln) "critical" then
    {| criticalCount := criticalCount c + 1; highCount := highCount c;
       mediumCount := mediumCount c |}
  else if String.eqb (Severity vuln) "high" then
    {| criticalCount := criticalCount c; highCount := highCount c + 1;
       mediumCount := mediumCount c |}
  else if String.eqb (Severity vuln) "medium" then
    {| criticalCount := criticalCount c; highCount := highCount c;
       mediumCount := mediumCount c + 1 |}
  else c.

Definition count_tls (c : counts) (t : option TLSScan) : counts :=
  match t with
  | Some scan =>
      if negb (IsSecure scan) then
        {| criticalCount := criticalCount c; highCount := highCount c + 1;
           mediumCount := mediumCount c |}
      else c
  | None => c
  end.

Definition count_headers (c : counts) (h : option HeaderScan) : counts :=
  match h with
  | Some scan =>
      if SecurityScore scan <? 50 then
        {| criticalCount := criticalCount c; highCount := highCount c;
           mediumCount := mediumCount c + 1 |}
      else c
  | None => c
  end.

Definition risk_counts (result : ScanResult) : counts :=
  let c := {| criticalCount := 0; highCount := 0; mediumCount := 0 |} in
  let c := fold_left count_vuln (slice_elems (SQLiResults result)) c in
  let c := fold_left count_vuln (slice_elems (XSSResults result)) c in
  let c := count_tls c (TLSResults result) in
  count_headers c (HeaderResults result).

Definition CalculateRiskLevel (result : ScanResult) : string :=
  let c := risk_counts result in
  if 0 <? criticalCount c then "CRITICAL"
  else if 0 <? highCount c then "HIGH"
  else if 0 <? mediumCount c then "MEDIUM"
  else "LOW".

(** *** [RunSecurityScan]

    The five units are goroutines; what each does to the shared state is a
    sequence of four atomic actions (the two critical sections are guarded
    by the mutex [mu]):
    - [Start u]: the status line, after which the analyzer runs on its own;
    - [Write u]: the first critical section, which assigns the analyzer's
      output or appends its error;
    - [Count u]: the critical section of [updateProgress], which increments
      [completedScans] and divides by [totalScans];
    - [Report u]: the call of [UpdateProgress], after which the unit is
      done for the wait group.
    A run is an interleaving of these actions followed by the [select],
    which takes the [done] branch only if every launched unit is done, and
    may take the [ctx.Done()] branch at any point: when the deadline has
    passed is decided outside the program (a [Timeout] of zero or less has
    passed when the [select] is reached). *)

Inductive Unit_ : Type := UHeaders | UTLS | USQLi | UXSS | UNmap.

Definition Unit_eqb (a b : Unit_) : bool :=
  match a, b with
  | UHeaders, UHeaders | UTLS, UTLS | USQLi, USQLi | UXSS, UXSS | UNmap, UNmap => true
  | _, _ => false
  end.

Inductive Action : Type :=
| Start (u : Unit_)
| Write (u : Unit_)
| Count (u : Unit_)
| Report (u : Unit_).

Inductive Phase : Type :=
| NotLaunched
| Launched
| Running
| Wrote
| Counted (percent : Z)
| Finished.

(** What the host gives a run: whether the [nmap] binary is found (asked
    when the units are counted and when they are launched; the host does
    not change in between), the outcome of the external port probe, the
    world each analyzer's goroutine meets, and the two readings of the
    clock. *)
Record Host `{Env} := {
  IsNmapInstalled : bool;
  ScanNmap : TargetInfo -> Z -> result NmapScan;
  world_of : Unit_ -> World;
  start_time : Z;
  end_time : Z
}.

Record OState := {
  res : ScanResult;
  completedScans : Z;
  phase : Unit_ -> Phase;
  plog : list PCall
}.

Definition set_phase (f : Unit_ -> Phase) (u : Unit_) (p : Phase) : Unit_ -> Phase :=
  fun v => if Unit_eqb v u then p else f v.

(** [result.Errors = append(result.Errors, e)]. *)
Definition add_error (r : ScanResult) (e : error) : ScanResult :=
  {| Target := Target r; StartTime := StartTime r; EndTime := EndTime r;
     NmapResults := NmapResults r; HeaderResults := HeaderResults r;
     TLSResults := TLSResults r; SQLiResults := SQLiResults r;
     XSSResults := XSSResults r; Errors := Errors r ++ [e];
     RiskLevel := RiskLevel r |}.

Definition set_HeaderResults (r : ScanResult) (v : HeaderScan) : ScanResult :=
  {| Target := Target r; StartTime := StartTime r; EndTime := EndTime r;
     NmapResults := NmapResults r; HeaderResults := Some v;
     TLSResults := TLSResults r; SQLiResults := SQLiResults r;
     XSSResults := XSSResults r; Errors := Errors r;
     RiskLevel := RiskLevel r |}.

Definition set_TLSResults (r : ScanResult) (v : TLSScan) : ScanResult :=
  {| Target := Target r; StartTime := StartTime r; EndTime := EndTime r;
     NmapResults := NmapResults r; HeaderResults := HeaderResults r;
     TLSResults := Some v; SQLiResults := SQLiResults r;
     XSSResults := XSSResults r; Errors := Errors r;
     RiskLevel := RiskLevel r |}.

Definition set_SQLiResults (r : ScanResult) (v : list Vulnerability) : ScanResult :=
  {| Target := Target r; StartTime := StartTime r; EndTime := EndTime r;
     NmapResults := NmapResults r; HeaderResults := HeaderResults r;
     TLSResults := TLSResults r; SQLiResults := Some v;
     XSSResults := XSSResults r; Errors := Errors r;
     RiskLevel := RiskLevel r |}.

Definition set_XSSResults (r : ScanResult) (v : list Vulnerability) : ScanResult :=
  {| Target := Target r; StartTime := StartTime r; EndTime := EndTime r;
     NmapResults := NmapResults r; HeaderResults := HeaderResults r;
     TLSResults := TLSResults r; SQLiResults := SQLiResults r;
     XSSResults := Some v; Errors := Errors r;
     RiskLevel := RiskLevel r |}.

Definition set_NmapResults (r : ScanResult) (v : NmapScan) : ScanResult :=
  {| Target := Target r; StartTime := StartTime r; EndTime := EndTime r;
     NmapResults := Some v; HeaderResults := HeaderResults r;
     TLSResults := TLSResults r; SQLiResults := SQLiResults r;
     XSSResults := XSSResults r; Errors := Errors r;
     RiskLevel := RiskLevel r |}.

(** The test [!options.SkipX] that guards both the count and the launch
    of a unit. *)
Definition enabled `{Env} (h : Host) (options : ScanOptions) (u : Unit_) : bool :=
  match u with
  | UHeaders => negb (SkipHeaders options)
  | UTLS => negb (SkipTLS options)
  | USQLi => negb (SkipSQLi options)
  | UXSS => negb (SkipXSS options)
  | UNmap => negb (SkipNmap options) && IsNmapInstalled h
  end.

Definition all_units : list Unit_ := [UHeaders; UTLS; USQLi; UXSS; UNmap].

(** [totalScans] after the five conditional increments. *)
Definition totalScans `{Env} (h : Host) (options : ScanOptions) : Z :=
  fold_left (fun n u => if enabled h options u then n + 1 else n) all_units 0.

(** What the analyzer of a unit returns, as the error or the assignment
    its first critical section makes. *)
Definition write_unit `{Env} (h : Host) (target : TargetInfo) (options : ScanOptions)
    (u : Unit_) (r : ScanResult) : ScanResult :=
  match u with
  | UHeaders =>
      match fst (headers_scan.ScanHeaders target (world_of h UHeaders, [])) with
      | Err err => add_error r err
      | Ok headerScan => set_HeaderResults r headerScan
      end
  | UTLS =>
      match fst (tls.ScanTLS target (world_of h UTLS, [])) with
      | Err err => add_error r err
      | Ok tlsScan => set_TLSResults r tlsScan
      end
  | USQLi =>
      match fst (sqli.ScanSQLi target (world_of h USQLi, [])) with
      | Err err => add_error r err
      | Ok sqliVulns => set_SQLiResults r sqliVulns
      end
  | UXSS =>
      match fst (xss.ScanXSS target (world_of h UXSS, [])) with
      | Err err => add_error r err
      | Ok xssVulns => set_XSSResults r xssVulns
      end
  | UNmap =>
      let nmapTimeout := Z.quot (Timeout options) 2 in
      match ScanNmap h target nmapTimeout with
      | Err err => add_error r err
      | Ok nmapScan => set_NmapResults r nmapScan
      end
  end.

Definition status_message (u : Unit_) : string :=
  match u with
  | UHeaders => "Scanning HTTP security headers..."
  | UTLS => "Analyzing TLS/SSL configuration..."
  | USQLi => "Testing for SQL injection vulnerabilities..."
  | UXSS => "Testing for Cross-Site Scripting (XSS)..."
  | UNmap => "Running Nmap port scan..."
  end.

Definition scanName (u : Unit_) : string :=
  match u with
  | UHeaders => "Security Headers"
  | UTLS => "TLS/SSL"
  | USQLi => "SQL Injection"
  | UXSS => "XSS"
  | UNmap => "Nmap"
  end.

Inductive StepResult : Type :=
| Stepped (st : OState)
| DivideByZero                 (* the run-time panic of an integer division by zero *)
| NotEnabled.                  (* the action is not the next one of its unit *)

Definition step `{Env} (h : Host) (target : TargetInfo) (options : ScanOptions)
    (a : Action) (st : OState) : StepResult :=
  match a with
  | Start u =>
      match phase st u with
      | Launched =>
          Stepped {| res := res st; completedScans := completedScans st;
                     phase := set_phase (phase st) u Running;
                     plog := plog st ++ [UpdateStatus (status_message u)] |}
      | _ => NotEnabled
      end
  | Write u =>
      match phase st u with
      | Running =>
          Stepped {| res := write_unit h target options u (res st);
                     completedScans := completedScans st;
                     phase := set_phase (phase st) u Wrote;
                     plog := plog st |}
      | _ => NotEnabled
      end
  | Count u =>
      match phase st u with
      | Wrote =>
          let completed := completedScans st + 1 in
          if totalScans h options =? 0 then DivideByZero
          else
            let percent := Z.quot (completed * 100) (totalScans h options) in
            Stepped {| res := res st; completedScans := completed;
                       phase := set_phase (phase st) u (Counted percent);
                       plog := plog st |}
      | _ => NotEnabled
      end
  | Report u =>
      match phase st u with
      | Counted percent =>
          Stepped {| res := res st; completedScans := completedScans st;
                     phase := set_phase (phase st) u Finished;
                     plog := plog st ++
                       [UpdateProgress ("Completed " +:+ scanName u) percent] |}
      | _ => NotEnabled
      end
  end.

Fixpoint run_actions `{Env} (h : Host) (target : TargetInfo) (options : ScanOptions)
    (schedule : list Action) (st : OState) : StepResult :=
  match schedule with
  | [] => Stepped st
  | a :: rest =>
      match step h target options a st with
      | Stepped st' => run_actions h target options rest st'
      | DivideByZero => DivideByZero
      | NotEnabled => NotEnabled
      end
  end.

(** The state when the goroutines have been launched. *)
Definition launch `{Env} (h : Host) (target : TargetInfo) (options : ScanOptions)
  : OState :=
  {| res := {| Target := target; StartTime := start_time h; EndTime := 0;
               NmapResults := None; HeaderResults := None; TLSResults := None;
               SQLiResults := None; XSSResults := None; Errors := [];
               RiskLevel := EmptyString |};
     completedScans := 0;
     phase := fun u => if enabled h options u then Launched else NotLaunched;
     plog := [] |}.

(** [wg.Wait()] has returned: no launched unit is still at work. *)
Definition unit_done (p : Phase) : bool :=
  match p with
  | NotLaunched | Finished => true
  | _ => false
  end.

Definition all_done (st : OState) : bool :=
  forallb (fun u => unit_done (phase st u)) all_units.

(** The code after the [select]. *)
Definition finalize `{Env} (h : Host) (r : ScanResult) : ScanResult :=
  let r := {| Target := Target r; StartTime := StartTime r; EndTime := end_time h;
              NmapResults := NmapResults r; HeaderResults := HeaderResults r;
              TLSResults := TLSResults r; SQLiResults := SQLiResults r;
              XSSResults := XSSResults r; Errors := Errors r;
              RiskLevel := RiskLevel r |} in
  {| Target := Target r; StartTime := StartTime r; EndTime := EndTime r;
     NmapResults := NmapResults r; HeaderResults := HeaderResults r;
     TLSResults := TLSResults r; SQLiResults := SQLiResults r;
     XSSResults := XSSResults r; Errors := Errors r;
     RiskLevel := CalculateRiskLevel r |}.

(** What a run of [RunSecurityScan] comes to: the two values it returns
    (a nil pointer or a nil error being [None]) and the calls the progress
    reporter received, or a panic, or [NotARun] when [schedule] and
    [deadline_first] do not describe a run of this launch. *)
Inductive Outcome : Type :=
| Returned (result : option ScanResult) (err : option error) (progress : list PCall)
| Panicked
| NotARun.

Definition RunSecurityScan `{Env} (h : Host) (target : TargetInfo)
    (options : ScanOptions) (schedule : list Action) (deadline_first : bool)
  : Outcome :=
  match run_actions h target options schedule (launch h target options) with
  | DivideByZero => Panicked
  | NotEnabled => NotARun
  | Stepped st =>
      if deadline_first then
        let result := add_error (res st) "scan timeout exceeded" in
        Returned (Some (finalize h result)) None
                 (plog st ++ [UpdateProgress "All scans complete" 100])
      else if all_done st then
        Returned (Some (finalize h (res st))) None
                 (plog st ++ [UpdateProgress "All scans complete" 100])
      else NotARun
  end.

End orchestrator.

(** ** Notions used to state the properties *)

Module props.
Import models orchestrator.

(** Some SQLi or XSS vulnerability of the result has severity [s]. *)
Definition any_severity (s : string) (result : ScanResult) : bool :=
  existsb (fun vuln => String.eqb (Severity vuln) s)
    (slice_elems (SQLiResults result) ++ slice_elems (XSSResults result)).

(** The TLS result is present with [IsSecure = false]. *)
Definition tls_insecure (result : ScanResult) : bool :=
  match TLSResults result with
  | Some scan => negb (IsSecure scan)
  | None => false
  end.

(** The header result is present with a score below 50. *)
Definition header_score_low (result : ScanResult) : bool :=
  match HeaderResults result with
  | Some scan => SecurityScore scan <? 50
  | None => false
  end.

(** The number of vulnerabilities of a list with severity [s]. *)
Definition severity_count (s : string) (vulns : list Vulnerability) : Z :=
  Z.of_nat (length (List.filter (fun vuln => String.eqb (Severity vuln) s) vulns)).

(** The three ways the header analyzer files a definition. *)
Definition as_missing (header : gmap string (list string))
    (d : headers.SecurityHeaderDefinition) : option SecurityHeader :=
  match header !! headers.def_Name d with
  | None =>
      Some {| hdr_Name := headers.def_Name d; hdr_Value := EmptyString;
              hdr_Status := "missing";
              hdr_Severity := headers.def_Severity d;
              hdr_Description := headers.def_Description d |}
  | Some _ => None
  end.

Definition as_weak (header : gmap string (list string))
    (d : headers.SecurityHeaderDefinition) : option SecurityHeader :=
  match header !! headers.def_Name d with
  | Some value =>
      if headers.isWeakHeader (headers.def_Name d) (strings.Join value "; ")
      then Some {| hdr_Name := headers.def_Name d;
                   hdr_Value := strings.Join value "; ";
                   hdr_Status := "weak";
                   hdr_Severity := headers.def_Severity d;
                   hdr_Description :=
                     headers.def_Description d +:+ " (weak configuration)" |}
      else None
  | None => None
  end.

Definition as_present (header : gmap string (list string))
    (d : headers.SecurityHeaderDefinition) : option SecurityHeader :=
  match header !! headers.def_Name d with
  | Some value =>
      if headers.isWeakHeader (headers.def_Name d) (strings.Join value "; ")
      then None
      else Some {| hdr_Name := headers.def_Name d;
                   hdr_Value := strings.Join value "; ";
                   hdr_Status := "present";
                   hdr_Severity := "info";
                   hdr_Description := headers.def_Description d |}
  | None => None
  end.

(** The names of the entries of the three lists of a scan, in the order
    missing, weak, present. *)
Definition filed_names (scan : HeaderScan) : list string :=
  map hdr_Name (MissingHeaders scan) ++ map hdr_Name (WeakHeaders scan) ++
  map hdr_Name (PresentHeaders scan).

(** The number of definitions whose header is in the response with a value
    that is not weak. *)
Definition strong_count (header : gmap string (list string)) : Z :=
  Z.of_nat (length (omap (as_present header) headers.securityHeaders)).



(** A cipher suite in CBC mode, by its name in [crypto/tls]. *)
Definition is_cbc_suite (suite : Z) : bool :=
  strings.Contains (tls.CipherSuiteName suite) "_CBC_".













Definition unit_in (u : Unit_) (l : list Unit_) : bool :=
  existsb (Unit_eqb u) l.

Definition timeout_error : error := "scan timeout exceeded".



End props.

(** ** Concrete inputs *)

Module examples.
Import models net.

(** A response with two of the seven headers, both with strong values. *)
Definition two_strong : gmap string (list string) :=
  <["X-Frame-Options" := ["SAMEORIGIN"]]>
    (<["X-Content-Type-Options" := ["nosniff"]]> ∅).



(** An environment without state: each request is answered by a fixed
    function of the request, and the clock stands at [now]. Query strings
    are encoded without escaping. *)
Definition encode_plain (v : gmap string (list string)) : string :=
  strings.Join
    (map (fun kv => fst kv +:+ "=" +:+ strings.Join (snd kv) ",") (map_to_list v)) "&".

Definition static_env
    (head get : string -> result Response)
    (dial : string -> Config -> result ConnectionState)
    (now : Z)
    (parse : string -> result URL_) : Env :=
  {| World := unit;
     http_Head := fun url w => (head url, w);
     http_Get := fun url w => (get url, w);
     tls_Dial := fun addr cfg w => (dial addr cfg, w);
     time_Now := fun w => (now, w);
     url_Parse := parse;
     Values_Encode := encode_plain;
     url_PathEscape := fun s => s;
     range_order := fun v => (map_to_list v).*1;
     range_order_perm := fun v => Permutation_refl ((map_to_list v).*1) |}.

Definition no_http (url : string) : result Response := Err "connection refused".
Definition no_dial (addr : string) (cfg : Config) : result ConnectionState :=
  Err "connection refused".
Definition no_parse (url : string) : result URL_ := Err "invalid URL".

Definition http_target : TargetInfo :=
  {| URL := "http://example.test/"; Domain := "example.test";
     IP := "192.0.2.1"; Protocol := "http"; Port := 80 |}.

Definition https_target : TargetInfo :=
  {| URL := "https://example.test/"; Domain := "example.test";
     IP := "192.0.2.1"; Protocol := "https"; Port := 443 |}.

(** A leaf certificate whose validity ended at time 1000; the clock of the
    examples stands at 5000. *)
Definition old_cert : x509_Certificate :=
  {| cert_Issuer := "CN=Test CA"; cert_Subject := "CN=example.test";
     NotBefore := 0; NotAfter := 1000 |}.

(** A server that negotiates [version] and [suite] in an unpinned
    handshake and refuses the handshakes pinned to a version or to a list
    of cipher suites. *)
Definition dial_once (version suite : Z) (addr : string) (cfg : Config)
  : result ConnectionState :=
  if (MinVersion cfg =? 0) && (Z.of_nat (length (CipherSuites cfg)) =? 0)
  then Ok {| cs_Version := version; cs_CipherSuite := suite;
             PeerCertificates := [old_cert] |}
  else Err "handshake failure".

Definition tls_env (version suite : Z) : Env :=
  static_env no_http no_http (dial_once version suite) 5000 no_parse.

(** The environment of the examples of the orchestrator. *)
Definition demo_env : Env := tls_env 0x0301 0x002f.





Definition page (status : Z) (body : string) : result Response :=
  Ok {| StatusCode := status; Header := ∅; Body := body |}.
















(** A host without the [nmap] binary, whose analyzers all meet the same
    world. *)
Definition plain_host `{Env} (w : World) : orchestrator.Host :=
  {| orchestrator.IsNmapInstalled := false;
     orchestrator.ScanNmap := fun _ _ => Err "nmap is not installed or not in PATH";
     orchestrator.world_of := fun _ => w;
     orchestrator.start_time := 1000;
     orchestrator.end_time := 2000 |}.

(** Every category skipped, and the zero value of the timeout. *)
Definition all_skipped : orchestrator.ScanOptions :=
  {| orchestrator.SkipNmap := true; orchestrator.SkipHeaders := true;
     orchestrator.SkipTLS := true; orchestrator.SkipSQLi := true;
     orchestrator.SkipXSS := true; orchestrator.Timeout := 0 |}.


End examples.

(** ** Package [scanner]: the recommendations *)

Module recommendations.
Import models.

(** The [switch header.Name] of the loop over the missing headers: six of
    the seven names have a recommendation. *)
Definition missing_recommendation (name : string) : option string :=
  if String.eqb name "Strict-Transport-Security" then
    Some "Add HSTS header: Strict-Transport-Security: max-age=31536000; includeSubDomains; preload"
  else if String.eqb name "Content-Security-Policy" then
    Some "Add CSP header: Content-Security-Policy: default-src 'self'; script-src 'self'; object-src 'none'"
  else if String.eqb name "X-Frame-Options" then
    Some "Add X-Frame-Options: DENY or SAMEORIGIN to prevent clickjacking"
  else if String.eqb name "X-Content-Type-Options" then
    Some "Add X-Content-Type-Options: nosniff to prevent MIME sniffing"
  else if String.eqb name "Referrer-Policy" then
    Some "Add Referrer-Policy: strict-origin-when-cross-origin or no-referrer"
  else if String.eqb name "Permissions-Policy" then
    Some "Add Permissions-Policy to control browser features"
  else None.

Definition recommend_missing (recs : list string) (header : SecurityHeader)
  : list string :=
  match missing_recommendation (hdr_Name header) with
  | Some r => recs ++ [r]
  | None => recs
  end.

Definition recommend_weak (recs : list string) (header : SecurityHeader)
  : list string :=
  recs ++ ["Strengthen " +:+ hdr_Name header +:+ ": Current value is weak"].

Definition GetHeaderRecommendations (scan : HeaderScan) : list string :=
  let recs := fold_left recommend_missing (MissingHeaders scan) [] in
  fold_left recommend_weak (WeakHeaders scan) recs.

Definition GetTLSRecommendations (scan : TLSScan) : list string :=
  let recs := [] in
  let recs :=
    if negb (IsSecure scan) then recs ++ ["Upgrade to TLS 1.3 for best security"]
    else recs in
  let recs :=
    if strings.Contains (tls_Protocol scan) "TLS 1.0" ||
       strings.Contains (tls_Protocol scan) "TLS 1.1"
    then recs ++ ["Disable TLS 1.0 and 1.1 (known vulnerabilities)"]
    else recs in
  let recs :=
    if IsExpired (Certificate scan) then recs ++ ["Renew SSL certificate immediately"]
    else if DaysToExpiry (Certificate scan) <? 30
    then recs ++ ["Plan certificate renewal soon"]
    else recs in
  if 0 <? Z.of_nat (length (tls_Vulnerabilities scan)) then
    (recs ++ ["Address identified TLS vulnerabilities"])
      ++ ["Consider using Mozilla SSL Configuration Generator"]
  else recs.

Definition GetSQLiRecommendations (vulnerabilities : list Vulnerability)
  : list string :=
  if Z.of_nat (length vulnerabilities) =? 0 then []
  else [
    "Use parameterized queries (prepared statements) for all database operations";
    "Implement input validation and sanitization";
    "Use ORM frameworks that handle SQL escaping automatically";
    "Apply principle of least privilege to database accounts";
    "Enable WAF (Web Application Firewall) with SQL injection rules";
    "Never concatenate user input directly into SQL queries";
    "Implement proper error handling (don't expose SQL errors to users)";
    "Regular security audits and penetration testing"
  ].

Definition GetXSSRecommendations (vulnerabilities : list Vulnerability)
  : list string :=
  if Z.of_nat (length vulnerabilities) =? 0 then []
  else
    let recommendations := [
      "Implement proper output encoding based on context (HTML, JavaScript, URL, CSS)";
      "Use Content-Security-Policy (CSP) headers to mitigate XSS impact";
      "Validate and sanitize all user input on the server side";
      "Use security-focused template engines with auto-escaping";
      "Avoid using dangerous functions like eval(), innerHTML, document.write()";
      "Set HttpOnly flag on cookies to prevent JavaScript access";
      "Use DOM-based APIs like textContent instead of innerHTML when possible";
      "Implement input validation with whitelist approach";
      "Regular security testing and code reviews"
    ] in
    let hasDOMXSS :=
      existsb (fun vuln => strings.Contains (Location vuln) "DOM") vulnerabilities in
    if hasDOMXSS then
      recommendations ++ [
        "Review all client-side JavaScript for unsafe DOM manipulation";
        "Avoid using location.hash, location.search directly without sanitization"
      ]
    else recommendations.

End recommendations.

(** ** Package [report] *)

Module report.
Import models.

Definition getRiskColor (risk : string) : string :=
  if String.eqb risk "CRITICAL" then "#dc3545"
  else if String.eqb risk "HIGH" then "#fd7e14"
  else if String.eqb risk "MEDIUM" then "#ffc107"
  else if String.eqb risk "LOW" then "#28a745"
  else "#6c757d".

Definition getSeverityColor (severity : string) : string :=
  if String.eqb severity "critical" then "#dc3545"
  else if String.eqb severity "high" then "#fd7e14"
  else if String.eqb severity "medium" then "#ffc107"
  else if String.eqb severity "low" then "#28a745"
  else "#6c757d".

Definition getRiskEmoji (risk : string) : string :=
  if String.eqb risk "CRITICAL" then "🔴"
  else if String.eqb risk "HIGH" then "🟠"
  else if String.eqb risk "MEDIUM" then "🟡"
  else if String.eqb risk "LOW" then "🟢"
  else "⚪".

(** [truncate]: the slice [s[:maxLen-3]] panics when [maxLen - 3] is
    negative (the upper bound holds, as [len(s) > maxLen]); [None] is the
    panic. *)
Fixpoint take (n : nat) (s : string) : string :=
  match n, s with
  | S n', String c s' => String c (take n' s')
  | _, _ => EmptyString
  end.

Definition truncate (s : string) (maxLen : Z) : option string :=
  if sqli.len s <=? maxLen then Some s
  else if maxLen - 3 <? 0 then None
  else Some (take (Z.to_nat (maxLen - 3)) s +:+ "...").

Record TemplateData := {
  Result : ScanResult;
  GeneratedAt : string;
  RiskColor : string;
  RiskEmoji : string;
  HeaderScore : Z;
  TLSScore : Z;
  SQLiCount : Z;
  XSSCount : Z;
  OpenPortsCount : Z;
  TotalVulns : Z;
  CriticalCount : Z;
  HighCount : Z;
  MediumCount : Z;
  LowCount : Z;
  HeaderRecs : list string;
  TLSRecs : list string;
  SQLiRecs : list string;
  XSSRecs : list string;
  PriorityActions : list string
}.

(** The five counters the two loops of [prepareTemplateData] update. *)
Record tally := {
  t_total : Z;
  t_critical : Z;
  t_high : Z;
  t_medium : Z;
  t_low : Z
}.

Definition tally_vuln (t : tally) (vuln : Vulnerability) : tally :=
  let t := {| t_total := t_total t + 1; t_critical := t_critical t;
              t_high := t_high t; t_medium := t_medium t; t_low := t_low t |} in
  if String.eqb (Severity vuln) "critical" then
    {| t_total := t_total t; t_critical := t_critical t + 1;
       t_high := t_high t; t_medium := t_medium t; t_low := t_low t |}
  else if String.eqb (Severity vuln) "high" then
    {| t_total := t_total t; t_critical := t_critical t;
       t_high := t_high t + 1; t_medium := t_medium t; t_low := t_low t |}
  else if String.eqb (Severity vuln) "medium" then
    {| t_total := t_total t; t_critical := t_critical t;
       t_high := t_high t; t_medium := t_medium t + 1; t_low := t_low t |}
  else if String.eqb (Severity vuln) "low" then
    {| t_total := t_total t; t_critical := t_critical t;
       t_high := t_high t; t_medium := t_medium t; t_low := t_low t + 1 |}
  else t.

Definition buildPriorityActionsList (result : ScanResult) (criticalCount : Z)
  : list string :=
  let actions := [] in
  let actions :=
    if 0 <? criticalCount then
      actions ++ ["🚨 CRITICAL: Fix " +:+ pretty criticalCount +:+
                  " critical vulnerabilities immediately"]
    else actions in
  let actions :=
    if 0 <? Z.of_nat (length (slice_elems (SQLiResults result))) then
      actions ++ ["💉 Implement parameterized queries to prevent SQL injection"]
    else actions in
  let actions :=
    if 0 <? Z.of_nat (length (slice_elems (XSSResults result))) then
      actions ++ ["🎯 Add proper input validation and output encoding for XSS prevention"]
    else actions in
  let actions :=
    match TLSResults result with
    | Some scan =>
        if negb (IsSecure scan) then
          actions ++ ["🔐 Upgrade TLS configuration to TLS 1.3 with strong ciphers"]
        else actions
    | None => actions
    end in
  let actions :=
    match HeaderResults result with
    | Some scan =>
        if SecurityScore scan <? 50 then
          actions ++ ["🛡️ Implement missing security headers (HSTS, CSP, X-Frame-Options)"]
        else actions
    | None => actions
    end in
  if Z.of_nat (length actions) =? 0 then
    actions ++ ["✅ No immediate priority actions required. Continue monitoring security posture."]
  else actions.

(** [prepareTemplateData]; [generatedAt] is the formatted reading of the
    clock. *)
Definition prepareTemplateData (result : ScanResult) (generatedAt : string)
  : TemplateData :=
  let t0 := {| t_total := 0; t_critical := 0; t_high := 0; t_medium := 0; t_low := 0 |} in
  let t := fold_left tally_vuln (slice_elems (SQLiResults result)) t0 in
  let t := fold_left tally_vuln (slice_elems (XSSResults result)) t in
  {| Result := result;
     GeneratedAt := generatedAt;
     RiskColor := getRiskColor (RiskLevel result);
     RiskEmoji := getRiskEmoji (RiskLevel result);
     HeaderScore :=
       match HeaderResults result with Some scan => SecurityScore scan | None => 0 end;
     TLSScore :=
       match TLSResults result with Some scan => Score scan | None => 0 end;
     SQLiCount := Z.of_nat (length (slice_elems (SQLiResults result)));
     XSSCount := Z.of_nat (length (slice_elems (XSSResults result)));
     OpenPortsCount :=
       match NmapResults result with
       | Some scan => Z.of_nat (length (OpenPorts scan))
       | None => 0
       end;
     TotalVulns := t_total t;
     CriticalCount := t_critical t;
     HighCount := t_high t;
     MediumCount := t_medium t;
     LowCount := t_low t;
     HeaderRecs :=
       match HeaderResults result with
       | Some scan => recommendations.GetHeaderRecommendations scan
       | None => []
       end;
     TLSRecs :=
       match TLSResults result with
       | Some scan => recommendations.GetTLSRecommendations scan
       | None => []
       end;
     SQLiRecs := recommendations.GetSQLiRecommendations (slice_elems (SQLiResults result));
     XSSRecs := recommendations.GetXSSRecommendations (slice_elems (XSSResults result));
     PriorityActions := buildPriorityActionsList result (t_critical t) |}.

End report.

(** ** Package [report]: the functions of the Markdown report *)

Module markdown.
Import models.

(** The line feed of the Go string literals. *)
Definition nl : string := String (ascii_of_nat 10) EmptyString.

Definition getSeverityEmoji (severity : string) : string :=
  if String.eqb severity "critical" then "🔴"
  else if String.eqb severity "high" then "🟠"
  else if String.eqb severity "medium" then "🟡"
  else if String.eqb severity "low" then "🟢"
  else "⚪".

Definition buildExecutiveSummary (result : ScanResult) : string :=
  let totalVulns :=
    Z.of_nat (length (slice_elems (SQLiResults result))) +
    Z.of_nat (length (slice_elems (XSSResults result))) in
  let sb := EmptyString in
  let sb :=
    if (totalVulns =? 0) &&
       match HeaderResults result with
       | Some scan => 70 <? SecurityScore scan
       | None => false
       end &&
       match TLSResults result with
       | Some scan => IsSecure scan
       | None => false
       end
    then
      (sb +:+ "✅ **Good Security Posture**: No critical vulnerabilities detected. ")
        +:+ "The target demonstrates good security practices." +:+ nl +:+ nl
    else
      (sb +:+ "⚠️ **Security Issues Detected**: ")
        +:+ "Found " +:+ pretty totalVulns +:+ " vulnerabilities requiring attention."
        +:+ nl +:+ nl in
  let sb := sb +:+ "### Quick Stats" +:+ nl +:+ nl in
  let sb :=
    match HeaderResults result with
    | Some scan =>
        sb +:+ "- **Security Headers**: " +:+ pretty (SecurityScore scan) +:+
        "/100 score" +:+ nl
    | None => sb
    end in
  let sb :=
    match TLSResults result with
    | Some scan => sb +:+ "- **TLS/SSL**: " +:+ pretty (Score scan) +:+ "/100 score" +:+ nl
    | None => sb
    end in
  let sb :=
    sb +:+ "- **SQL Injection**: " +:+
    pretty (Z.of_nat (length (slice_elems (SQLiResults result)))) +:+
    " vulnerabilities" +:+ nl in
  let sb :=
    sb +:+ "- **XSS**: " +:+
    pretty (Z.of_nat (length (slice_elems (XSSResults result)))) +:+
    " vulnerabilities" +:+ nl in
  match NmapResults result with
  | Some scan =>
      sb +:+ "- **Open Ports**: " +:+ pretty (Z.of_nat (length (OpenPorts scan))) +:+ nl
  | None => sb
  end.

(** The two loops of [buildPriorityActions] that count the critical
    findings. *)
Definition count_critical (n : Z) (v : Vulnerability) : Z :=
  if String.eqb (Severity v) "critical" then n + 1 else n.

(** [buildPriorityActions]: the builder and the number of the next item. *)
Definition buildPriorityActions (result : ScanResult) : string :=
  let criticalCount := fold_left count_critical (slice_elems (SQLiResults result)) 0 in
  let criticalCount :=
    fold_left count_critical (slice_elems (XSSResults result)) criticalCount in
  let '(sb, priority) := (EmptyString, 1) in
  let '(sb, priority) :=
    if 0 <? criticalCount then
      (sb +:+ pretty priority +:+ ". 🚨 **CRITICAL**: Fix " +:+ pretty criticalCount +:+
       " critical vulnerabilities immediately" +:+ nl, priority + 1)
    else (sb, priority) in
  let '(sb, priority) :=
    if 0 <? Z.of_nat (length (slice_elems (SQLiResults result))) then
      (sb +:+ pretty priority +:+
       ". 💉 Implement parameterized queries to prevent SQL injection" +:+ nl,
       priority + 1)
    else (sb, priority) in
  let '(sb, priority) :=
    if 0 <? Z.of_nat (length (slice_elems (XSSResults result))) then
      (sb +:+ pretty priority +:+
       ". 🎯 Add proper input validation and output encoding for XSS prevention" +:+ nl,
       priority + 1)
    else (sb, priority) in
  let '(sb, priority) :=
    match TLSResults result with
    | Some scan =>
        if negb (IsSecure scan) then
          (sb +:+ pretty priority +:+
           ". 🔐 Upgrade TLS configuration to TLS 1.3 with strong ciphers" +:+ nl,
           priority + 1)
        else (sb, priority)
    | None => (sb, priority)
    end in
  let '(sb, priority) :=
    match HeaderResults result with
    | Some scan =>
        if SecurityScore scan <? 50 then
          (sb +:+ pretty priority +:+
           ". 🛡️ Implement missing security headers (HSTS, CSP, X-Frame-Options)" +:+ nl,
           priority + 1)
        else (sb, priority)
    | None => (sb, priority)
    end in
  if priority =? 1 then
    sb +:+ "✅ No immediate priority actions required. Continue monitoring security posture."
       +:+ nl
  else sb.

End markdown.

(** ** Package [scanner]: the port probe *)

Module nmap.
Import models.

(** The values [encoding/xml] fills from the output of [nmap]. *)
Record NmapAddress := { Addr : string; AddrType : string }.
Record NmapState := { state_State : string }.
Record NmapService := { svc_Name : string; Product : string; svc_Version : string }.
Record NmapPort := {
  np_Protocol : string;
  PortID : Z;
  np_State : NmapState;
  np_Service : NmapService
}.
Record NmapPorts := { Ports : list NmapPort }.
Record NmapHost := { Addresses : list NmapAddress; host_Ports : NmapPorts }.
Record NmapRun := { Hosts : list NmapHost }.

(** The body of the inner loop of [parseNmapXML]. *)
Definition add_port (openPorts : list Port_) (port : NmapPort) : list Port_ :=
  if String.eqb (state_State (np_State port)) "open" then
    let serviceVersion := Product (np_Service port) in
    let serviceVersion :=
      if negb (String.eqb (svc_Version (np_Service port)) EmptyString)
      then serviceVersion +:+ " " +:+ svc_Version (np_Service port)
      else serviceVersion in
    openPorts ++ [{| Number := PortID port;
                     port_Protocol := np_Protocol port;
                     State := state_State (np_State port);
                     Service := svc_Name (np_Service port);
                     Version := serviceVersion |}]
  else openPorts.

Definition add_host (openPorts : list Port_) (host : NmapHost) : list Port_ :=
  fold_left add_port (Ports (host_Ports host)) openPorts.

(** [parseNmapXML]; [xml_Unmarshal] is [xml.Unmarshal] into an [NmapRun]. *)
Definition parseNmapXML (xml_Unmarshal : string -> result NmapRun) (data : string)
  : result NmapScan :=
  match xml_Unmarshal data with
  | Err err => Err err
  | Ok nmapRun =>
      Ok {| OpenPorts := fold_left add_host (Hosts nmapRun) []; Duration := 0 |}
  end.

(** [ScanNmap]: what the host gives it is whether the binary is found, what
    the command printed and the error of its execution, if any, and the
    time the scan took. *)
Definition ScanNmap (installed : bool) (output : string) (err : option error)
    (xml_Unmarshal : string -> result NmapRun) (duration : Z) : result NmapScan :=
  if negb installed then Err "nmap is not installed or not in PATH"
  else
    match err with
    | Some err =>
        Err ("nmap execution failed: " +:+ err +:+ " (output: " +:+ output +:+ ")")
    | None =>
        match parseNmapXML xml_Unmarshal output with
        | Err err => Err ("failed to parse nmap output: " +:+ err)
        | Ok nmapScan => Ok {| OpenPorts := OpenPorts nmapScan; Duration := duration |}
        end
    end.

End nmap.

(** ** Package [utils]: validation of the target *)

Module utils.
Import models net.

(** What [url.Parse] gives, as far as [utils] reads it: the scheme, the
    user information, the results of [Hostname()] and [Port()], and the raw
    query. *)
Record ParsedURL := {
  p_Scheme : string;
  p_User : option string;
  p_Hostname : string;
  p_Port : string;
  p_Path : string;
  p_RawQuery : string
}.

(** An address [net.LookupIP] returns: its 4-byte form printed, when
    [To4()] is not nil, and the address printed. *)
Record IPAddr := {
  To4 : option string;
  ip_String : string
}.

(** The functions of [net/url] and [net] the package calls. *)
Record Library `{Env} := {
  Parse : string -> result ParsedURL;
  ParseQuery : string -> gmap string (list string);   (* [URL.Query()] *)
  Encode : gmap string (list string) -> string;
  URL_String : ParsedURL -> string;
  LookupIP : string -> World -> result (list IPAddr) * World
}.

(** The verb [%d] of [fmt.Sscanf] (see [headers.scan_int]), with the
    failure of the scan kept apart: the destination is then left as it is. *)
Definition scan_int_opt (s : string) : option Z :=
  match headers.skip_blanks s with
  | None => None
  | Some s1 =>
      let '(neg, s2) :=
        match s1 with
        | String "-" r => (true, r)
        | String "+" r => (false, r)
        | _ => (false, s1)
        end in
      if headers.starts_with_digit s2 then
        let v := headers.digits_value s2 0 in
        let v := if neg then - v else v in
        if headers.in_int64 v then Some v else None
      else None
  end.

Definition Sscanf_d (s : string) (dst : Z) : Z :=
  match scan_int_opt s with
  | Some v => v
  | None => dst
  end.

(** The loop of [resolveIP]: the first address with a 4-byte form. *)
Fixpoint first_ipv4 (ips : list IPAddr) : option string :=
  match ips with
  | [] => None
  | ip :: rest =>
      match To4 ip with
      | Some ipv4 => Some ipv4
      | None => first_ipv4 rest
      end
  end.

Definition resolveIP `{Env} (lib : Library) (domain : string) : M (result string) :=
  fun s =>
    let '(r, w') := LookupIP lib domain (fst s) in
    (match r with
     | Err err => Err err
     | Ok ips =>
         match ips with
         | [] => Err "no IP addresses found for domain"
         | ip0 :: _ =>
             match first_ipv4 ips with
             | Some ipv4 => Ok ipv4
             | None => Ok (ip_String ip0)
             end
         end
     end, (w', snd s)).

(** [checkReachability]: one GET request; any answer will do. *)
Definition checkReachability `{Env} (targetURL : string) : M (option error) :=
  let* r := client_Get targetURL in
  match r with
  | Err err => ret (Some err)
  | Ok _ => ret None
  end.

Definition ValidateAndParseURL `{Env} (lib : Library) (rawURL : string)
  : M (result TargetInfo) :=
  let rawURL :=
    if negb (strings.HasPrefix rawURL "http://") &&
       negb (strings.HasPrefix rawURL "https://")
    then "https://" +:+ rawURL else rawURL in
  match Parse lib rawURL with
  | Err err => ret (Err ("invalid URL format: " +:+ err))
  | Ok parsedURL =>
      if negb (String.eqb (p_Scheme parsedURL) "http") &&
         negb (String.eqb (p_Scheme parsedURL) "https")
      then ret (Err ("unsupported protocol: " +:+ p_Scheme parsedURL +:+
                     " (only http/https allowed)"))
      else
        let domain := p_Hostname parsedURL in
        if String.eqb domain EmptyString
        then ret (Err "could not extract domain from URL")
        else
          let port := p_Port parsedURL in
          let portNum := 80 in
          let portNum :=
            if String.eqb (p_Scheme parsedURL) "https" then 443 else portNum in
          let portNum :=
            if negb (String.eqb port EmptyString) then Sscanf_d port portNum
            else portNum in
          let* r := resolveIP lib domain in
          match r with
          | Err err => ret (Err ("DNS resolution failed: " +:+ err))
          | Ok ipAddr =>
              let* unreachable := checkReachability rawURL in
              match unreachable with
              | Some err => ret (Err ("target unreachable: " +:+ err))
              | None =>
                  ret (Ok {| URL := rawURL; Domain := domain; IP := ipAddr;
                             Protocol := p_Scheme parsedURL; Port := portNum |})
              end
          end
  end.

(** The test of [SanitizeURL] on the key of a query parameter. *)
Definition sensitive (key : string) : bool :=
  let lowerKey := strings.ToLower key in
  strings.Contains lowerKey "token" ||
  strings.Contains lowerKey "key" ||
  strings.Contains lowerKey "secret" ||
  strings.Contains lowerKey "password".

Definition redact_key (query : gmap string (list string)) (key : string)
  : gmap string (list string) :=
  if sensitive key then sqli.Values_Set query key "[REDACTED]" else query.

(** The loop over the keys of the query, which sets the values of the keys
    it visits. *)
Definition redact `{Env} (query : gmap string (list string))
  : gmap string (list string) :=
  fold_left redact_key (range_order query) query.

Definition SanitizeURL `{Env} (lib : Library) (rawURL : string) : string :=
  match Parse lib rawURL with
  | Err _ => rawURL
  | Ok parsedURL =>
      let query := redact (ParseQuery lib (p_RawQuery parsedURL)) in
      URL_String lib
        {| p_Scheme := p_Scheme parsedURL;
           p_User := None;
           p_Hostname := p_Hostname parsedURL;
           p_Port := p_Port parsedURL;
           p_Path := p_Path parsedURL;
           p_RawQuery := Encode lib query |}
  end.

End utils.

(** ** Go's [net/textproto]: the canonical form of a header key

    [net/http] gives the header of a response as a map whose keys are in
    the form [textproto.CanonicalMIMEHeaderKey] gives them. *)

Module textproto.

(** [validHeaderFieldByte]: the bytes of an RFC 7230 token. *)
Definition validHeaderFieldByte (c : ascii) : bool :=
  let n := nat_of_ascii c in
  ((48 <=? n)%nat && (n <=? 57)%nat) ||
  ((65 <=? n)%nat && (n <=? 90)%nat) ||
  ((97 <=? n)%nat && (n <=? 122)%nat) ||
  existsb (Nat.eqb n) [33; 35; 36; 37; 38; 39; 42; 43; 45; 46; 94; 95; 96; 124; 126]%nat.

Fixpoint all_valid (s : string) : bool :=
  match s with
  | EmptyString => true
  | String c s' => validHeaderFieldByte c && all_valid s'
  end.

(** The loop of [canonicalMIMEHeaderKey]: the first letter and the letters
    after a dash in upper case, the other letters in lower case. *)
Fixpoint canonical_from (upper : bool) (s : string) : string :=
  match s with
  | EmptyString => EmptyString
  | String c s' =>
      let n := nat_of_ascii c in
      let c :=
        if upper && ((97 <=? n)%nat && (n <=? 122)%nat) then ascii_of_nat (n - 32)
        else if negb upper && ((65 <=? n)%nat && (n <=? 90)%nat) then ascii_of_nat (n + 32)
        else c in
      String c (canonical_from (nat_of_ascii c =? 45)%nat s')
  end.

(** A key with a byte that is not valid is returned as it is. *)
Definition CanonicalMIMEHeaderKey (s : string) : string :=
  if all_valid s then canonical_from true s else s.

End textproto.

(** ** Further notions used to state the properties *)

Module more.
Import models.

(** The levels of risk, in order. *)
Definition risk_rank (level : string) : Z :=
  if String.eqb level "CRITICAL" then 3
  else if String.eqb level "HIGH" then 2
  else if String.eqb level "MEDIUM" then 1
  else 0.

(** The SQLi and XSS findings of a result, in the order of the two loops. *)
Definition all_vulns (result : ScanResult) : list Vulnerability :=
  slice_elems (SQLiResults result) ++ slice_elems (XSSResults result).

(** The entry of the list of priority actions that says there is none. *)
Definition no_action : string :=
  "✅ No immediate priority actions required. Continue monitoring security posture.".

(** Nothing in a result asks for a priority action. *)
Definition nothing_to_do (result : ScanResult) : bool :=
  negb (props.any_severity "critical" result) &&
  (Z.of_nat (length (slice_elems (SQLiResults result))) =? 0) &&
  (Z.of_nat (length (slice_elems (XSSResults result))) =? 0) &&
  negb (props.tls_insecure result) &&
  negb (props.header_score_low result).

(** The condition under which the executive summary speaks of a good
    posture. *)
Definition good_posture (result : ScanResult) : bool :=
  (Z.of_nat (length (all_vulns result)) =? 0) &&
  match HeaderResults result with
  | Some scan => 70 <? SecurityScore scan
  | None => false
  end &&
  match TLSResults result with
  | Some scan => IsSecure scan
  | None => false
  end.

(** One of the four severities the reports count. *)
Definition known_severity (v : Vulnerability) : bool :=
  String.eqb (Severity v) "critical" || String.eqb (Severity v) "high" ||
  String.eqb (Severity v) "medium" || String.eqb (Severity v) "low".

(** The ports of a run of [nmap] that are in state open, host by host. *)
Definition open_ports (run : nmap.NmapRun) : list nmap.NmapPort :=
  List.filter (fun port => String.eqb (nmap.state_State (nmap.np_State port)) "open")
    (flat_map (fun host => nmap.Ports (nmap.host_Ports host)) (nmap.Hosts run)).

(** The URL [utils.ValidateAndParseURL] goes on with. *)
Definition with_scheme (rawURL : string) : string :=
  if negb (strings.HasPrefix rawURL "http://") &&
     negb (strings.HasPrefix rawURL "https://")
  then "https://" +:+ rawURL else rawURL.

(** Every byte of a string passes a test. *)
Fixpoint all_chars (test : ascii -> bool) (s : string) : bool :=
  match s with
  | EmptyString => true
  | String c s' => test c && all_chars test s'
  end.

(** The header of a response as [net/http] gives it: every key is in its
    canonical form. *)
Definition canonical_keys (header : gmap string (list string)) : Prop :=
  forall key, is_Some (header !! key) -> textproto.CanonicalMIMEHeaderKey key = key.

(** The recommendation for a missing header exists. *)
Definition recommended (h : SecurityHeader) : bool :=
  match recommendations.missing_recommendation (hdr_Name h) with
  | Some _ => true
  | None => false
  end.

End more.


(** ** Further concrete inputs *)

Module samples.
Import models.

Definition finding (severity location : string) : Vulnerability :=
  {| Type_ := "sqli"; Severity := severity; Location := location;
     Payload := "'"; Evidence := "SQL error pattern detected: sql syntax";
     Description := "SQL injection vulnerability detected via error-based testing" |}.

(** A result with no probe run, and the same with findings. *)
Definition bare_result (sqli xss : option (list Vulnerability)) : ScanResult :=
  {| Target := examples.http_target; StartTime := 1000; EndTime := 2000;
     NmapResults := None; HeaderResults := None; TLSResults := None;
     SQLiResults := sqli; XSSResults := xss; Errors := []; RiskLevel := "LOW" |}.

(** A run with one host and three ports, the second of them closed. *)
Definition port_of (id : Z) (state name product version : string) : nmap.NmapPort :=
  {| nmap.np_Protocol := "tcp"; nmap.PortID := id;
     nmap.np_State := {| nmap.state_State := state |};
     nmap.np_Service := {| nmap.svc_Name := name; nmap.Product := product;
                           nmap.svc_Version := version |} |}.

Definition one_host : nmap.NmapRun :=
  {| nmap.Hosts := [
       {| nmap.Addresses := [{| nmap.Addr := "192.0.2.1"; nmap.AddrType := "ipv4" |}];
          nmap.host_Ports := {| nmap.Ports := [
            port_of 22 "open" "ssh" "OpenSSH" "8.9";
            port_of 25 "closed" "smtp" EmptyString EmptyString;
            port_of 80 "open" "http" "nginx" EmptyString ] |} |} ] |}.

(** What [ScanNmap] makes of that run, measured to take five seconds. *)
Definition one_host_scan : NmapScan :=
  {| OpenPorts := [
       {| Number := 22; port_Protocol := "tcp"; State := "open"; Service := "ssh";
          Version := "OpenSSH 8.9" |};
       {| Number := 80; port_Protocol := "tcp"; State := "open"; Service := "http";
          Version := "nginx" |} ];
     Duration := 5000000000 |}.

(** The library of a host whose resolver knows one name, with an IPv6 and
    an IPv4 address, and whose [url.Parse] reads [https://example.test/]. *)
Definition one_name `{net.Env} : utils.Library :=
  {| utils.Parse := fun url =>
       Ok {| utils.p_Scheme := "https"; utils.p_User := None;
             utils.p_Hostname := "example.test"; utils.p_Port := EmptyString;
             utils.p_Path := "/"; utils.p_RawQuery := EmptyString |};
     utils.ParseQuery := fun _ => ∅;
     utils.Encode := examples.encode_plain;
     utils.URL_String := fun u =>
       utils.p_Scheme u +:+ "://" +:+ utils.p_Hostname u +:+ utils.p_Path u;
     utils.LookupIP := fun domain w =>
       (Ok [ {| utils.To4 := None; utils.ip_String := "2001:db8::1" |};
             {| utils.To4 := Some "192.0.2.1"; utils.ip_String := "192.0.2.1" |} ], w) |}.

(** An environment whose server answers every GET request with a page. *)
Definition page_env : net.Env :=
  examples.static_env examples.no_http (fun _ => examples.page 200 "Welcome")
    examples.no_dial 5000 examples.no_parse.

(** The target the validation makes of the input [example.test/] there. *)
Definition validated : TargetInfo :=
  {| URL := "https://example.test/"; Domain := "example.test";
     IP := "192.0.2.1"; Protocol := "https"; Port := 443 |}.

(** A result in which only the header probe ran, on a response with the
    given header. *)
Definition header_result (header : gmap string (list string)) : ScanResult :=
  {| Target := examples.http_target; StartTime := 1000; EndTime := 2000;
     NmapResults := None; HeaderResults := Some (headers.analyze header);
     TLSResults := None; SQLiResults := Some []; XSSResults := Some [];
     Errors := []; RiskLevel := "LOW" |}.

(** The seven headers with strong values as [net/http] reads them from a
    response: the key of the seventh is [X-Xss-Protection]. *)
Definition seven_canonical : gmap string (list string) :=
  list_to_map [
    ("Strict-Transport-Security", ["max-age=31536000; includeSubDomains"]);
    ("Content-Security-Policy", ["default-src 'self'"]);
    ("X-Frame-Options", ["DENY"]);
    ("X-Content-Type-Options", ["nosniff"]);
    ("Referrer-Policy", ["no-referrer"]);
    ("Permissions-Policy", ["geolocation=()"]);
    ("X-Xss-Protection", ["1; mode=block"])
  ].

(** A server that negotiates TLS 1.3 and presents no certificate, and
    refuses the pinned handshakes. *)
Definition dial_bare (addr : string) (cfg : net.Config) : result net.ConnectionState :=
  if (net.MinVersion cfg =? 0) && (Z.of_nat (length (net.CipherSuites cfg)) =? 0)
  then Ok {| net.cs_Version := tls.VersionTLS13; net.cs_CipherSuite := 0x1301;
             net.PeerCertificates := [] |}
  else Err "handshake failure".

Definition bare_env : net.Env :=
  examples.static_env examples.no_http examples.no_http dial_bare 5000 examples.no_parse.

End samples.

(** * Properties *)

(** ** Risk classification *)

Section RiskLevel.
Import models orchestrator props.

Lemma count_vuln_fold (vulns : list Vulnerability) (c : counts) :
  criticalCount (fold_left count_vuln vulns c)
    = criticalCount c + severity_count "critical" vulns /\
  highCount (fold_left count_vuln vulns c)
    = highCount c + severity_count "high" vulns /\
  mediumCount (fold_left count_vuln vulns c)
    = mediumCount c + severity_count "medium" vulns.
Proof.
  revert c. unfold severity_count.
  induction vulns as [|v vulns IH]; intros c; simpl.
  - lia.
  - destruct (IH (count_vuln c v)) as (Hc & Hh & Hm).
    rewrite Hc, Hh, Hm. clear IH Hc Hh Hm.
    unfold count_vuln.
    destruct (String.eqb_spec (Severity v) "critical") as [E|E].
    + rewrite E; simpl. lia.
    + destruct (String.eqb_spec (Severity v) "high") as [E1|E1].
      * rewrite E1; simpl. lia.
      * destruct (String.eqb_spec (Severity v) "medium") as [E2|E2]; simpl; lia.
Qed.

Lemma severity_count_pos (s : string) (vulns : list Vulnerability) :
  (0 <? severity_count s vulns)
    = existsb (fun vuln => String.eqb (Severity vuln) s) vulns.
Proof.
  unfold severity_count.
  induction vulns as [|v vulns IH]; simpl; [reflexivity|].
  destruct (String.eqb (Severity v) s) eqn:E; simpl.
  - apply Z.ltb_lt. lia.
  - exact IH.
Qed.

Lemma severity_count_app (s : string) (l1 l2 : list Vulnerability) :
  severity_count s (l1 ++ l2) = severity_count s l1 + severity_count s l2.
Proof.
  unfold severity_count. rewrite List.filter_app, length_app. lia.
Qed.

Lemma severity_count_nonneg (s : string) (l : list Vulnerability) :
  0 <= severity_count s l.
Proof. unfold severity_count. lia. Qed.

(** The three counters of [CalculateRiskLevel], in closed form. *)
Lemma risk_counts_closed (result : ScanResult) :
  let all := slice_elems (SQLiResults result) ++ slice_elems (XSSResults result) in
  criticalCount (risk_counts result) = severity_count "critical" all /\
  highCount (risk_counts result)
    = severity_count "high" all + (if tls_insecure result then 1 else 0) /\
  mediumCount (risk_counts result)
    = severity_count "medium" all + (if header_score_low result then 1 else 0).
Proof.
  intros all. subst all. unfold risk_counts, tls_insecure, header_score_low.
  rewrite !severity_count_app.
  set (c0 := {| criticalCount := 0; highCount := 0; mediumCount := 0 |}).
  destruct (count_vuln_fold (slice_elems (SQLiResults result)) c0) as (A1 & A2 & A3).
  destruct (count_vuln_fold (slice_elems (XSSResults result))
              (fold_left count_vuln (slice_elems (SQLiResults result)) c0))
    as (B1 & B2 & B3).
  rewrite A1, A2, A3 in *. simpl in B1, B2, B3.
  destruct (TLSResults result) as [t|], (HeaderResults result) as [hs|]; simpl;
    repeat match goal with
           | |- context [negb ?b] => destruct b; simpl
           | |- context [?a <? ?b] => destruct (a <? b); simpl
           end; lia.
Qed.

(** C1. [CalculateRiskLevel] is a strict precedence cascade: CRITICAL if
    some SQLi or XSS vulnerability is critical; otherwise HIGH if one is
    high or the TLS result is present and not secure; otherwise MEDIUM if
    one is medium or the header result is present with a score below 50;
    otherwise LOW. The answer depends on which severities occur, not on
    how many findings carry them. *)
Theorem CalculateRiskLevel_cascade (result : ScanResult) :
  CalculateRiskLevel result =
    if any_severity "critical" result then "CRITICAL"
    else if any_severity "high" result || tls_insecure result then "HIGH"
    else if any_severity "medium" result || header_score_low result then "MEDIUM"
    else "LOW".
Proof.
  unfold CalculateRiskLevel, any_severity.
  destruct (risk_counts_closed result) as (Hc & Hh & Hm). simpl in Hc, Hh, Hm.
  set (all := slice_elems (SQLiResults result) ++ slice_elems (XSSResults result)) in *.
  rewrite <- !severity_count_pos.
  pose proof (severity_count_nonneg "critical" all).
  pose proof (severity_count_nonneg "high" all).
  pose proof (severity_count_nonneg "medium" all).
  rewrite Hc, Hh, Hm.
  destruct (tls_insecure result), (header_score_low result);
    repeat match goal with
           | |- context [?a <? ?b] =>
               destruct (Z.ltb_spec a b); simpl; try lia
           end; reflexivity.
Qed.

End RiskLevel.


(** ** The header analyzer *)

Section HeaderAnalyzer.
Import models headers props.

Variable header : gmap string (list string).

(** The loop over the definitions files each one in one list and adds 15
    to the score for each one it files as present. *)
Lemma analyze_loop_spec (defs : list SecurityHeaderDefinition) (scan : HeaderScan) :
  analyze_loop header defs scan =
    {| Headers := Headers scan;
       MissingHeaders := MissingHeaders scan ++ omap (as_missing header) defs;
       WeakHeaders := WeakHeaders scan ++ omap (as_weak header) defs;
       PresentHeaders := PresentHeaders scan ++ omap (as_present header) defs;
       SecurityScore :=
         SecurityScore scan + 15 * Z.of_nat (length (omap (as_present header) defs)) |}.
Proof.
  unfold analyze_loop. revert scan.
  induction defs as [|d defs IH]; intros scan.
  - simpl. rewrite !app_nil_r, Z.add_0_r. destruct scan; reflexivity.
  - cbn [fold_left]. rewrite IH.
    assert (Hcons : forall f : SecurityHeaderDefinition -> option SecurityHeader,
               omap f (d :: defs)
               = match f d with Some e => e :: omap f defs | None => omap f defs end)
      by reflexivity.
    rewrite !Hcons.
    set (M := omap (as_missing header) defs).
    set (W := omap (as_weak header) defs).
    set (P := omap (as_present header) defs).
    unfold analyze_step, as_missing, as_weak, as_present.
    destruct (header !! def_Name d) as [value|].
    + destruct (isWeakHeader (def_Name d) (strings.Join value "; "));
        cbn [Headers MissingHeaders WeakHeaders PresentHeaders SecurityScore];
        rewrite <- ?app_assoc; f_equal; try reflexivity.
      rewrite length_cons, Nat2Z.inj_succ. lia.
    + cbn [Headers MissingHeaders WeakHeaders PresentHeaders SecurityScore];
        rewrite <- ?app_assoc; reflexivity.
Qed.

Lemma analyze_lists :
  MissingHeaders (analyze header) = omap (as_missing header) securityHeaders /\
  WeakHeaders (analyze header) = omap (as_weak header) securityHeaders /\
  PresentHeaders (analyze header) = omap (as_present header) securityHeaders.
Proof.
  unfold analyze. rewrite analyze_loop_spec. simpl. auto.
Qed.

(** Each definition is filed exactly once. *)
Lemma filed_once (defs : list SecurityHeaderDefinition) :
  map hdr_Name (omap (as_missing header) defs) ++
  map hdr_Name (omap (as_weak header) defs) ++
  map hdr_Name (omap (as_present header) defs)
  ≡ₚ map def_Name defs.
Proof.
  induction defs as [|d defs IH]; simpl; [reflexivity|].
  unfold as_missing at 1, as_weak at 1, as_present at 1.
  destruct (header !! def_Name d) as [value|]; simpl.
  - destruct (isWeakHeader (def_Name d) (strings.Join value "; ")); simpl.
    + rewrite <- Permutation_middle. constructor. exact IH.
    + rewrite app_assoc, <- Permutation_middle, <- app_assoc.
      constructor. exact IH.
  - constructor. exact IH.
Qed.

Lemma securityHeaders_names_NoDup : NoDup (map def_Name securityHeaders).
Proof.
  apply NoDup_ListNoDup.
  repeat (constructor; [simpl; intuition discriminate|]). constructor.
Qed.

(** C3. The three lists of the header analyzer partition the seven
    definitions: the names filed as missing, weak and present are, together,
    the seven names of [securityHeaders], none of them twice, so each
    definition is in exactly one list and once; the three lengths add up to
    seven; and a definition is filed as missing exactly when the response
    has no such header. *)
Theorem header_lists_partition :
  filed_names (analyze header) ≡ₚ map def_Name securityHeaders /\
  NoDup (filed_names (analyze header)) /\
  (length (MissingHeaders (analyze header)) +
   length (WeakHeaders (analyze header)) +
   length (PresentHeaders (analyze header)) = 7)%nat /\
  MissingHeaders (analyze header) = omap (as_missing header) securityHeaders /\
  WeakHeaders (analyze header) = omap (as_weak header) securityHeaders /\
  PresentHeaders (analyze header) = omap (as_present header) securityHeaders.
Proof.
  destruct analyze_lists as (Hm & Hw & Hp).
  unfold filed_names. rewrite Hm, Hw, Hp.
  pose proof (filed_once securityHeaders) as Hperm.
  split; [exact Hperm|].
  split; [rewrite Hperm; apply securityHeaders_names_NoDup|].
  split; [|auto].
  apply Permutation_length in Hperm.
  rewrite !length_app, !length_map in Hperm.
  replace (length securityHeaders) with 7%nat in Hperm by reflexivity. lia.
Qed.

Lemma omap_length_le {A B : Type} (f : A -> option B) (l : list A) :
  (length (omap f l) <= length l)%nat.
Proof.
  induction l as [|x l IH]; [reflexivity|].
  change (omap f (x :: l))
    with (match f x with Some y => y :: omap f l | None => omap f l end).
  destruct (f x); simpl; lia.
Qed.

Lemma strong_count_bounds : 0 <= strong_count header <= 7.
Proof.
  unfold strong_count.
  pose proof (omap_length_le (as_present header) securityHeaders) as Hle.
  change (length securityHeaders) with 7%nat in Hle. lia.
Qed.

(** The score the analyzer returns: 15 points for each strong header,
    turned into a percentage of 105 by an integer division. *)
Lemma SecurityScore_analyze :
  SecurityScore (analyze header) = 100 * strong_count header / 7.
Proof.
  pose proof strong_count_bounds as Hb.
  unfold analyze. rewrite analyze_loop_spec.
  cbn [SecurityScore]. fold (strong_count header).
  unfold final_score. change (Z.of_nat (length securityHeaders) * 15) with 105.
  destruct (Z.ltb_spec 105 (0 + 15 * strong_count header)); [lia|].
  replace ((0 + 15 * strong_count header) * 100)
    with ((100 * strong_count header) * 15) by lia.
  change 105 with (7 * 15).
  apply Z.div_mul_cancel_r; lia.
Qed.

End HeaderAnalyzer.

Section HeaderScore.
Import models headers props.




End HeaderScore.

(** ** The TLS analyzer *)

Section TLSAnalyzer.
Import models net tls props.

Context `{E : Env}.

Lemma Score_check_version (scan : TLSScan) (version : Z) :
  Score (check_version scan version) <= Score scan.
Proof.
  unfold check_version.
  destruct (version <? VersionTLS12); [simpl; lia|].
  destruct (version =? VersionTLS12); simpl; lia.
Qed.

Lemma Score_check_cipher (scan : TLSScan) (suite : Z) :
  Score (check_cipher scan suite) <= Score scan.
Proof.
  unfold check_cipher. destruct (isWeakCipher suite); simpl; lia.
Qed.

Lemma Score_check_probes (scan : TLSScan) (vs : list string) :
  Score (check_probes scan vs) <= Score scan.
Proof.
  unfold check_probes.
  destruct (0 <? Z.of_nat (length vs)); simpl; lia.
Qed.

Lemma Score_check_certificate (scan scan' : TLSScan)
    (certs : list x509_Certificate) (st st' : St) :
  check_certificate scan certs st = (scan', st') -> Score scan' <= Score scan.
Proof.
  unfold check_certificate, bind, ret, Now.
  destruct certs as [|cert rest].
  - intros [= <- _]. lia.
  - destruct (time_Now st.1) as [now1 w1]. cbn [fst snd].
    destruct (time_Now w1) as [now2 w2]. cbn [Certificate set_Certificate IsExpired].
    destruct (NotAfter cert <? now2).
    + intros [= <- _]. simpl. lia.
    + destruct (_ <? 30); intros [= <- _]; simpl; lia.
Qed.

Lemma Score_clamp_score (scan : TLSScan) :
  Score (clamp_score scan) = Z.max 0 (Score scan).
Proof.
  unfold clamp_score. destruct (Z.ltb_spec (Score scan) 0); simpl; lia.
Qed.

(** What [ScanTLS] returns for an HTTPS target whose first handshake
    completes. *)
Lemma ScanTLS_https (target : TargetInfo) (st : St) (state : ConnectionState) (w1 : World) :
  Protocol target = "https" ->
  tls_Dial (dial_addr target) (main_config target) st.1 = (Ok state, w1) ->
  exists scan1 st1 vulnerabilities st2,
    check_certificate
      {| tls_Protocol := getTLSVersion (cs_Version state);
         CipherSuite := CipherSuiteName (cs_CipherSuite state);
         Certificate := zero_CertificateInfo;
         tls_Vulnerabilities := [];
         Score := 100; IsSecure := true |}
      (PeerCertificates state)
      (w1, st.2 ++ [EvDial (dial_addr target) (main_config target)]) = (scan1, st1) /\
    testTLSVulnerabilities target st1 = (vulnerabilities, st2) /\
    ScanTLS target st =
      (Ok (clamp_score
             (check_probes
                (check_cipher (check_version scan1 (cs_Version state))
                   (cs_CipherSuite state))
                vulnerabilities)), st2).
Proof.
  intros Hp Hdial. unfold ScanTLS. rewrite Hp, String.eqb_refl. cbn [negb].
  unfold bind at 1. unfold DialWithDialer, lift.
  rewrite Hdial.
  unfold bind at 1.
  destruct (check_certificate _ (PeerCertificates state) _) as [scan1 st1] eqn:Hc.
  unfold bind at 1.
  destruct (testTLSVulnerabilities target st1) as [vs st2] eqn:Hv.
  exists scan1, st1, vs, st2.
  split; [reflexivity|]. split; [exact Hv|reflexivity].
Qed.

(** The certificate block when the leaf certificate has expired. *)
Lemma check_certificate_expired (scan : TLSScan) (cert : x509_Certificate)
    (rest : list x509_Certificate) (st : St) :
  (forall w, NotAfter cert < (time_Now w).1) ->
  exists info st',
    check_certificate scan (cert :: rest) st =
      (deduct (mark_insecure
         (add_vulnerabilities (set_Certificate scan info) ["Certificate has expired"])) 50,
       st') /\
    IsExpired info = true.
Proof.
  intros Hexp. unfold check_certificate, bind, ret, Now.
  pose proof (Hexp st.1) as H1.
  destruct (time_Now st.1) as [now1 w1]. cbn [fst snd] in *.
  pose proof (Hexp w1) as H2.
  destruct (time_Now w1) as [now2 w2]. cbn [fst snd] in *.
  cbn [Certificate set_Certificate IsExpired].
  apply Z.ltb_lt in H2. rewrite H2.
  eexists _, _. split; [reflexivity|]. reflexivity.
Qed.

(** C7 (as the code has it). The score of a TLS result is between 0 and
    100. When the first handshake negotiates TLS 1.0 with a cipher suite of
    the analyzer's weak set and the leaf certificate has expired, the three
    deductions 50, 30 and 20 are made (the three findings are reported in
    this order, before those of the probes, each of which deducts 10 more),
    the result is not secure and the score, clamped, is 0. *)
Theorem TLS_score_clamped (target : TargetInfo) (st : St) (scan : TLSScan) :
  (ScanTLS target st).1 = Ok scan ->
  0 <= Score scan <= 100 /\
  (forall (state : ConnectionState) (w1 : World)
          (cert : x509_Certificate) (rest : list x509_Certificate),
      Protocol target = "https" ->
      tls_Dial (dial_addr target) (main_config target) st.1 = (Ok state, w1) ->
      cs_Version state = VersionTLS10 ->
      isWeakCipher (cs_CipherSuite state) = true ->
      PeerCertificates state = cert :: rest ->
      (forall w, NotAfter cert < (time_Now w).1) ->
      exists probes : list string,
        tls_Vulnerabilities scan =
          ["Certificate has expired";
           "Outdated TLS version: TLS 1.0 (TLS 1.2+ recommended)";
           "Weak cipher suite: " +:+ CipherSuiteName (cs_CipherSuite state)] ++ probes /\
        Score scan = Z.max 0 (100 - 50 - 30 - 20 - 10 * Z.of_nat (length probes)) /\
        Score scan = 0 /\
        IsSecure scan = false).
Proof.
  intros Hrun. split.
  - unfold ScanTLS in Hrun.
    destruct (String.eqb_spec (Protocol target) "https") as [Hp|Hp]; cbn [negb] in Hrun.
    + destruct (tls_Dial (dial_addr target) (main_config target) st.1)
        as [[state|e] w1] eqn:Hdial.
      * destruct (ScanTLS_https target st state w1 Hp Hdial)
          as (scan1 & st1 & vs & st2 & Hc & _ & Heq).
        unfold ScanTLS in Heq. rewrite Hp, String.eqb_refl in Heq. cbn [negb] in Heq.
        rewrite Heq in Hrun. cbn [fst] in Hrun. injection Hrun as <-.
        rewrite Score_clamp_score.
        apply Score_check_certificate in Hc. cbn [Score] in Hc.
        pose proof (Score_check_probes
          (check_cipher (check_version scan1 (cs_Version state)) (cs_CipherSuite state)) vs).
        pose proof (Score_check_cipher (check_version scan1 (cs_Version state))
          (cs_CipherSuite state)).
        pose proof (Score_check_version scan1 (cs_Version state)).
        lia.
      * unfold bind, DialWithDialer, lift, ret in Hrun. rewrite Hdial in Hrun.
        discriminate Hrun.
    + unfold ret in Hrun. injection Hrun as <-. simpl. lia.
  - intros state w1 cert rest Hp Hdial Hver Hweak Hcerts Hexp.
    destruct (ScanTLS_https target st state w1 Hp Hdial)
      as (scan1 & st1 & vs & st2 & Hc & _ & Heq).
    rewrite Heq in Hrun. cbn [fst] in Hrun. injection Hrun as <-.
    rewrite Hcerts in Hc.
    destruct (check_certificate_expired
      {| tls_Protocol := getTLSVersion (cs_Version state);
         CipherSuite := CipherSuiteName (cs_CipherSuite state);
         Certificate := zero_CertificateInfo;
         tls_Vulnerabilities := []; Score := 100; IsSecure := true |}
      cert rest (w1, st.2 ++ [EvDial (dial_addr target) (main_config target)]) Hexp)
      as (info & st' & Hc' & _).
    rewrite Hc' in Hc. injection Hc as <- _.
    rewrite Hver. unfold check_version.
    change (VersionTLS10 <? VersionTLS12) with true. cbv iota.
    unfold check_cipher. rewrite Hweak.
    exists vs. unfold check_probes, clamp_score.
    destruct (Z.ltb_spec 0 (Z.of_nat (length vs))) as [Hpos|Hzero].
    + cbn [Score deduct mark_insecure add_vulnerabilities set_Certificate
           tls_Vulnerabilities tls_Protocol CipherSuite IsSecure set_Score].
      destruct (Z.ltb_spec (100 - 50 - 30 - 20 - 10 * Z.of_nat (length vs)) 0);
        cbn [Score deduct mark_insecure add_vulnerabilities set_Certificate
             tls_Vulnerabilities tls_Protocol CipherSuite IsSecure set_Score];
        repeat split; try reflexivity; lia.
    + assert (vs = []) as -> by (destruct vs; [reflexivity|simpl in Hzero; lia]).
      cbn [Score deduct mark_insecure add_vulnerabilities set_Certificate
           tls_Vulnerabilities tls_Protocol CipherSuite IsSecure set_Score length].
      change (100 - 50 - 30 - 20 <? 0) with false. cbv iota.
      cbn [Score deduct mark_insecure add_vulnerabilities set_Certificate
           tls_Vulnerabilities tls_Protocol CipherSuite IsSecure set_Score].
      repeat split; reflexivity.
Qed.

(** C9. For a target whose scheme is not https, [ScanTLS] returns at once,
    with a nil error, the result that is not secure and has score 0; the
    state is the one it was called in: no handshake was attempted. *)
Theorem ScanTLS_not_https (target : TargetInfo) (st : St) :
  Protocol target <> "https" ->
  exists scan : TLSScan,
    ScanTLS target st = (Ok scan, st) /\
    IsSecure scan = false /\ Score scan = 0.
Proof.
  intros Hp. unfold ScanTLS.
  destruct (String.eqb_spec (Protocol target) "https") as [Heq|_]; [contradiction|].
  cbn [negb]. exists not_https. repeat split; reflexivity.
Qed.

End TLSAnalyzer.

Section TLSExamples.
Import models net tls props examples.

(** TLS 1.0 with TLS_RSA_WITH_AES_128_CBC_SHA and an expired certificate. *)
Lemma TLS_score_clamped_witness :
  exists scan : TLSScan,
    (@ScanTLS (tls_env VersionTLS10 TLS_RSA_WITH_AES_128_CBC_SHA) https_target (tt, [])).1
      = Ok scan /\
    0 <= Score scan <= 100 /\ Score scan = 0 /\ IsSecure scan = false.
Proof.
  pose (E := tls_env VersionTLS10 TLS_RSA_WITH_AES_128_CBC_SHA).
  destruct (@ScanTLS E https_target (tt, [])) as [r st'] eqn:Hrun.
  assert (Hr : exists scan, r = Ok scan).
  { vm_compute in Hrun. injection Hrun as <- _. eexists; reflexivity. }
  destruct Hr as [scan ->]. exists scan.
  assert (Hfst : (@ScanTLS E https_target (tt, [])).1 = Ok scan)
    by (rewrite Hrun; reflexivity).
  destruct (@TLS_score_clamped E https_target (tt, []) scan Hfst) as [Hrange Hcase].
  destruct (Hcase {| cs_Version := VersionTLS10;
                     cs_CipherSuite := TLS_RSA_WITH_AES_128_CBC_SHA;
                     PeerCertificates := [old_cert] |} tt old_cert [])
    as (probes & _ & _ & Hzero & Hsec);
    [reflexivity | reflexivity | reflexivity | reflexivity | reflexivity
    | intros w; vm_compute; reflexivity | ].
  split; [exact Hfst|]. split; [exact Hrange|]. split; assumption.
Defined.

Lemma ScanTLS_not_https_witness :
  exists scan : TLSScan,
    @ScanTLS (tls_env VersionTLS10 TLS_RSA_WITH_AES_128_CBC_SHA) http_target (tt, [])
      = (Ok scan, (tt, [])) /\
    IsSecure scan = false /\ Score scan = 0.
Proof.
  apply (@ScanTLS_not_https (tls_env VersionTLS10 TLS_RSA_WITH_AES_128_CBC_SHA)
           http_target (tt, [])).
  vm_compute. discriminate.
Defined.

(** C7 (as stated) fails for a CBC-mode suite outside the weak set: TLS 1.0
    with TLS_ECDHE_RSA_WITH_AES_128_CBC_SHA (0xc013) and an expired
    certificate, on a server that refuses the pinned handshakes, is scored
    100 - 50 - 30 = 20. *)
Lemma TLS_cbc_suite_not_deducted :
  is_cbc_suite 0xc013 = true /\
  exists scan : TLSScan,
    (@ScanTLS (tls_env VersionTLS10 0xc013) https_target (tt, [])).1 = Ok scan /\
    IsExpired (Certificate scan) = true /\
    tls_Protocol scan = "TLS 1.0" /\
    CipherSuite scan = "TLS_ECDHE_RSA_WITH_AES_128_CBC_SHA" /\
    Score scan = 20 /\ Score scan <> 0.
Proof.
  split; [vm_compute; reflexivity|].
  eexists. split; [vm_compute; reflexivity|].
  repeat split; try (vm_compute; reflexivity).
  vm_compute. discriminate.
Qed.

End TLSExamples.

(** ** Strings *)

Section Strings.
Import strings.

Lemma append_cons (x : ascii) (a b : string) :
  String x a +:+ b = String x (a +:+ b).
Proof. reflexivity. Qed.

Lemma append_assoc (a b c : string) : (a +:+ b) +:+ c = a +:+ (b +:+ c).
Proof.
  induction a as [|x a IH]; [reflexivity|].
  rewrite !append_cons. f_equal. exact IH.
Qed.

Lemma ToLower_app (a b : string) : ToLower (a +:+ b) = ToLower a +:+ ToLower b.
Proof.
  induction a as [|x a IH]; [reflexivity|].
  rewrite append_cons. cbn [ToLower]. rewrite append_cons. f_equal. exact IH.
Qed.

Lemma HasPrefix_app (p s : string) : HasPrefix (p +:+ s) p = true.
Proof.
  induction p as [|c p IH]; [reflexivity|].
  rewrite append_cons. cbn [HasPrefix].
  rewrite Ascii.eqb_refl. exact IH.
Qed.


Lemma Contains_unfold (s substr : string) :
  Contains s substr =
    (HasPrefix s substr ||
     match s with EmptyString => false | String _ s' => Contains s' substr end)%bool.
Proof. destruct s; reflexivity. Qed.




End Strings.

(** ** The SQL-injection analyzer *)

Section SQLiAnalyzer.
Import models net sqli props.

Context `{E : Env}.

















(** The exact comparison and the binary64 one decide the same for all
    pairs of lengths below 256, and for a baseline of a megabyte at the two
    sides of the 10% threshold. *)
Lemma detectBehaviorChange_float64_agrees :
  agree_below 256 = true /\
  detectBehaviorChange_float64 200 200 1000000 1100000 = false /\
  detectBehaviorChange 200 200 1000000 1100000 = false /\
  detectBehaviorChange_float64 200 200 1000000 1100001 = true /\
  detectBehaviorChange 200 200 1000000 1100001 = true /\
  detectBehaviorChange_float64 200 200 1000000 899999 = true /\
  detectBehaviorChange 200 200 1000000 899999 = true.
Proof. repeat apply conj; vm_compute; reflexivity. Qed.


End SQLiAnalyzer.

Section SQLiExamples.
Import models net sqli props examples.



End SQLiExamples.

(** ** The XSS analyzer *)

Section XSSAnalyzer.
Import models net xss props.

Context `{E : Env}.




End XSSAnalyzer.

Section XSSExamples.
Import models net xss props examples.



End XSSExamples.

(** ** The orchestrator *)

Section Orchestrator.
Import models net orchestrator props.

Context `{E : Env}.
Variable h : Host.
Variable target : TargetInfo.
Variable options : ScanOptions.

Lemma Unit_eqb_eq (a b : Unit_) : Unit_eqb a b = true <-> a = b.
Proof. destruct a, b; simpl; split; congruence. Qed.

Lemma Unit_eqb_refl (a : Unit_) : Unit_eqb a a = true.
Proof. destruct a; reflexivity. Qed.



Lemma unit_in_In (u : Unit_) (l : list Unit_) : unit_in u l = true <-> In u l.
Proof.
  unfold unit_in. rewrite existsb_exists. split.
  - intros (v & Hin & Heq). apply Unit_eqb_eq in Heq. subst v. exact Hin.
  - intros Hin. exists u. split; [exact Hin|apply Unit_eqb_refl].
Qed.















Lemma all_units_complete (u : Unit_) : In u all_units.
Proof. destruct u; simpl; auto 6. Qed.


Lemma all_done_spec (st : OState) :
  all_done st = true <-> forall u, unit_done (phase st u) = true.
Proof.
  unfold all_done. rewrite forallb_forall. split.
  - intros H u. apply H, all_units_complete.
  - intros H u _. apply H.
Qed.






(** C10 (as the code has it). When every category is disabled, a run has
    no action of any unit, so the division by [totalScans], which is 0, is
    never made; the run reports "All scans complete" and returns a result
    whose five fields are nil and whose risk level is "LOW". Its [Errors]
    list is empty if the [done] branch is taken, and holds "scan timeout
    exceeded" if the deadline comes first. *)
Theorem RunSecurityScan_all_disabled
    (schedule : list Action) (deadline_first : bool) :
  SkipHeaders options = true -> SkipTLS options = true ->
  SkipSQLi options = true -> SkipXSS options = true ->
  (SkipNmap options = true \/ IsNmapInstalled h = false) ->
  RunSecurityScan h target options schedule deadline_first <> NotARun ->
  schedule = [] /\
  totalScans h options = 0 /\
  exists result : ScanResult,
    RunSecurityScan h target options schedule deadline_first
      = Returned (Some result) None [UpdateProgress "All scans complete" 100] /\
    Errors result = (if deadline_first then [timeout_error] else []) /\
    NmapResults result = None /\ HeaderResults result = None /\
    TLSResults result = None /\ SQLiResults result = None /\
    XSSResults result = None /\
    RiskLevel result = "LOW".
Proof.
  intros Hh Ht Hs Hx Hn Hrun.
  assert (Hoff : forall u, enabled h options u = false).
  { intros u. destruct u; cbn [enabled]; rewrite ?Hh, ?Ht, ?Hs, ?Hx; try reflexivity.
    destruct Hn as [-> | ->]; [reflexivity|apply andb_false_r]. }
  assert (Hnil : schedule = []).
  { destruct schedule as [|a rest]; [reflexivity|]. exfalso. apply Hrun.
    unfold RunSecurityScan. cbn [run_actions]. unfold step, launch. cbn [phase].
    destruct a as [u|u|u|u]; rewrite (Hoff u); reflexivity. }
  subst schedule. split; [reflexivity|]. split.
  { unfold totalScans, all_units. cbn [fold_left]. rewrite !Hoff. reflexivity. }
  unfold RunSecurityScan in *. cbn [run_actions] in *.
  assert (Hdone : all_done (launch h target options) = true).
  { apply all_done_spec. intros u. unfold launch. cbn [phase].
    rewrite (Hoff u). reflexivity. }
  rewrite Hdone.
  destruct deadline_first; eexists; (split; [reflexivity|]);
    repeat apply conj; reflexivity.
Qed.

End Orchestrator.

Section OrchestratorExamples.
Import models net orchestrator props examples.


Lemma RunSecurityScan_all_disabled_witness :
  exists result : ScanResult,
    @RunSecurityScan demo_env (@plain_host demo_env tt) http_target all_skipped [] false
      = Returned (Some result) None [UpdateProgress "All scans complete" 100] /\
    Errors result = [] /\ RiskLevel result = "LOW".
Proof.
  destruct (@RunSecurityScan_all_disabled demo_env (@plain_host demo_env tt) http_target all_skipped
              [] false)
    as (_ & _ & result & Hrun & Herr & _ & _ & _ & _ & _ & Hrisk);
    try reflexivity; [left; reflexivity | vm_compute; discriminate |].
  exists result. split; [exact Hrun|]. split; [exact Herr|exact Hrisk].
Defined.

(** C10 (as stated) fails: with every category skipped and a timeout of
    zero, the deadline has passed when the [select] is reached, the
    [ctx.Done()] branch is taken, and [Errors] is not empty. *)
Lemma all_disabled_timeout_is_reported :
  exists result : ScanResult,
    @RunSecurityScan demo_env (@plain_host demo_env tt) http_target all_skipped [] true
      = Returned (Some result) None [UpdateProgress "All scans complete" 100] /\
    Errors result = ["scan timeout exceeded"] /\
    Errors result <> [].
Proof.
  eexists. split; [vm_compute; reflexivity|].
  split; [reflexivity|discriminate].
Qed.

End OrchestratorExamples.


(** * Further properties of the code *)

(** ** Risk level and reports *)

Section RiskAndReports.
Import models orchestrator props more report.

(** The risk level in terms of the severities that occur. *)
Lemma risk_level_cases (result : ScanResult) :
  CalculateRiskLevel result =
    if any_severity "critical" result then "CRITICAL"
    else if any_severity "high" result || tls_insecure result then "HIGH"
    else if any_severity "medium" result || header_score_low result then "MEDIUM"
    else "LOW".
Proof.
  unfold CalculateRiskLevel, any_severity.
  destruct (risk_counts_closed result) as (Hc & Hh & Hm). simpl in Hc, Hh, Hm.
  set (all := slice_elems (SQLiResults result) ++ slice_elems (XSSResults result)) in *.
  rewrite <- !severity_count_pos, Hc, Hh, Hm.
  pose proof (severity_count_nonneg "critical" all).
  pose proof (severity_count_nonneg "high" all).
  pose proof (severity_count_nonneg "medium" all).
  destruct (tls_insecure result), (header_score_low result);
    repeat match goal with
           | |- context [?a <? ?b] => destruct (Z.ltb_spec a b); simpl; try lia
           end; reflexivity.
Qed.

Lemma existsb_incl {A : Type} (f : A -> bool) (l l' : list A) :
  (forall x, In x l -> In x l') -> existsb f l = true -> existsb f l' = true.
Proof.
  intros Hincl H. apply existsb_exists in H as (x & Hx & Hf).
  apply existsb_exists. exists x. split; [apply Hincl; exact Hx|exact Hf].
Qed.

(** X1. The risk level never goes down when findings are added: if every
    SQLi or XSS finding of a result is also in another result with the same
    TLS and header results, the level of the second is at least the level of
    the first. *)
Theorem risk_level_monotone (r r' : ScanResult) :
  (forall v, In v (all_vulns r) -> In v (all_vulns r')) ->
  TLSResults r = TLSResults r' ->
  HeaderResults r = HeaderResults r' ->
  risk_rank (CalculateRiskLevel r) <= risk_rank (CalculateRiskLevel r').
Proof.
  intros Hincl Htls Hhdr. rewrite !risk_level_cases.
  assert (Hmono : forall s, any_severity s r = true -> any_severity s r' = true).
  { intros s. unfold any_severity. apply existsb_incl. exact Hincl. }
  assert (Ht : tls_insecure r' = tls_insecure r)
    by (unfold tls_insecure; rewrite Htls; reflexivity).
  assert (Hh : header_score_low r' = header_score_low r)
    by (unfold header_score_low; rewrite Hhdr; reflexivity).
  rewrite Ht, Hh.
  pose proof (Hmono "critical") as Hc.
  pose proof (Hmono "high") as Hhi.
  pose proof (Hmono "medium") as Hm.
  destruct (any_severity "critical" r), (any_severity "critical" r');
    try (specialize (Hc eq_refl); discriminate Hc);
    destruct (any_severity "high" r), (any_severity "high" r');
    try (specialize (Hhi eq_refl); discriminate Hhi);
    destruct (any_severity "medium" r), (any_severity "medium" r');
    try (specialize (Hm eq_refl); discriminate Hm);
    destruct (tls_insecure r), (header_score_low r); vm_compute; congruence.
Qed.

End RiskAndReports.
Lemma risk_level_monotone_witness :
  more.risk_rank (orchestrator.CalculateRiskLevel
               (samples.bare_result (Some [samples.finding "high" "Parameter: id"]) None))
  <= more.risk_rank (orchestrator.CalculateRiskLevel
                  (samples.bare_result (Some [samples.finding "high" "Parameter: id"])
                     (Some [samples.finding "critical" "URL Path"]))).
Proof.
  apply risk_level_monotone.
  - intros v Hv. unfold more.all_vulns in *. simpl in *. tauto.
  - reflexivity.
  - reflexivity.
Defined.

Section Reports.
Import models orchestrator props more report.

(** The cases of the severity of a finding; two of the four names cannot
    both be its severity. *)
Ltac by_severity v :=
  destruct (String.eqb (Severity v) "critical") eqn:?Ec;
  destruct (String.eqb (Severity v) "high") eqn:?Eh;
  destruct (String.eqb (Severity v) "medium") eqn:?Em;
  destruct (String.eqb (Severity v) "low") eqn:?El;
  repeat match goal with
         | H : String.eqb _ _ = true |- _ => apply String.eqb_eq in H
         end;
  try congruence; cbn; lia.

Lemma tally_fold (l : list Vulnerability) : forall t,
  t_total (fold_left tally_vuln l t) = t_total t + Z.of_nat (length l) /\
  t_critical (fold_left tally_vuln l t) = t_critical t + severity_count "critical" l /\
  t_high (fold_left tally_vuln l t) = t_high t + severity_count "high" l /\
  t_medium (fold_left tally_vuln l t) = t_medium t + severity_count "medium" l /\
  t_low (fold_left tally_vuln l t) = t_low t + severity_count "low" l.
Proof.
  induction l as [|v l IH]; intros t.
  - unfold severity_count. simpl. lia.
  - cbn [fold_left]. destruct (IH (tally_vuln t v)) as (H1 & H2 & H3 & H4 & H5).
    rewrite H1, H2, H3, H4, H5. clear IH H1 H2 H3 H4 H5.
    unfold severity_count, tally_vuln. cbn [List.filter length]. cbv beta.
    by_severity v.
Qed.

Lemma tally_result (result : ScanResult) :
  let t := fold_left tally_vuln (slice_elems (XSSResults result))
             (fold_left tally_vuln (slice_elems (SQLiResults result))
                {| t_total := 0; t_critical := 0; t_high := 0; t_medium := 0; t_low := 0 |}) in
  t_total t = Z.of_nat (length (all_vulns result)) /\
  t_critical t = severity_count "critical" (all_vulns result) /\
  t_high t = severity_count "high" (all_vulns result) /\
  t_medium t = severity_count "medium" (all_vulns result) /\
  t_low t = severity_count "low" (all_vulns result).
Proof.
  intros t. subst t. unfold all_vulns.
  destruct (tally_fold (slice_elems (XSSResults result))
              (fold_left tally_vuln (slice_elems (SQLiResults result))
                {| t_total := 0; t_critical := 0; t_high := 0; t_medium := 0; t_low := 0 |}))
    as (H1 & H2 & H3 & H4 & H5).
  destruct (tally_fold (slice_elems (SQLiResults result))
                {| t_total := 0; t_critical := 0; t_high := 0; t_medium := 0; t_low := 0 |})
    as (G1 & G2 & G3 & G4 & G5).
  rewrite H1, H2, H3, H4, H5, G1, G2, G3, G4, G5, !severity_count_app, length_app.
  cbn [t_total t_critical t_high t_medium t_low]. lia.
Qed.

Lemma known_severity_sum (l : list Vulnerability) :
  severity_count "critical" l + severity_count "high" l +
  severity_count "medium" l + severity_count "low" l +
  Z.of_nat (length (List.filter (fun v => negb (known_severity v)) l))
  = Z.of_nat (length l).
Proof.
  unfold severity_count, known_severity.
  induction l as [|v l IH]; [reflexivity|].
  cbn [List.filter length]. cbv beta.
  by_severity v.
Qed.

Lemma filter_none_forallb {A : Type} (f : A -> bool) (l : list A) :
  length (List.filter (fun v => negb (f v)) l) = 0%nat <-> forallb f l = true.
Proof.
  induction l as [|v l IH]; [simpl; tauto|].
  cbn [List.filter forallb]. destruct (f v); cbn.
  - exact IH.
  - split; [discriminate|discriminate].
Qed.

(** X2. The counters of the HTML report: the total is the number of SQLi
    plus the number of XSS findings; each severity counter is the number of
    findings of that severity; the four counters add up to at most the
    total, and to the total exactly when every finding has one of the four
    severities; and the critical counter is positive exactly when the risk
    level of the result is CRITICAL. *)
Theorem template_counters (result : ScanResult) (generatedAt : string) :
  TotalVulns (prepareTemplateData result generatedAt)
    = SQLiCount (prepareTemplateData result generatedAt)
      + XSSCount (prepareTemplateData result generatedAt) /\
  CriticalCount (prepareTemplateData result generatedAt)
    = severity_count "critical" (all_vulns result) /\
  HighCount (prepareTemplateData result generatedAt)
    = severity_count "high" (all_vulns result) /\
  MediumCount (prepareTemplateData result generatedAt)
    = severity_count "medium" (all_vulns result) /\
  LowCount (prepareTemplateData result generatedAt)
    = severity_count "low" (all_vulns result) /\
  CriticalCount (prepareTemplateData result generatedAt)
    + HighCount (prepareTemplateData result generatedAt)
    + MediumCount (prepareTemplateData result generatedAt)
    + LowCount (prepareTemplateData result generatedAt)
    <= TotalVulns (prepareTemplateData result generatedAt) /\
  (CriticalCount (prepareTemplateData result generatedAt)
    + HighCount (prepareTemplateData result generatedAt)
    + MediumCount (prepareTemplateData result generatedAt)
    + LowCount (prepareTemplateData result generatedAt)
    = TotalVulns (prepareTemplateData result generatedAt)
   <-> forallb known_severity (all_vulns result) = true) /\
  (0 < CriticalCount (prepareTemplateData result generatedAt)
   <-> CalculateRiskLevel result = "CRITICAL").
Proof.
  unfold prepareTemplateData.
  cbn [TotalVulns SQLiCount XSSCount CriticalCount HighCount MediumCount LowCount].
  destruct (tally_result result) as (H1 & H2 & H3 & H4 & H5).
  cbv zeta in H1, H2, H3, H4, H5. rewrite H1, H2, H3, H4, H5.
  pose proof (known_severity_sum (all_vulns result)) as Hsum.
  pose proof (filter_none_forallb known_severity (all_vulns result)) as Hnone.
  repeat apply conj; try reflexivity.
  - unfold all_vulns. rewrite length_app. lia.
  - lia.
  - intros Heq. apply Hnone. lia.
  - intros Hall. apply Hnone in Hall. lia.
  - intros Hpos. rewrite risk_level_cases.
    apply Z.ltb_lt in Hpos. unfold all_vulns in Hpos.
    rewrite severity_count_pos in Hpos.
    unfold any_severity. rewrite Hpos. reflexivity.
  - intros Hrisk. rewrite risk_level_cases in Hrisk.
    apply Z.ltb_lt. unfold all_vulns. rewrite severity_count_pos.
    unfold any_severity in Hrisk.
    destruct (existsb _ _); [reflexivity|].
    repeat match type of Hrisk with
           | (if ?c then _ else _) = _ => destruct c
           end; discriminate Hrisk.
Qed.

End Reports.
Section PriorityActions.
Import models orchestrator props more report.

Lemma no_findings_no_severity (s : string) (result : ScanResult) :
  (0 <? Z.of_nat (length (slice_elems (SQLiResults result)))) = false ->
  (0 <? Z.of_nat (length (slice_elems (XSSResults result)))) = false ->
  any_severity s result = false.
Proof.
  intros H1 H2. unfold any_severity.
  destruct (slice_elems (SQLiResults result)); [|discriminate H1].
  destruct (slice_elems (XSSResults result)); [|discriminate H2].
  reflexivity.
Qed.

Lemma match_tls_insecure {A : Type} (result : ScanResult) (a b : A) :
  match TLSResults result with
  | Some scan => if negb (IsSecure scan) then a else b
  | None => b
  end = if tls_insecure result then a else b.
Proof. unfold tls_insecure. destruct (TLSResults result); reflexivity. Qed.

Lemma match_header_score_low {A : Type} (result : ScanResult) (a b : A) :
  match HeaderResults result with
  | Some scan => if SecurityScore scan <? 50 then a else b
  | None => b
  end = if header_score_low result then a else b.
Proof. unfold header_score_low. destruct (HeaderResults result); reflexivity. Qed.

Lemma length_eqb_0 {A : Type} (l : list A) :
  (Z.of_nat (length l) =? 0) = negb (0 <? Z.of_nat (length l)).
Proof. destruct l; reflexivity. Qed.

(** X3. The list of priority actions of the HTML report is never empty and
    has at most five entries. It is the single entry saying that no action
    is required exactly when the result has no SQLi and no XSS finding, no
    insecure TLS result and no header score below 50; and whenever that
    entry is in the list, the risk level of the result is LOW. *)
Theorem priority_actions_list (result : ScanResult) (generatedAt : string) :
  PriorityActions (prepareTemplateData result generatedAt) <> [] /\
  (length (PriorityActions (prepareTemplateData result generatedAt)) <= 5)%nat /\
  (PriorityActions (prepareTemplateData result generatedAt) = [no_action]
   <-> nothing_to_do result = true) /\
  (In no_action (PriorityActions (prepareTemplateData result generatedAt))
   -> CalculateRiskLevel result = "LOW").
Proof.
  unfold prepareTemplateData. cbn [PriorityActions].
  destruct (tally_result result) as (_ & H2 & _). cbv zeta in H2. rewrite H2. clear H2.
  rewrite risk_level_cases.
  unfold buildPriorityActionsList, nothing_to_do, all_vulns.
  rewrite severity_count_pos. fold (any_severity "critical" result).
  generalize (pretty (severity_count "critical"
                (slice_elems (SQLiResults result) ++ slice_elems (XSSResults result)))).
  intros n.
  rewrite !match_tls_insecure, !match_header_score_low, !length_eqb_0.
  pose proof (no_findings_no_severity "critical" result) as Hc.
  pose proof (no_findings_no_severity "high" result) as Hh.
  pose proof (no_findings_no_severity "medium" result) as Hm.
  unfold no_action. revert Hc Hh Hm.
  generalize (0 <? Z.of_nat (length (slice_elems (SQLiResults result)))),
             (0 <? Z.of_nat (length (slice_elems (XSSResults result)))),
             (tls_insecure result), (header_score_low result),
             (any_severity "critical" result), (any_severity "high" result),
             (any_severity "medium" result).
  intros b2 b3 bt bh critical high medium Hc Hh Hm.
  destruct b2, b3;
    try (rewrite (Hc eq_refl eq_refl), (Hh eq_refl eq_refl), (Hm eq_refl eq_refl));
    clear Hc Hh Hm; try destruct critical; destruct bt, bh;
    cbn [negb andb orb app length Z.of_nat Z.ltb Z.eqb Z.compare Pos.of_succ_nat];
    (apply conj; [discriminate|]);
    (apply conj; [repeat constructor|]);
    (apply conj;
     [ split; intros H; first [reflexivity | discriminate H]
     | cbn [In]; intros H; first [reflexivity | exfalso];
       repeat (destruct H as [H|H]; [discriminate H|]); exact H ]).
Qed.

End PriorityActions.
Section MarkdownReport.
Import strings models orchestrator props more report markdown.

Lemma count_critical_fold (l : list Vulnerability) : forall n,
  fold_left count_critical l n = n + severity_count "critical" l.
Proof.
  unfold severity_count.
  induction l as [|v l IH]; intros n; [simpl; lia|].
  cbn [fold_left List.filter]. rewrite IH. unfold count_critical.
  destruct (String.eqb (Severity v) "critical"); cbn [length]; lia.
Qed.

(** X4. The list of priority actions of the Markdown report is the line
    saying that no action is required exactly when the result has no SQLi
    and no XSS finding, no insecure TLS result and no header score below 50,
    which is when the HTML report says so; in every other case the list
    begins with the item numbered 1. *)
Theorem markdown_priority_actions (result : ScanResult) :
  (buildPriorityActions result = no_action +:+ nl <-> nothing_to_do result = true) /\
  HasPrefix (buildPriorityActions result) "1. " = negb (nothing_to_do result).
Proof.
  unfold buildPriorityActions.
  rewrite !count_critical_fold, Z.add_0_l, <- severity_count_app.
  unfold nothing_to_do, tls_insecure, header_score_low.
  rewrite !length_eqb_0.
  pose proof (fun s => no_findings_no_severity s result) as Hnone.
  pose proof (severity_count_pos "critical"
                (slice_elems (SQLiResults result) ++ slice_elems (XSSResults result)))
    as Hpos.
  fold (any_severity "critical" result) in Hpos. rewrite <- Hpos. clear Hpos.
  generalize (pretty (severity_count "critical"
                (slice_elems (SQLiResults result) ++ slice_elems (XSSResults result)))).
  intros n.
  assert (Hcrit : (0 <? Z.of_nat (length (slice_elems (SQLiResults result)))) = false ->
                  (0 <? Z.of_nat (length (slice_elems (XSSResults result)))) = false ->
                  (0 <? severity_count "critical"
                     (slice_elems (SQLiResults result) ++ slice_elems (XSSResults result)))
                  = false).
  { intros H1 H2. rewrite severity_count_pos. exact (Hnone "critical" H1 H2). }
  clear Hnone. revert Hcrit.
  generalize (0 <? severity_count "critical"
                (slice_elems (SQLiResults result) ++ slice_elems (XSSResults result))).
  intros critical Hcrit.
  destruct (0 <? Z.of_nat (length (slice_elems (SQLiResults result))));
    destruct (0 <? Z.of_nat (length (slice_elems (XSSResults result))));
    try (rewrite (Hcrit eq_refl eq_refl)); clear Hcrit;
    try destruct critical;
    (destruct (TLSResults result) as [ts|]; [destruct (IsSecure ts)|]);
    (destruct (HeaderResults result) as [hs|]; [destruct (SecurityScore hs <? 50)|]);
    cbn [negb andb];
    (apply conj;
     [ split; intros H; first [reflexivity | discriminate H | vm_compute in H; discriminate H]
     | vm_compute; reflexivity ]).
Qed.

(** X5. The executive summary of the Markdown report opens with the line on
    a good security posture exactly when the result has no SQLi and no XSS
    finding, a header result with a score above 70 and a TLS result that is
    secure; a result without a header result or without a TLS result is
    never reported so. Whenever the summary opens with that line, the risk
    level of the result is LOW. *)
Theorem executive_summary_good_posture (result : ScanResult) :
  (HasPrefix (buildExecutiveSummary result) "✅ **Good Security Posture**" = true
   <-> all_vulns result = [] /\
       (exists scan, HeaderResults result = Some scan /\ 70 < SecurityScore scan) /\
       (exists scan, TLSResults result = Some scan /\ IsSecure scan = true)) /\
  (HasPrefix (buildExecutiveSummary result) "✅ **Good Security Posture**" = true
   -> CalculateRiskLevel result = "LOW").
Proof.
  assert (Hprefix :
    HasPrefix (buildExecutiveSummary result) "✅ **Good Security Posture**"
    = good_posture result).
  { unfold buildExecutiveSummary, good_posture, all_vulns.
    rewrite length_app, Nat2Z.inj_add.
    generalize (pretty (Z.of_nat (length (slice_elems (SQLiResults result))) +
                        Z.of_nat (length (slice_elems (XSSResults result))))).
    generalize (pretty (Z.of_nat (length (slice_elems (SQLiResults result))))).
    generalize (pretty (Z.of_nat (length (slice_elems (XSSResults result))))).
    intros nx ns nt.
    destruct (Z.of_nat (length (slice_elems (SQLiResults result))) +
              Z.of_nat (length (slice_elems (XSSResults result))) =? 0);
      destruct (HeaderResults result) as [hs|];
      [ generalize (pretty (SecurityScore hs)); intros nh;
        destruct (70 <? SecurityScore hs) | |
        generalize (pretty (SecurityScore hs)); intros nh;
        destruct (70 <? SecurityScore hs) | ];
      (destruct (TLSResults result) as [ts|];
       [ generalize (pretty (Score ts)); intros ntl; destruct (IsSecure ts) | ]);
      (destruct (NmapResults result) as [ps|];
       [ generalize (pretty (Z.of_nat (length (OpenPorts ps)))); intros np | ]);
      vm_compute; reflexivity. }
  assert (Hgood : good_posture result = true <->
            all_vulns result = [] /\
            (exists scan, HeaderResults result = Some scan /\ 70 < SecurityScore scan) /\
            (exists scan, TLSResults result = Some scan /\ IsSecure scan = true)).
  { unfold good_posture. rewrite !andb_true_iff. split.
    - intros [[Hlen Hh] Ht]. repeat apply conj.
      + destruct (all_vulns result); [reflexivity|discriminate Hlen].
      + destruct (HeaderResults result) as [hs|]; [|discriminate Hh].
        exists hs. split; [reflexivity|]. apply Z.ltb_lt. exact Hh.
      + destruct (TLSResults result) as [ts|]; [|discriminate Ht].
        exists ts. split; [reflexivity|exact Ht].
    - intros (Hall & (hs & Hh & Hs) & (ts & Ht & Hsec)).
      rewrite Hall, Hh, Ht. repeat apply conj; [reflexivity| |exact Hsec].
      apply Z.ltb_lt. exact Hs. }
  rewrite Hprefix. split; [exact Hgood|].
  intros H. apply Hgood in H as (Hall & (hs & Hh & Hs) & (ts & Ht & Hsec)).
  rewrite risk_level_cases. unfold any_severity, tls_insecure, header_score_low.
  unfold all_vulns in Hall. rewrite Hall, Hh, Ht, Hsec. cbn.
  destruct (Z.ltb_spec (SecurityScore hs) 50); [lia|reflexivity].
Qed.

Lemma len_app (a b : string) : sqli.len (a +:+ b) = sqli.len a + sqli.len b.
Proof.
  unfold sqli.len. induction a as [|c a IH]; [reflexivity|].
  rewrite append_cons. cbn [String.length]. lia.
Qed.

Lemma len_take (n : nat) : forall s, (n <= String.length s)%nat ->
  sqli.len (take n s) = Z.of_nat n.
Proof.
  unfold sqli.len. induction n as [|n IH]; intros s Hn; [reflexivity|].
  destruct s as [|c s]; [simpl in Hn; lia|].
  cbn [take String.length]. rewrite Nat2Z.inj_succ, IH; [lia|]. simpl in Hn. lia.
Qed.

Lemma take_prefix (n : nat) : forall s, HasPrefix s (take n s) = true.
Proof.
  induction n as [|n IH]; intros s; [destruct s; reflexivity|].
  destruct s as [|c s]; [reflexivity|].
  cbn [take HasPrefix]. rewrite Ascii.eqb_refl. apply IH.
Qed.

(** X6. [truncate]: it panics exactly when the string is longer than
    [maxLen] and [maxLen] is below 3. When it returns, the result is no
    longer than [maxLen]; it is the string itself when that fits, and
    otherwise a prefix of the string followed by three dots, of length
    [maxLen] exactly. *)
Theorem truncate_bounds (s : string) (maxLen : Z) :
  (truncate s maxLen = None <-> maxLen < sqli.len s /\ maxLen < 3) /\
  (forall t, truncate s maxLen = Some t ->
     sqli.len t <= maxLen /\
     (sqli.len s <= maxLen -> t = s) /\
     (maxLen < sqli.len s ->
        sqli.len t = maxLen /\
        exists p, t = p +:+ "..." /\ HasPrefix s p = true)).
Proof.
  unfold truncate.
  destruct (Z.leb_spec (sqli.len s) maxLen) as [Hfit|Hlong].
  - split.
    + split; [discriminate|lia].
    + intros t [= <-]. repeat apply conj; [exact Hfit|reflexivity|lia].
  - destruct (Z.ltb_spec (maxLen - 3) 0) as [Hneg|Hpos].
    + split; [split; [lia|reflexivity]|discriminate].
    + split; [split; [discriminate|lia]|].
      intros t [= <-].
      assert (Hlen : sqli.len (take (Z.to_nat (maxLen - 3)) s +:+ "...") = maxLen).
      { rewrite len_app, len_take; [change (sqli.len "...") with 3; lia|].
        unfold sqli.len in Hlong. lia. }
      repeat apply conj; [lia|lia|].
      intros _. split; [exact Hlen|].
      exists (take (Z.to_nat (maxLen - 3)) s). split; [reflexivity|apply take_prefix].
Qed.

End MarkdownReport.

(** ** Decimal numbers: printing and scanning *)

Section Decimal.
Import strings headers more.

Lemma digit_cases (c : ascii) :
  is_digit c = true ->
  In c ["0"; "1"; "2"; "3"; "4"; "5"; "6"; "7"; "8"; "9"]%char.
Proof.
  destruct c as [b0 b1 b2 b3 b4 b5 b6 b7].
  destruct b0, b1, b2, b3, b4, b5, b6, b7; vm_compute; intros H;
    first [discriminate H | tauto].
Qed.

(** What the analyzers need to know of a digit. *)
Lemma digit_facts (c : ascii) :
  is_digit c = true ->
  lower_ascii c = c /\ Ascii.eqb c ";" = false /\ is_space c = false /\
  (nat_of_ascii c =? 10)%nat = false /\
  (forall r : string,
     match String c r with
     | String "-" r' => (true, r')
     | String "+" r' => (false, r')
     | _ => (false, String c r)
     end = (false, String c r)).
Proof.
  intros H. apply digit_cases in H. cbn [In] in H.
  repeat (destruct H as [<- | H]; [repeat apply conj; reflexivity|]).
  contradiction.
Qed.

Lemma pretty_N_char_digit (d : N) :
  (d < 10)%N ->
  is_digit (pretty_N_char d) = true /\
  Z.of_nat (nat_of_ascii (pretty_N_char d)) - 48 = Z.of_N d.
Proof.
  intros Hd.
  assert (Hc : (d = 0 \/ d = 1 \/ d = 2 \/ d = 3 \/ d = 4 \/ d = 5 \/ d = 6 \/ d = 7 \/
                d = 8 \/ d = 9)%N) by lia.
  repeat (destruct Hc as [-> | Hc]; [split; reflexivity|]).
  subst d. split; reflexivity.
Qed.

Lemma all_chars_app (test : ascii -> bool) (a b : string) :
  all_chars test (a +:+ b) = all_chars test a && all_chars test b.
Proof.
  induction a as [|c a IH]; [reflexivity|].
  rewrite append_cons. cbn [all_chars]. rewrite IH. apply andb_assoc.
Qed.

Lemma append_nil_r (a : string) : a +:+ EmptyString = a.
Proof.
  induction a as [|c a IH]; [reflexivity|]. rewrite append_cons, IH. reflexivity.
Qed.

Lemma length_append (a b : string) :
  String.length (a +:+ b) = (String.length a + String.length b)%nat.
Proof.
  induction a as [|c a IH]; [reflexivity|].
  rewrite append_cons. cbn [String.length]. rewrite IH. reflexivity.
Qed.

(** The digits [pretty_N_go] puts in front of a string, and the value
    [digits_value] reads from them. *)
Lemma pretty_N_go_digits (x : N) : forall s,
  exists ds,
    pretty_N_go x s = ds +:+ s /\
    all_chars is_digit ds = true /\
    ((0 < x)%N -> ds <> EmptyString) /\
    forall t acc,
      digits_value (ds +:+ t) acc
      = digits_value t (acc * 10 ^ Z.of_nat (String.length ds) + Z.of_N x).
Proof.
  induction (N.lt_wf_0 x) as [x _ IH]. intros s.
  destruct (N.eq_dec x 0%N) as [-> | Hx].
  - exists EmptyString. rewrite pretty_N_go_0.
    repeat apply conj; [reflexivity|reflexivity|lia|].
    intros t acc. cbn [String.length Z.of_nat]. f_equal. cbn. lia.
  - assert (Hpos : (0 < x)%N) by lia.
    rewrite (pretty_N_go_step x s Hpos).
    destruct (IH (x / 10)%N (N.div_lt x 10 Hpos eq_refl)
                (String (pretty_N_char (x mod 10)) s))
      as (ds & Heq & Hdigits & _ & Hval).
    destruct (pretty_N_char_digit (x mod 10)%N) as [Hd Hv];
      [apply N.mod_lt; discriminate|].
    exists (ds +:+ String (pretty_N_char (x mod 10)) EmptyString).
    repeat apply conj.
    + rewrite Heq, append_assoc. reflexivity.
    + rewrite all_chars_app, Hdigits. cbn [all_chars]. rewrite Hd. reflexivity.
    + intros _. destruct ds; discriminate.
    + intros t acc. rewrite append_assoc, Hval.
      change (String (pretty_N_char (x mod 10)) EmptyString +:+ t)
        with (String (pretty_N_char (x mod 10)) t).
      cbn [digits_value]. rewrite Hd, Hv. f_equal.
      rewrite length_append. cbn [String.length].
      rewrite Nat.add_1_r, Nat2Z.inj_succ, Z.pow_succ_r by lia.
      rewrite N2Z.inj_div, N2Z.inj_mod.
      pose proof (Z.div_mod (Z.of_N x) 10 ltac:(lia)) as Hdm.
      change (Z.of_N 10) with 10. lia.
Qed.

(** The decimal form of a natural number of type [Z]. *)
Lemma pretty_digits (n : Z) :
  0 <= n ->
  exists ds,
    pretty n = ds /\ all_chars is_digit ds = true /\ ds <> EmptyString /\
    forall t acc,
      digits_value (ds +:+ t) acc
      = digits_value t (acc * 10 ^ Z.of_nat (String.length ds) + n).
Proof.
  intros Hn. destruct n as [|p|p]; [| |lia].
  - exists "0". repeat apply conj; [reflexivity|reflexivity|discriminate|].
    intros t acc. change ("0" +:+ t) with (String "0" t).
    cbn [digits_value]. change (is_digit "0") with true. cbv iota. f_equal.
    change (Z.of_nat (nat_of_ascii "0") - 48) with 0.
    change (Z.of_nat (String.length "0")) with 1. lia.
  - destruct (pretty_N_go_digits (Npos p) EmptyString) as (ds & Heq & Hd & Hne & Hval).
    exists ds. rewrite append_nil_r in Heq.
    repeat apply conj; [|exact Hd|apply Hne; reflexivity|exact Hval].
    unfold pretty, pretty_Z, pretty, pretty_positive, pretty, pretty_N.
    destruct (decide (N.pos p = 0%N)) as [H0|_]; [discriminate H0|exact Heq].
Qed.

Lemma digits_lower (ds : string) : all_chars is_digit ds = true -> ToLower ds = ds.
Proof.
  induction ds as [|c ds IH]; [reflexivity|].
  cbn [all_chars ToLower]. intros H. apply andb_true_iff in H as [Hc Hds].
  destruct (digit_facts c Hc) as (-> & _). rewrite (IH Hds). reflexivity.
Qed.

Lemma split_on_plain (a : string) : forall rest cur,
  all_chars (fun c => negb (Ascii.eqb c ";")) a = true ->
  split_on ";" (a +:+ rest) cur = split_on ";" rest (cur +:+ a).
Proof.
  induction a as [|c a IH]; intros rest cur H.
  - rewrite append_nil_r. reflexivity.
  - cbn [all_chars] in H. apply andb_true_iff in H as [Hc Ha].
    rewrite append_cons. cbn [split_on].
    apply negb_true_iff in Hc. rewrite Hc, (IH _ _ Ha), append_assoc. reflexivity.
Qed.

Lemma digits_plain (ds : string) :
  all_chars is_digit ds = true -> all_chars (fun c => negb (Ascii.eqb c ";")) ds = true.
Proof.
  induction ds as [|c ds IH]; [reflexivity|].
  cbn [all_chars]. intros H. apply andb_true_iff in H as [Hc Hds].
  destruct (digit_facts c Hc) as (_ & -> & _). rewrite (IH Hds). reflexivity.
Qed.

Lemma rev_string_app (a : string) : forall b acc,
  rev_string (a +:+ b) acc = rev_string b (rev_string a acc).
Proof.
  induction a as [|c a IH]; intros b acc; [reflexivity|].
  rewrite append_cons. cbn [rev_string]. apply IH.
Qed.

Lemma rev_string_twice (a : string) : forall b c,
  rev_string (rev_string a b) c = rev_string b (a +:+ c).
Proof.
  induction a as [|x a IH]; intros b c; [reflexivity|].
  cbn [rev_string]. rewrite IH. reflexivity.
Qed.

Lemma rev_digits_head (ds : string) : forall acc,
  all_chars is_digit ds = true -> ds <> EmptyString ->
  exists c t, rev_string ds acc = String c t /\ is_digit c = true.
Proof.
  induction ds as [|c ds IH]; intros acc H Hne; [congruence|].
  cbn [all_chars] in H. apply andb_true_iff in H as [Hc Hds].
  cbn [rev_string]. destruct ds as [|c' ds'].
  - exists c, acc. split; [reflexivity|exact Hc].
  - apply IH; [exact Hds|discriminate].
Qed.

(** A directive name followed by a number has no white space to trim. *)
Lemma TrimSpace_number (name ds : string) :
  trim_left name = name -> name <> EmptyString ->
  all_chars is_digit ds = true -> ds <> EmptyString ->
  TrimSpace (name +:+ ds) = name +:+ ds.
Proof.
  intros Hname Hne Hd Hds. unfold TrimSpace.
  assert (Hleft : trim_left (name +:+ ds) = name +:+ ds).
  { destruct name as [|c name]; [congruence|].
    rewrite append_cons. cbn [trim_left] in *.
    destruct (is_space c); [|reflexivity].
    exfalso. assert (Hlen : String.length (trim_left name) = S (String.length name))
      by (rewrite Hname; reflexivity).
    assert (Hle : forall s, (String.length (trim_left s) <= String.length s)%nat).
    { clear. induction s as [|c s IH]; [reflexivity|].
      cbn [trim_left]. destruct (is_space c); cbn [String.length]; lia. }
    specialize (Hle name). lia. }
  rewrite Hleft, rev_string_app.
  destruct (rev_digits_head ds (rev_string name EmptyString) Hd Hds)
    as (c & t & Hrev & Hc).
  rewrite Hrev. cbn [trim_left].
  destruct (digit_facts c Hc) as (_ & _ & -> & _).
  rewrite <- Hrev, <- rev_string_app, rev_string_twice.
  cbn [rev_string]. apply append_nil_r.
Qed.

(** [%d] of [fmt.Sscanf] reads back what [%d] of [fmt.Sprintf] prints. *)
Lemma scan_digits (ds : string) (n : Z) :
  all_chars is_digit ds = true -> ds <> EmptyString ->
  (forall t acc,
     digits_value (ds +:+ t) acc
     = digits_value t (acc * 10 ^ Z.of_nat (String.length ds) + n)) ->
  scan_int ds = (if in_int64 n then n else 0) /\
  utils.scan_int_opt ds = if in_int64 n then Some n else None.
Proof.
  intros Hd Hne Hval.
  destruct ds as [|c ds]; [congruence|].
  cbn [all_chars] in Hd. apply andb_true_iff in Hd as [Hc Hds].
  destruct (digit_facts c Hc) as (_ & _ & Hsp & Hnl & Hsign).
  unfold scan_int, utils.scan_int_opt. cbn [skip_blanks]. rewrite Hnl, Hsp.
  rewrite !Hsign. cbn [starts_with_digit]. rewrite Hc.
  specialize (Hval EmptyString 0). rewrite append_nil_r in Hval.
  rewrite Hval. cbn [digits_value]. rewrite Z.mul_0_l, Z.add_0_l.
  split; reflexivity.
Qed.

End Decimal.
Section PortProbe.
Import models nmap more.

Lemma add_port_fold (ports : list NmapPort) : forall acc,
  exists added,
    fold_left add_port ports acc = acc ++ added /\
    Forall (fun p => State p = "open") added /\
    map (fun p => (Number p, port_Protocol p, Service p)) added
    = map (fun p => (PortID p, np_Protocol p, svc_Name (np_Service p)))
        (List.filter (fun port => String.eqb (state_State (np_State port)) "open") ports).
Proof.
  induction ports as [|port ports IH]; intros acc.
  - exists []. rewrite app_nil_r. repeat split. constructor.
  - cbn [fold_left List.filter]. unfold add_port at 2.
    destruct (String.eqb (state_State (np_State port)) "open") eqn:E.
    + destruct (IH (acc ++ [{| Number := PortID port;
                     port_Protocol := np_Protocol port;
                     State := state_State (np_State port);
                     Service := svc_Name (np_Service port);
                     Version := if negb (String.eqb (svc_Version (np_Service port)) EmptyString)
                                then Product (np_Service port) +:+ " " +:+
                                     svc_Version (np_Service port)
                                else Product (np_Service port) |}]))
        as (added & Heq & Hopen & Hmap).
      eexists (_ :: added). split; [rewrite Heq, <- app_assoc; reflexivity|].
      split.
      * constructor; [apply String.eqb_eq in E; exact E|exact Hopen].
      * cbn [map]. rewrite Hmap. reflexivity.
    + apply IH.
Qed.

Lemma add_host_fold (hosts : list NmapHost) : forall acc,
  exists added,
    fold_left add_host hosts acc = acc ++ added /\
    Forall (fun p => State p = "open") added /\
    map (fun p => (Number p, port_Protocol p, Service p)) added
    = map (fun p => (PortID p, np_Protocol p, svc_Name (np_Service p)))
        (List.filter (fun port => String.eqb (state_State (np_State port)) "open")
           (flat_map (fun host => Ports (host_Ports host)) hosts)).
Proof.
  induction hosts as [|host hosts IH]; intros acc.
  - exists []. rewrite app_nil_r. repeat split. constructor.
  - cbn [fold_left flat_map]. unfold add_host at 2.
    destruct (add_port_fold (Ports (host_Ports host)) acc) as (a1 & H1 & O1 & M1).
    rewrite H1.
    destruct (IH (acc ++ a1)) as (a2 & H2 & O2 & M2).
    exists (a1 ++ a2). split; [rewrite H2, <- app_assoc; reflexivity|].
    split; [apply Forall_app; split; assumption|].
    rewrite List.filter_app, !map_app, M1, M2. reflexivity.
Qed.

(** X7. [ScanNmap] returns a scan only when the binary is installed, the
    command ran without error and its output was read as XML; the scan then
    lists the ports of the output that are in state open, and only those,
    host by host in the order of the output, each with its number, protocol
    and service name, and carries the measured duration. *)
Theorem ScanNmap_open_ports (installed : bool) (output : string) (err : option error)
    (xml_Unmarshal : string -> result NmapRun) (duration : Z) (scan : NmapScan) :
  ScanNmap installed output err xml_Unmarshal duration = Ok scan ->
  installed = true /\ err = None /\
  exists run,
    xml_Unmarshal output = Ok run /\
    Forall (fun p => State p = "open") (OpenPorts scan) /\
    map (fun p => (Number p, port_Protocol p, Service p)) (OpenPorts scan)
    = map (fun p => (PortID p, np_Protocol p, svc_Name (np_Service p))) (open_ports run) /\
    Duration scan = duration.
Proof.
  unfold ScanNmap, parseNmapXML. intros H.
  destruct installed; [|discriminate H]. cbn [negb] in H.
  destruct err as [e|]; [discriminate H|].
  destruct (xml_Unmarshal output) as [run|e]; [|discriminate H].
  injection H as <-. cbn [OpenPorts Duration].
  repeat apply conj; try reflexivity.
  exists run. split; [reflexivity|].
  destruct (add_host_fold (Hosts run) []) as (added & Heq & Hopen & Hmap).
  rewrite Heq. cbn [app]. repeat apply conj; [exact Hopen|exact Hmap|reflexivity].
Qed.


Lemma ScanNmap_open_ports_witness :
  true = true /\ @None error = None /\
  exists run,
    Ok samples.one_host = Ok run /\
    Forall (fun p => State p = "open") (OpenPorts samples.one_host_scan) /\
    map (fun p => (Number p, port_Protocol p, Service p)) (OpenPorts samples.one_host_scan)
    = map (fun p => (PortID p, np_Protocol p, svc_Name (np_Service p))) (open_ports run) /\
    Duration samples.one_host_scan = 5000000000.
Proof.
  apply (ScanNmap_open_ports true "<nmaprun></nmaprun>" None
           (fun _ => Ok samples.one_host) 5000000000 samples.one_host_scan).
  reflexivity.
Defined.

End PortProbe.

(** ** Validation of the target *)

Section TargetValidation.
Import strings models net utils more.
Context `{E : Env}.
Variable lib : Library.

(** The URL [ValidateAndParseURL] works on: the scheme [https] is put in
    front of an input that has neither of the two prefixes. *)
Ltac run_step := cbv beta iota zeta; cbn [fst snd].

Lemma with_scheme_prefix (rawURL : string) :
  HasPrefix (with_scheme rawURL) "http://" || HasPrefix (with_scheme rawURL) "https://"
  = true.
Proof.
  unfold with_scheme.
  destruct (HasPrefix rawURL "http://") eqn:E1; cbn [negb andb].
  - rewrite E1. reflexivity.
  - destruct (HasPrefix rawURL "https://") eqn:E2; cbn [negb].
    + rewrite E1, E2. reflexivity.
    + rewrite (HasPrefix_app "https://" rawURL). apply orb_true_r.
Qed.

Lemma Sscanf_d_pretty (p dst : Z) :
  0 <= p < 2 ^ 63 ->
  (if negb (String.eqb (pretty p) EmptyString) then Sscanf_d (pretty p) dst else dst) = p.
Proof.
  intros Hp.
  destruct (pretty_digits p ltac:(lia)) as (ds & -> & Hd & Hne & Hval).
  destruct (scan_digits ds p Hd Hne Hval) as [_ Hscan].
  apply String.eqb_neq in Hne. rewrite Hne. cbn [negb].
  unfold Sscanf_d. rewrite Hscan.
  unfold headers.in_int64.
  destruct (Z.leb_spec (- 2 ^ 63) p), (Z.ltb_spec p (2 ^ 63)); try lia. reflexivity.
Qed.

(** X8. A target [ValidateAndParseURL] returns has the protocol [http] or
    [https], a domain that is not empty, and the URL that was given, with
    [https://] in front of it when it had neither scheme prefix; the domain
    and the protocol are those [url.Parse] reads in that URL, and the port
    is 443 for [https] and 80 for [http] when the URL names none, and the
    number the URL names in decimal otherwise. Exactly one request was
    made, a GET of that URL. *)
Theorem ValidateAndParseURL_target (rawURL : string) (st : St) (target : TargetInfo) :
  (ValidateAndParseURL lib rawURL st).1 = Ok target ->
  (Protocol target = "http" \/ Protocol target = "https") /\
  Domain target <> EmptyString /\
  URL target = with_scheme rawURL /\
  HasPrefix (URL target) "http://" || HasPrefix (URL target) "https://" = true /\
  (exists parsedURL,
     Parse lib (URL target) = Ok parsedURL /\
     Protocol target = p_Scheme parsedURL /\
     Domain target = p_Hostname parsedURL /\
     (p_Port parsedURL = EmptyString ->
      Port target = if String.eqb (Protocol target) "https" then 443 else 80) /\
     (forall p, 0 <= p < 2 ^ 63 -> p_Port parsedURL = pretty p -> Port target = p)) /\
  snd (ValidateAndParseURL lib rawURL st).2 = snd st ++ [EvGet (URL target)].
Proof.
  unfold ValidateAndParseURL. fold (with_scheme rawURL).
  destruct (Parse lib (with_scheme rawURL)) as [parsedURL|e] eqn:Hparse;
    [|intros H; discriminate H].
  destruct (String.eqb (p_Scheme parsedURL) "http") eqn:Ehttp;
    destruct (String.eqb (p_Scheme parsedURL) "https") eqn:Ehttps;
    cbn [negb andb]; try (intros H; discriminate H);
    (destruct (String.eqb (p_Hostname parsedURL) EmptyString) eqn:Ehost;
     [intros H; discriminate H|]);
    unfold checkReachability, resolveIP, client_Get, lift, bind, ret;
    destruct st as [w log]; cbn [fst snd];
    destruct (LookupIP lib (p_Hostname parsedURL) w) as [r w1];
    (destruct r as [ips|e]; run_step; [|intros H; discriminate H]);
    (destruct ips as [|ip0 ips]; run_step; [intros H; discriminate H|]);
    destruct (first_ipv4 (ip0 :: ips));
    cbv beta iota zeta; cbn [fst snd];
    destruct (http_Get (with_scheme rawURL) w1) as [g w2];
    (destruct g as [resp|e]; run_step; [|intros H; discriminate H]);
    intros [= <-]; cbn [Protocol Domain URL Port];
    apply String.eqb_neq in Ehost;
    (repeat apply conj;
     [ first [ left; apply String.eqb_eq; assumption
             | right; apply String.eqb_eq; assumption ]
     | exact Ehost
     | reflexivity
     | apply with_scheme_prefix
     | exists parsedURL; repeat apply conj;
       [ exact Hparse | reflexivity | reflexivity
       | intros ->; rewrite ?Ehttps; reflexivity
       | intros p Hp ->; apply Sscanf_d_pretty; exact Hp ]
     | reflexivity ]).
Qed.

(** X9. [ValidateAndParseURL] touches the network only after the URL has
    passed the checks of its text: when the URL does not parse, has a
    scheme other than [http] and [https] or has no host name, it fails with
    the state it was given, and no name is resolved and no request made.
    When the resolution of the name fails, no request is made either. *)
Theorem ValidateAndParseURL_offline (rawURL : string) (st : St) :
  (forall parsedURL,
     Parse lib (with_scheme rawURL) = Ok parsedURL ->
     (p_Scheme parsedURL = "http" \/ p_Scheme parsedURL = "https") ->
     p_Hostname parsedURL = EmptyString ->
     ValidateAndParseURL lib rawURL st = (Err "could not extract domain from URL", st)) /\
  (forall parsedURL,
     Parse lib (with_scheme rawURL) = Ok parsedURL ->
     p_Scheme parsedURL <> "http" -> p_Scheme parsedURL <> "https" ->
     ValidateAndParseURL lib rawURL st
     = (Err ("unsupported protocol: " +:+ p_Scheme parsedURL +:+
             " (only http/https allowed)"), st)) /\
  (forall err,
     Parse lib (with_scheme rawURL) = Err err ->
     ValidateAndParseURL lib rawURL st = (Err ("invalid URL format: " +:+ err), st)) /\
  (forall err,
     (ValidateAndParseURL lib rawURL st).1 = Err err ->
     HasPrefix err "target unreachable: " = false ->
     snd (ValidateAndParseURL lib rawURL st).2 = snd st).
Proof.
  unfold ValidateAndParseURL. fold (with_scheme rawURL).
  repeat apply conj.
  - intros parsedURL -> Hscheme Hhost. rewrite Hhost.
    destruct Hscheme as [-> | ->]; reflexivity.
  - intros parsedURL -> H1 H2.
    apply String.eqb_neq in H1, H2. rewrite H1, H2. reflexivity.
  - intros err ->. reflexivity.
  - intros err.
    destruct (Parse lib (with_scheme rawURL)) as [parsedURL|e]; [|reflexivity].
    destruct (negb (String.eqb (p_Scheme parsedURL) "http") &&
              negb (String.eqb (p_Scheme parsedURL) "https")); [reflexivity|].
    destruct (String.eqb (p_Hostname parsedURL) EmptyString); [reflexivity|].
    unfold checkReachability, resolveIP, client_Get, lift, bind, ret.
    destruct st as [w log]; cbn [fst snd].
    destruct (LookupIP lib (p_Hostname parsedURL) w) as [r w1].
    destruct r as [ips|e]; run_step; [|reflexivity].
    destruct ips as [|ip0 ips]; run_step; [reflexivity|].
    destruct (first_ipv4 (ip0 :: ips)); run_step;
      destruct (http_Get (with_scheme rawURL) w1) as [g w2];
      (destruct g as [resp|e]; run_step;
       [ intros H; discriminate H
       | intros [= <-] Hprefix;
         rewrite (HasPrefix_app "target unreachable: " e) in Hprefix;
         discriminate Hprefix ]).
Qed.

(** X10. [resolveIP] answers with the first address of the lookup that has
    a 4-byte form, whatever addresses come before it, and with the first
    address of the lookup when none has; it fails when the lookup fails or
    gives no address. *)
Theorem resolveIP_prefers_ipv4 (domain : string) (st : St) :
  match LookupIP lib domain (fst st) with
  | (Err err, _) => (resolveIP lib domain st).1 = Err err
  | (Ok [], _) => (resolveIP lib domain st).1 = Err "no IP addresses found for domain"
  | (Ok (ip0 :: rest), _) =>
      exists ip, (resolveIP lib domain st).1 = Ok ip /\
        ((exists before a after,
            ip0 :: rest = before ++ a :: after /\
            Forall (fun b => To4 b = None) before /\ To4 a = Some ip) \/
         (Forall (fun b => To4 b = None) (ip0 :: rest) /\ ip = ip_String ip0))
  end.
Proof.
  unfold resolveIP.
  destruct (LookupIP lib domain (fst st)) as [r w1].
  destruct r as [ips|e]; [|reflexivity].
  destruct ips as [|ip0 rest]; [reflexivity|].
  assert (Hfirst : forall ips,
            match first_ipv4 ips with
            | Some ip => exists before a after,
                ips = before ++ a :: after /\
                Forall (fun b => To4 b = None) before /\ To4 a = Some ip
            | None => Forall (fun b => To4 b = None) ips
            end).
  { induction ips as [|a ips IH]; [constructor|].
    cbn [first_ipv4]. destruct (To4 a) as [ip|] eqn:Ea.
    - exists [], a, ips. repeat split; [constructor|exact Ea].
    - destruct (first_ipv4 ips) as [ip|].
      + destruct IH as (before & b & after & -> & Hb & Hip).
        exists (a :: before), b, after. repeat split; [|exact Hip].
        constructor; assumption.
      + constructor; assumption. }
  specialize (Hfirst (ip0 :: rest)).
  destruct (first_ipv4 (ip0 :: rest)) as [ip|]; cbn [fst].
  - exists ip. split; [reflexivity|left; exact Hfirst].
  - exists (ip_String ip0). split; [reflexivity|right; split; [exact Hfirst|reflexivity]].
Qed.

Lemma redact_fold (keys : list string) : forall (query : gmap string (list string)) key,
  fold_left redact_key keys query !! key
  = if sensitive key && bool_decide (key ∈ keys)
    then Some ["[REDACTED]"] else query !! key.
Proof.
  induction keys as [|k keys IH]; intros query key.
  - cbn [fold_left]. rewrite andb_false_r. reflexivity.
  - cbn [fold_left]. rewrite IH. unfold redact_key, sqli.Values_Set.
    destruct (sensitive key) eqn:Hs; cbn [andb].
    + destruct (bool_decide (key ∈ keys)) eqn:Hin.
      * apply bool_decide_eq_true in Hin.
        rewrite bool_decide_eq_true_2; [reflexivity|]. apply elem_of_cons. right. exact Hin.
      * apply bool_decide_eq_false in Hin.
        destruct (decide (key = k)) as [->|Hne].
        -- rewrite Hs, lookup_insert_eq.
           rewrite bool_decide_eq_true_2; [reflexivity|]. apply elem_of_cons. left. reflexivity.
        -- rewrite bool_decide_eq_false_2.
           ++ destruct (sensitive k); [rewrite lookup_insert_ne by congruence|]; reflexivity.
           ++ intros Hc. apply elem_of_cons in Hc as [Hc|Hc]; contradiction.
    + destruct (sensitive k) eqn:Hk; [|reflexivity].
      rewrite lookup_insert_ne; [reflexivity|]. intros ->. congruence.
Qed.

(** X11. The loop of [SanitizeURL] over the query: whatever the order in
    which the keys are visited, a key whose name in lower case contains
    token, key, secret or password ends with the single value [[REDACTED]],
    every other key keeps its values, and no key is added or removed.
    Sanitizing again changes nothing. *)
Theorem redact_query (query : gmap string (list string)) :
  (forall key,
     redact query !! key
     = match query !! key with
       | Some values => if sensitive key then Some ["[REDACTED]"] else Some values
       | None => None
       end) /\
  redact (redact query) = redact query.
Proof.
  assert (Hlookup : forall q key,
     redact q !! key
     = match q !! key with
       | Some values => if sensitive key then Some ["[REDACTED]"] else Some values
       | None => None
       end).
  { intros q key. unfold redact. rewrite redact_fold.
    destruct (q !! key) as [values|] eqn:Hq.
    - rewrite bool_decide_eq_true_2.
      + rewrite andb_true_r. destruct (sensitive key); reflexivity.
      + rewrite range_order_perm. apply list_elem_of_fmap.
        exists (key, values). split; [reflexivity|].
        apply elem_of_map_to_list. exact Hq.
    - rewrite bool_decide_eq_false_2; [rewrite andb_false_r; reflexivity|].
      rewrite range_order_perm. intros Hin.
      apply list_elem_of_fmap in Hin as ([k v] & Hk & Hin). cbn in Hk. subst k.
      apply elem_of_map_to_list in Hin. congruence. }
  split; [apply Hlookup|].
  apply map_eq. intros key. rewrite !Hlookup.
  destruct (query !! key); [|reflexivity].
  destruct (sensitive key); reflexivity.
Qed.

End TargetValidation.

Lemma ValidateAndParseURL_target_witness :
  (@utils.ValidateAndParseURL samples.page_env samples.one_name "example.test/" (tt, [])).1
    = Ok samples.validated /\
  models.URL samples.validated = "https://example.test/" /\
  models.Port samples.validated = 443 /\
  snd (@utils.ValidateAndParseURL samples.page_env samples.one_name "example.test/"
         (tt, [])).2
    = [net.EvGet "https://example.test/"].
Proof.
  assert (Hrun : (@utils.ValidateAndParseURL samples.page_env samples.one_name
                    "example.test/" (tt, [])).1 = Ok samples.validated)
    by (vm_compute; reflexivity).
  destruct (@ValidateAndParseURL_target samples.page_env samples.one_name
              "example.test/" (tt, []) samples.validated Hrun)
    as (_ & _ & Hurl & _ & (parsed & Hparse & _ & _ & Hport & _) & Hlog).
  split; [exact Hrun|]. split; [exact Hurl|].
  split; [reflexivity|exact Hlog].
Defined.

(** ** The header analyzer: requests, thresholds and recommendations *)

Section HeaderProbe.
Import strings models net headers headers_scan orchestrator props more recommendations.

(** X12. [ScanHeaders] sends a HEAD request first and a GET request after it
    only when the HEAD request failed or was answered with a status of 400
    or more; it makes no other request. It fails only after both requests,
    with the error of the GET request, and when it succeeds its result is
    the analysis of the header of the answer to the last request it made,
    whatever the status of a GET answer. *)
Theorem ScanHeaders_requests `{E : Env} (target : TargetInfo) (st : St) :
  (snd (ScanHeaders target st).2 = snd st ++ [EvHead (URL target)] \/
   snd (ScanHeaders target st).2
     = snd st ++ [EvHead (URL target); EvGet (URL target)]) /\
  (forall e, (ScanHeaders target st).1 = Err e ->
     snd (ScanHeaders target st).2
       = snd st ++ [EvHead (URL target); EvGet (URL target)] /\
     exists e', (http_Get (URL target) (http_Head (URL target) (fst st)).2).1 = Err e' /\
       e = "failed to connect: " +:+ e') /\
  (forall scan, (ScanHeaders target st).1 = Ok scan ->
     (exists resp,
        (http_Head (URL target) (fst st)).1 = Ok resp /\ StatusCode resp < 400 /\
        scan = analyze (Header resp) /\
        snd (ScanHeaders target st).2 = snd st ++ [EvHead (URL target)]) \/
     (exists resp,
        (http_Get (URL target) (http_Head (URL target) (fst st)).2).1 = Ok resp /\
        scan = analyze (Header resp) /\
        snd (ScanHeaders target st).2
          = snd st ++ [EvHead (URL target); EvGet (URL target)])).
Proof.
  unfold ScanHeaders, client_Head, client_Get, lift, bind, ret.
  destruct st as [w log]. cbn [fst snd].
  destruct (http_Head (URL target) w) as [r w1]. cbn [fst snd].
  destruct r as [resp|e1].
  - destruct (Z.leb_spec 400 (StatusCode resp)) as [Hbad|Hgood].
    + cbn [fst snd]. destruct (http_Get (URL target) w1) as [r2 w2].
      rewrite <- app_assoc. cbn [app fst snd].
      destruct r2 as [resp2|e2]; cbn [fst snd].
      * split; [right; reflexivity|]. split; [intros e H; discriminate H|].
        intros scan [= <-]. right. exists resp2. repeat split.
      * split; [right; reflexivity|]. split; [|intros scan H; discriminate H].
        intros e [= <-]. split; [reflexivity|]. exists e2. repeat split.
    + cbn [fst snd]. split; [left; reflexivity|].
      split; [intros e H; discriminate H|].
      intros scan [= <-]. left. exists resp. repeat split. exact Hgood.
  - cbn [fst snd]. destruct (http_Get (URL target) w1) as [r2 w2].
    rewrite <- app_assoc. cbn [app fst snd].
    destruct r2 as [resp2|e2]; cbn [fst snd].
    * split; [right; reflexivity|]. split; [intros e H; discriminate H|].
      intros scan [= <-]. right. exists resp2. repeat split.
    * split; [right; reflexivity|]. split; [|intros scan H; discriminate H].
      intros e [= <-]. split; [reflexivity|]. exists e2. repeat split.
Qed.

Lemma filed_count (header : gmap string (list string)) :
  (length (MissingHeaders (analyze header)) + length (WeakHeaders (analyze header))
   + length (PresentHeaders (analyze header)) = 7)%nat.
Proof.
  destruct (analyze_lists header) as (-> & -> & ->).
  pose proof (filed_once header securityHeaders) as Hperm.
  apply Permutation_length in Hperm.
  rewrite !length_app, !length_map in Hperm.
  change (length securityHeaders) with 7%nat in Hperm. lia.
Qed.

Lemma strong_count_present (header : gmap string (list string)) :
  strong_count header = Z.of_nat (length (PresentHeaders (analyze header))).
Proof.
  destruct (analyze_lists header) as (_ & _ & ->). reflexivity.
Qed.

Lemma score_by_count (k : Z) :
  0 <= k <= 7 ->
  ((100 * k / 7 <? 50) = (k <=? 3)) /\ ((70 <? 100 * k / 7) = (5 <=? k)) /\
  0 <= 100 * k / 7 <= 100 /\ (100 * k / 7 = 100 <-> k = 7) /\
  (100 * k / 7 <= 85 <-> k <= 6).
Proof.
  intros Hk.
  assert (Hcases : k = 0 \/ k = 1 \/ k = 2 \/ k = 3 \/ k = 4 \/ k = 5 \/ k = 6 \/ k = 7)
    by lia.
  repeat destruct Hcases as [-> | Hcases]; try subst k;
    match goal with
    | |- context [100 * ?k / 7] =>
        let v := eval vm_compute in (100 * k / 7) in
        change (100 * k / 7) with v
    end;
    (repeat apply conj; try reflexivity; lia).
Qed.

(** X13. The thresholds of the header score in numbers of headers: the
    score is below 50, the bound of the risk classification, exactly when
    at most three of the seven headers are present with a value that is not
    weak, and above 70, the bound of the executive summary, exactly when at
    least five are. So a result with no SQLi or XSS finding and no insecure
    TLS result has risk level MEDIUM when at most three headers are strong
    and LOW otherwise. *)
Theorem header_score_thresholds (header : gmap string (list string))
    (result : ScanResult) :
  HeaderResults result = Some (analyze header) ->
  all_vulns result = [] ->
  tls_insecure result = false ->
  (SecurityScore (analyze header) <? 50) = (strong_count header <=? 3) /\
  (70 <? SecurityScore (analyze header)) = (5 <=? strong_count header) /\
  0 <= SecurityScore (analyze header) <= 100 /\
  CalculateRiskLevel result = if strong_count header <=? 3 then "MEDIUM" else "LOW".
Proof.
  intros Hh Hv Ht.
  rewrite risk_level_cases. unfold any_severity, header_score_low.
  unfold all_vulns in Hv. rewrite Hv, Ht, Hh. cbn [existsb orb].
  rewrite SecurityScore_analyze.
  destruct (score_by_count (strong_count header) (strong_count_bounds header))
    as (H50 & H70 & Hrange & _ & _).
  rewrite H50. repeat apply conj; try reflexivity; [exact H70|apply Hrange|apply Hrange].
Qed.

Lemma header_score_thresholds_witness :
  (SecurityScore (analyze examples.two_strong) <? 50)
    = (strong_count examples.two_strong <=? 3) /\
  CalculateRiskLevel (samples.header_result examples.two_strong) = "MEDIUM".
Proof.
  destruct (header_score_thresholds examples.two_strong
              (samples.header_result examples.two_strong)
              eq_refl eq_refl eq_refl) as (H50 & _ & _ & Hrisk).
  split; [exact H50|].
  rewrite Hrisk. vm_compute. reflexivity.
Defined.

Lemma recommend_weak_length (l : list SecurityHeader) : forall acc,
  length (fold_left recommend_weak l acc) = (length acc + length l)%nat.
Proof.
  induction l as [|h l IH]; intros acc; cbn [fold_left length]; [lia|].
  rewrite IH. unfold recommend_weak. rewrite length_app. cbn [length]. lia.
Qed.

Lemma recommend_missing_length (l : list SecurityHeader) : forall acc,
  length (fold_left recommend_missing l acc)
  = (length acc + length (List.filter recommended l))%nat.
Proof.
  induction l as [|h l IH]; intros acc; cbn [fold_left List.filter length]; [lia|].
  rewrite IH. unfold recommend_missing, recommended.
  destruct (missing_recommendation (hdr_Name h)); [|reflexivity].
  rewrite length_app. cbn [length]. lia.
Qed.

Lemma filter_omap {A B : Type} (f : A -> option B) (P : B -> bool) (Q : A -> bool)
    (l : list A) :
  (forall a b, f a = Some b -> P b = Q a) ->
  List.filter P (omap f l) = omap f (List.filter Q l).
Proof.
  intros H. induction l as [|a l IH]; [reflexivity|].
  cbn [omap list_omap List.filter].
  destruct (f a) as [b|] eqn:Hf.
  - cbn [List.filter]. rewrite (H a b Hf).
    destruct (Q a); cbn [omap list_omap]; rewrite ?Hf, IH; reflexivity.
  - destruct (Q a); cbn [omap list_omap]; rewrite ?Hf, IH; reflexivity.
Qed.

Lemma filter_split_length {A : Type} (P : A -> bool) (l : list A) :
  (length (List.filter P l) + length (List.filter (fun a => negb (P a)) l)
   = length l)%nat.
Proof.
  induction l as [|a l IH]; [reflexivity|].
  cbn [List.filter]. destruct (P a); cbn [negb length]; lia.
Qed.

Lemma missing_recommended (header : gmap string (list string)) :
  Z.of_nat (length (List.filter recommended (omap (as_missing header) securityHeaders)))
  = Z.of_nat (length (omap (as_missing header) securityHeaders))
    - match header !! "X-XSS-Protection" with Some _ => 0 | None => 1 end.
Proof.
  pose proof (filter_split_length recommended
                (omap (as_missing header) securityHeaders)) as Hsplit.
  rewrite (filter_omap (as_missing header) (fun h => negb (recommended h))
             (fun d => negb (match missing_recommendation (def_Name d) with
                             | Some _ => true | None => false end))) in Hsplit.
  - assert (Hlast :
      List.filter (fun d => negb (match missing_recommendation (def_Name d) with
                                  | Some _ => true | None => false end)) securityHeaders
      = [{| def_Name := "X-XSS-Protection";
            def_Description := "Legacy XSS filter (deprecated but still useful)";
            def_Severity := "low" |}]) by (vm_compute; reflexivity).
    rewrite Hlast in Hsplit. cbn [omap list_omap] in Hsplit.
    unfold as_missing at 2 in Hsplit. cbn [def_Name] in Hsplit.
    destruct (header !! "X-XSS-Protection"); cbn [length] in Hsplit; lia.
  - intros d h Hd. unfold as_missing in Hd.
    destruct (header !! def_Name d); [discriminate Hd|].
    injection Hd as <-. reflexivity.
Qed.

(** X14. The recommendations for a header scan: one for each missing header
    except X-XSS-Protection, whose absence is counted in the score and not
    recommended against, and one for each weak header. A scan with no
    recommendation has a score of at least 85. *)
Theorem header_recommendations_count (header : gmap string (list string)) :
  Z.of_nat (length (GetHeaderRecommendations (analyze header)))
  = Z.of_nat (length (MissingHeaders (analyze header)))
    + Z.of_nat (length (WeakHeaders (analyze header)))
    - match header !! "X-XSS-Protection" with Some _ => 0 | None => 1 end /\
  (GetHeaderRecommendations (analyze header) = [] ->
   85 <= SecurityScore (analyze header)).
Proof.
  assert (Hlen :
    Z.of_nat (length (GetHeaderRecommendations (analyze header)))
    = Z.of_nat (length (MissingHeaders (analyze header)))
      + Z.of_nat (length (WeakHeaders (analyze header)))
      - match header !! "X-XSS-Protection" with Some _ => 0 | None => 1 end).
  { unfold GetHeaderRecommendations.
    rewrite recommend_weak_length, recommend_missing_length. cbn [length].
    destruct (analyze_lists header) as (Hm & _ & _). rewrite Hm.
    pose proof (missing_recommended header) as Hrec.
    rewrite Nat2Z.inj_add, Nat2Z.inj_add, Hrec. cbn [Z.of_nat]. lia. }
  split; [exact Hlen|].
  intros Hnone. rewrite Hnone in Hlen. cbn [length Z.of_nat] in Hlen.
  pose proof (filed_count header) as Hcount.
  pose proof (strong_count_present header) as Hstrong.
  rewrite SecurityScore_analyze.
  assert (Hk : 6 <= strong_count header <= 7).
  { pose proof (strong_count_bounds header).
    destruct (header !! "X-XSS-Protection"); lia. }
  assert (Hcases : strong_count header = 6 \/ strong_count header = 7) by lia.
  destruct Hcases as [-> | ->]; vm_compute; discriminate.
Qed.

Lemma missing_listed (header : gmap string (list string))
    (defs : list SecurityHeaderDefinition) (d : SecurityHeaderDefinition) :
  In d defs -> header !! def_Name d = None ->
  In (def_Name d) (map hdr_Name (omap (as_missing header) defs)).
Proof.
  intros Hin Hnone. induction defs as [|d' defs IH]; [contradiction|].
  cbn [omap list_omap]. destruct Hin as [-> | Hin].
  - unfold as_missing at 1. rewrite Hnone. left. reflexivity.
  - destruct (as_missing header d'); [right|]; apply IH; exact Hin.
Qed.

(** X15. On the header of a response as [net/http] gives it, with every key
    in canonical form, the lookup of the name X-XSS-Protection finds
    nothing, because the canonical form of that name is X-Xss-Protection:
    the header is filed as missing whatever the server sent, and the score
    is at most 85. The other six names are in canonical form. *)
Theorem xss_protection_never_found (header : gmap string (list string)) :
  canonical_keys header ->
  header !! "X-XSS-Protection" = None /\
  In "X-XSS-Protection" (map hdr_Name (MissingHeaders (analyze header))) /\
  SecurityScore (analyze header) <= 85 /\
  List.filter (fun name => negb (String.eqb (textproto.CanonicalMIMEHeaderKey name) name))
    (map def_Name securityHeaders) = ["X-XSS-Protection"].
Proof.
  intros Hcanon.
  assert (Hnone : header !! "X-XSS-Protection" = None).
  { destruct (header !! "X-XSS-Protection") as [v|] eqn:Hv; [|reflexivity].
    assert (Hc : textproto.CanonicalMIMEHeaderKey "X-XSS-Protection" = "X-XSS-Protection")
      by (apply Hcanon; rewrite Hv; eexists; reflexivity).
    vm_compute in Hc. discriminate Hc. }
  assert (Hin : In "X-XSS-Protection" (map hdr_Name (MissingHeaders (analyze header)))).
  { destruct (analyze_lists header) as (-> & _ & _).
    apply (missing_listed header securityHeaders
             {| def_Name := "X-XSS-Protection";
                def_Description := "Legacy XSS filter (deprecated but still useful)";
                def_Severity := "low" |}); [|exact Hnone].
    unfold securityHeaders. cbn [In]. tauto. }
  repeat apply conj; [exact Hnone|exact Hin| |vm_compute; reflexivity].
  rewrite SecurityScore_analyze.
  pose proof (filed_count header) as Hcount.
  pose proof (strong_count_present header) as Hstrong.
  pose proof (strong_count_bounds header) as Hb.
  assert (Hk : strong_count header <= 6).
  { destruct (MissingHeaders (analyze header)); [contradiction|].
    cbn [length] in Hcount. lia. }
  apply (score_by_count (strong_count header) Hb). exact Hk.
Qed.

Lemma xss_protection_never_found_witness :
  SecurityScore (analyze samples.seven_canonical) <= 85 /\
  In "X-XSS-Protection"
    (map hdr_Name (MissingHeaders (analyze samples.seven_canonical))).
Proof.
  assert (Hcanon : canonical_keys samples.seven_canonical).
  { intros key Hsome.
    assert (Hkey : In key ["Strict-Transport-Security"; "Content-Security-Policy";
                           "X-Frame-Options"; "X-Content-Type-Options";
                           "Referrer-Policy"; "Permissions-Policy"; "X-Xss-Protection"]).
    { unfold samples.seven_canonical in Hsome. cbn [list_to_map foldr] in Hsome.
      repeat (rewrite lookup_insert_is_Some in Hsome;
              destruct Hsome as [<- | [_ Hsome]]; [cbn [In]; tauto|]).
      rewrite lookup_empty in Hsome. destruct Hsome as [? Hsome]. discriminate Hsome. }
    cbn [In] in Hkey.
    repeat (destruct Hkey as [<- | Hkey]; [vm_compute; reflexivity|]).
    contradiction. }
  destruct (xss_protection_never_found samples.seven_canonical Hcanon)
    as (_ & Hin & Hscore & _).
  split; [exact Hscore|exact Hin].
Defined.

End HeaderProbe.

(** ** The threshold of Strict-Transport-Security *)

Section HSTS.
Import strings headers more.

Lemma lower_rest (rest : string) :
  rest = EmptyString \/ HasPrefix rest ";" = true ->
  ToLower rest = EmptyString \/ exists r, ToLower rest = String ";" r.
Proof.
  intros [-> | H]; [left; reflexivity|right].
  destruct rest as [|c rest]; [discriminate H|].
  cbn [HasPrefix] in H. apply andb_true_iff in H as [Hc _].
  apply Ascii.eqb_eq in Hc as ->. exists (ToLower rest). reflexivity.
Qed.

(** X16. The threshold of Strict-Transport-Security: for a value that
    begins with the directive [max-age=] in any case of letters, followed by
    a number [n] in decimal and then by nothing or by a semicolon and other
    directives, [extractMaxAge] reads [n] back when it fits 64 bits, and the
    header is weak exactly when [n] is below 15552000, or is too large to be
    read. *)
Theorem hsts_max_age_threshold (key rest : string) (n : Z) :
  ToLower key = "max-age=" ->
  0 <= n ->
  rest = EmptyString \/ HasPrefix rest ";" = true ->
  extractMaxAge (ToLower (key +:+ pretty n +:+ rest)) = (if n <? 2 ^ 63 then n else 0) /\
  isWeakHeader "Strict-Transport-Security" (key +:+ pretty n +:+ rest)
  = (n <? 15552000) || (2 ^ 63 <=? n).
Proof.
  intros Hkey Hn Hrest.
  destruct (pretty_digits n Hn) as (ds & -> & Hd & Hne & Hval).
  assert (Hlower : ToLower (key +:+ ds +:+ rest) = ("max-age=" +:+ ds) +:+ ToLower rest).
  { rewrite !ToLower_app, Hkey, (digits_lower ds Hd), append_assoc. reflexivity. }
  assert (Hint : in_int64 n = (n <? 2 ^ 63)).
  { unfold in_int64. destruct (Z.leb_spec (- 2 ^ 63) n); [reflexivity|lia]. }
  assert (Hextract :
    extractMaxAge (ToLower (key +:+ ds +:+ rest)) = if n <? 2 ^ 63 then n else 0).
  { rewrite Hlower. unfold extractMaxAge, Split.
    rewrite split_on_plain
      by (rewrite all_chars_app, (digits_plain ds Hd); reflexivity).
    change (EmptyString +:+ ("max-age=" +:+ ds)) with ("max-age=" +:+ ds).
    assert (Hpart : forall tl,
              extractMaxAge_parts (("max-age=" +:+ ds) :: tl)
              = if n <? 2 ^ 63 then n else 0).
    { intros tl. cbn [extractMaxAge_parts].
      rewrite (TrimSpace_number "max-age=" ds eq_refl ltac:(discriminate) Hd Hne).
      rewrite HasPrefix_app.
      change (drop 8 ("max-age=" +:+ ds)) with ds.
      destruct (scan_digits ds n Hd Hne Hval) as [-> _]. rewrite Hint. reflexivity. }
    destruct (lower_rest rest Hrest) as [-> | [r ->]]; cbn [split_on].
    - apply Hpart.
    - change (Ascii.eqb ";" ";") with true. cbv iota. apply Hpart. }
  split; [exact Hextract|].
  unfold isWeakHeader.
  change (String.eqb "Strict-Transport-Security" "Strict-Transport-Security") with true.
  cbv iota. rewrite Hextract.
  assert (Hcontains : Contains (ToLower (key +:+ ds +:+ rest)) "max-age=" = true).
  { rewrite Hlower, append_assoc, Contains_unfold, HasPrefix_app. reflexivity. }
  rewrite Hcontains. cbn [negb andb].
  destruct (Z.ltb_spec n (2 ^ 63)), (Z.leb_spec (2 ^ 63) n); try lia.
  - rewrite orb_false_r. destruct (n <? 15552000); reflexivity.
  - rewrite orb_true_r. reflexivity.
Qed.

Lemma hsts_max_age_threshold_witness :
  headers.isWeakHeader "Strict-Transport-Security"
    ("Max-Age=" +:+ pretty 31536000 +:+ "; includeSubDomains") = false /\
  headers.isWeakHeader "Strict-Transport-Security"
    ("max-age=" +:+ pretty 3600 +:+ EmptyString) = true.
Proof.
  destruct (hsts_max_age_threshold "Max-Age=" "; includeSubDomains" 31536000)
    as [_ H1]; [reflexivity|lia|right; reflexivity|].
  destruct (hsts_max_age_threshold "max-age=" EmptyString 3600)
    as [_ H2]; [reflexivity|lia|left; reflexivity|].
  split; [exact H1|exact H2].
Defined.

End HSTS.

(** ** The TLS analyzer: handshakes, score and recommendations *)

Section TLSProbe.
Import strings models net tls props more recommendations.
Context `{E : Env}.

(** The four outcomes of the certificate block. *)
Lemma check_certificate_cases (scan scan1 : TLSScan) (certs : list x509_Certificate)
    (st st1 : St) :
  check_certificate scan certs st = (scan1, st1) ->
  snd st1 = snd st /\
  ((certs = [] /\ scan1 = scan) \/
   exists info,
     certs <> [] /\
     ((IsExpired info = true /\
       scan1 = deduct (mark_insecure (add_vulnerabilities (set_Certificate scan info)
                         ["Certificate has expired"])) 50) \/
      (IsExpired info = false /\ DaysToExpiry info < 30 /\
       scan1 = deduct (add_vulnerabilities (set_Certificate scan info)
                         ["Certificate expires soon (" +:+ pretty (DaysToExpiry info)
                          +:+ " days)"]) 10) \/
      (IsExpired info = false /\ 30 <= DaysToExpiry info /\
       scan1 = set_Certificate scan info))).
Proof.
  unfold check_certificate, bind, ret, Now.
  destruct certs as [|cert rest].
  - intros [= <- <-]. split; [reflexivity|]. left. split; reflexivity.
  - destruct (time_Now st.1) as [now1 w1]. cbn [fst snd].
    destruct (time_Now w1) as [now2 w2]. cbn [Certificate set_Certificate IsExpired].
    set (days := Z.quot (Until (NotAfter cert) now1) nanoseconds_per_day).
    destruct (NotAfter cert <? now2) eqn:Hexp.
    + intros [= <- <-]. split; [reflexivity|]. right.
      exists {| Issuer := cert_Issuer cert; Subject := cert_Subject cert;
                ValidFrom := NotBefore cert; ValidTo := NotAfter cert;
                IsExpired := true; DaysToExpiry := days |}.
      split; [discriminate|]. left. split; reflexivity.
    + destruct (Z.ltb_spec days 30) as [Hsoon|Hlate];
        intros [= <- <-]; (split; [reflexivity|]); right;
        exists {| Issuer := cert_Issuer cert; Subject := cert_Subject cert;
                  ValidFrom := NotBefore cert; ValidTo := NotAfter cert;
                  IsExpired := false; DaysToExpiry := days |};
        (split; [discriminate|]).
      * right. left. split; [reflexivity|]. split; [exact Hsoon|reflexivity].
      * right. right. split; [reflexivity|]. split; [exact Hlate|reflexivity].
Qed.

(** The three probes: one handshake each, in this order, and at most three
    findings. *)
Lemma testTLSVulnerabilities_log (target : TargetInfo) (st : St) :
  snd (testTLSVulnerabilities target st).2
  = snd st ++ [
      EvDial (dial_addr target)
        {| ServerName := Domain target; InsecureSkipVerify := true;
           MinVersion := VersionSSL30; MaxVersion := VersionSSL30; CipherSuites := [] |};
      EvDial (dial_addr target)
        {| ServerName := Domain target; InsecureSkipVerify := true;
           MinVersion := VersionTLS10; MaxVersion := VersionTLS10; CipherSuites := [] |};
      EvDial (dial_addr target)
        {| ServerName := Domain target; InsecureSkipVerify := true;
           MinVersion := 0; MaxVersion := 0;
           CipherSuites := [TLS_RSA_WITH_RC4_128_SHA; TLS_RSA_WITH_3DES_EDE_CBC_SHA] |} ] /\
  (length (testTLSVulnerabilities target st).1 <= 3)%nat.
Proof.
  unfold testTLSVulnerabilities, testProtocolSupport, testWeakCipherSupport,
    DialWithDialer, lift, bind, ret.
  destruct st as [w log]. cbn [fst snd].
  destruct (tls_Dial (dial_addr target) _ w) as [r1 w1]. cbn [fst snd].
  destruct r1 as [c1|e1]; cbn [fst snd];
    (destruct (tls_Dial (dial_addr target) _ w1) as [r2 w2]; cbn [fst snd];
     destruct r2 as [c2|e2]; cbn [fst snd];
     (destruct (tls_Dial (dial_addr target) _ w2) as [r3 w3]; cbn [fst snd];
      destruct r3 as [c3|e3]; cbn [fst snd app length];
      (split; [rewrite <- !app_assoc; reflexivity|lia]))).
Qed.

(** What [ScanTLS] returns after a first handshake that completes. *)
Lemma ScanTLS_outcome (target : TargetInfo) (st : St) (state : ConnectionState)
    (w1 : World) :
  Protocol target = "https" ->
  tls_Dial (dial_addr target) (main_config target) st.1 = (Ok state, w1) ->
  exists scan1 st1 vulnerabilities,
    check_certificate
      {| tls_Protocol := getTLSVersion (cs_Version state);
         CipherSuite := CipherSuiteName (cs_CipherSuite state);
         Certificate := zero_CertificateInfo;
         tls_Vulnerabilities := [];
         Score := 100; IsSecure := true |}
      (PeerCertificates state)
      (w1, st.2 ++ [EvDial (dial_addr target) (main_config target)]) = (scan1, st1) /\
    (length vulnerabilities <= 3)%nat /\
    (ScanTLS target st).1 =
      Ok (clamp_score
            (check_probes
               (check_cipher (check_version scan1 (cs_Version state))
                  (cs_CipherSuite state))
               vulnerabilities)) /\
    snd (ScanTLS target st).2
    = snd st ++ [
        EvDial (dial_addr target) (main_config target);
        EvDial (dial_addr target)
          {| ServerName := Domain target; InsecureSkipVerify := true;
             MinVersion := VersionSSL30; MaxVersion := VersionSSL30; CipherSuites := [] |};
        EvDial (dial_addr target)
          {| ServerName := Domain target; InsecureSkipVerify := true;
             MinVersion := VersionTLS10; MaxVersion := VersionTLS10; CipherSuites := [] |};
        EvDial (dial_addr target)
          {| ServerName := Domain target; InsecureSkipVerify := true;
             MinVersion := 0; MaxVersion := 0;
             CipherSuites := [TLS_RSA_WITH_RC4_128_SHA; TLS_RSA_WITH_3DES_EDE_CBC_SHA] |} ].
Proof.
  intros Hp Hdial.
  destruct (ScanTLS_https target st state w1 Hp Hdial)
    as (scan1 & st1 & vs & st2 & Hcert & Hprobes & Hrun).
  exists scan1, st1, vs.
  destruct (check_certificate_cases _ _ _ _ _ Hcert) as [Hlog _].
  destruct (testTLSVulnerabilities_log target st1) as [Hlog2 Hlen].
  rewrite Hprobes in Hlog2, Hlen. cbn [fst snd] in Hlog2, Hlen.
  rewrite Hrun. cbn [fst snd].
  repeat apply conj; [exact Hcert|exact Hlen|reflexivity|].
  rewrite Hlog2, Hlog. cbn [snd]. rewrite <- app_assoc. reflexivity.
Qed.

(** The fields of the result after the checks that follow the certificate
    block. *)
Lemma checks_fields (scan : TLSScan) (version suite : Z) (vs : list string) :
  Score (clamp_score (check_probes (check_cipher (check_version scan version) suite) vs))
  = Z.max 0 (Score scan
             - (if version <? VersionTLS12 then 30
                else if version =? VersionTLS12 then 5 else 0)
             - (if isWeakCipher suite then 20 else 0)
             - 10 * Z.of_nat (length vs)) /\
  IsSecure (clamp_score (check_probes (check_cipher (check_version scan version) suite) vs))
  = IsSecure scan && negb (version <? VersionTLS12) && negb (isWeakCipher suite)
    && (Z.of_nat (length vs) =? 0) /\
  (exists lv lc,
     tls_Vulnerabilities
       (clamp_score (check_probes (check_cipher (check_version scan version) suite) vs))
     = tls_Vulnerabilities scan ++ lv ++ lc ++ vs /\
     (lv = [] <-> (version <? VersionTLS12) = false /\ (version =? VersionTLS12) = false) /\
     (lc = [] <-> isWeakCipher suite = false) /\
     (length lv <= 1)%nat /\ (length lc <= 1)%nat) /\
  tls_Protocol (clamp_score (check_probes (check_cipher (check_version scan version) suite) vs))
  = tls_Protocol scan /\
  Certificate (clamp_score (check_probes (check_cipher (check_version scan version) suite) vs))
  = Certificate scan.
Proof.
  assert (Hclamp : forall s,
            Score (clamp_score s) = Z.max 0 (Score s) /\
            IsSecure (clamp_score s) = IsSecure s /\
            tls_Vulnerabilities (clamp_score s) = tls_Vulnerabilities s /\
            tls_Protocol (clamp_score s) = tls_Protocol s /\
            Certificate (clamp_score s) = Certificate s).
  { intros s. unfold clamp_score. destruct (Z.ltb_spec (Score s) 0); cbn;
      repeat apply conj; try reflexivity; lia. }
  destruct (Hclamp (check_probes (check_cipher (check_version scan version) suite) vs))
    as (-> & -> & -> & -> & ->). clear Hclamp.
  assert (Hsuite : CipherSuite (check_version scan version) = CipherSuite scan).
  { unfold check_version.
    destruct (version <? VersionTLS12); [|destruct (version =? VersionTLS12)];
      reflexivity. }
  unfold check_probes, check_cipher. rewrite Hsuite. unfold check_version.
  pose proof (Nat2Z.is_nonneg (length vs)) as Hlen.
  repeat apply conj.
  - destruct (version <? VersionTLS12); [|destruct (version =? VersionTLS12)];
      destruct (isWeakCipher suite);
      destruct (Z.ltb_spec 0 (Z.of_nat (length vs)));
      cbn [Score deduct mark_insecure add_vulnerabilities]; f_equal; lia.
  - destruct (version <? VersionTLS12); [|destruct (version =? VersionTLS12)];
      destruct (isWeakCipher suite);
      destruct (Z.ltb_spec 0 (Z.of_nat (length vs)));
      destruct (Z.eqb_spec (Z.of_nat (length vs)) 0); try lia;
      cbn [IsSecure deduct mark_insecure add_vulnerabilities negb andb];
      rewrite ?andb_false_r, ?andb_true_r; reflexivity.
  - exists (if version <? VersionTLS12
            then ["Outdated TLS version: " +:+ tls_Protocol scan +:+
                  " (TLS 1.2+ recommended)"]
            else if version =? VersionTLS12
                 then ["TLS 1.2 is acceptable but TLS 1.3 is recommended"] else []),
           (if isWeakCipher suite then ["Weak cipher suite: " +:+ CipherSuite scan] else []).
    destruct (version <? VersionTLS12); [|destruct (version =? VersionTLS12)];
      destruct (isWeakCipher suite);
      destruct (Z.ltb_spec 0 (Z.of_nat (length vs)));
      cbn [tls_Vulnerabilities deduct mark_insecure add_vulnerabilities length];
      (split; [rewrite <- ?app_assoc; cbn [app]; rewrite ?app_nil_r; reflexivity|]);
      (split;
       [ split; intros Hl;
         first [ discriminate Hl | split; reflexivity
               | destruct Hl as [Hl1 Hl2]; first [discriminate Hl1 | discriminate Hl2] ]|]);
      (split; [split; intros Hl; first [reflexivity | discriminate Hl]|]);
      (split; repeat constructor).
  - destruct (version <? VersionTLS12); [|destruct (version =? VersionTLS12)];
      destruct (isWeakCipher suite);
      destruct (0 <? Z.of_nat (length vs)); reflexivity.
  - destruct (version <? VersionTLS12); [|destruct (version =? VersionTLS12)];
      destruct (isWeakCipher suite);
      destruct (0 <? Z.of_nat (length vs)); reflexivity.
Qed.

(** X17. The score and the flag of a TLS result: a result that is marked
    secure has a score of at least 85, a result that is not has a score of
    at most 90, and the score is 100 exactly when no vulnerability is
    listed, in which case the result is marked secure. *)
Theorem ScanTLS_score_and_flag (target : TargetInfo) (st : St) (scan : TLSScan) :
  (ScanTLS target st).1 = Ok scan ->
  (IsSecure scan = true -> 85 <= Score scan) /\
  (IsSecure scan = false -> Score scan <= 90) /\
  (Score scan = 100 <-> tls_Vulnerabilities scan = []) /\
  (tls_Vulnerabilities scan = [] -> IsSecure scan = true).
Proof.
  destruct (String.eqb_spec (Protocol target) "https") as [Hp|Hp].
  - destruct (tls_Dial (dial_addr target) (main_config target) st.1) as [r w1] eqn:Hdial.
    destruct r as [state|e].
    + destruct (ScanTLS_outcome target st state w1 Hp Hdial)
        as (scan1 & st1 & vs & Hcert & _ & -> & _).
      intros [= <-].
      destruct (checks_fields scan1 (cs_Version state) (cs_CipherSuite state) vs)
        as (-> & -> & (lv & lc & -> & Hlv & Hlc & _ & _) & _ & _).
      pose proof (Nat2Z.is_nonneg (length vs)) as Hlen.
      assert (Hvs : vs = [] <-> Z.of_nat (length vs) = 0)
        by (destruct vs; cbn [length]; split; intros Hx; first [reflexivity|discriminate Hx|lia]).
      assert (Hnil : lv ++ lc ++ vs = [] <->
                (cs_Version state <? VersionTLS12) = false /\
                (cs_Version state =? VersionTLS12) = false /\
                isWeakCipher (cs_CipherSuite state) = false /\
                Z.of_nat (length vs) = 0).
      { split.
        - intros Happ. apply app_eq_nil in Happ as [Hlv' Hrest].
          apply app_eq_nil in Hrest as [Hlc' Hvs'].
          apply Hlv in Hlv' as [Hl1 Hl2]. apply Hlc in Hlc'. apply Hvs in Hvs'.
          repeat split; assumption.
        - intros (Hl1 & Hl2 & Hl3 & Hl4).
          rewrite (proj2 Hlv (conj Hl1 Hl2)), (proj2 Hlc Hl3), (proj2 Hvs Hl4).
          reflexivity. }
      clear Hlv Hlc Hvs. revert Hnil. generalize (lv ++ lc ++ vs). intros l Hnil.
      unfold VersionTLS12 in *.
      destruct (check_certificate_cases _ _ _ _ _ Hcert)
        as [_ [[_ ->] | (info & _ & [(_ & ->) | [(_ & _ & ->) | (_ & _ & ->)]])]];
        cbn [Score IsSecure tls_Vulnerabilities deduct mark_insecure add_vulnerabilities
             set_Certificate app andb];
        destruct (Z.ltb_spec (cs_Version state) 771);
        destruct (Z.eqb_spec (cs_Version state) 771); try lia;
        destruct (isWeakCipher (cs_CipherSuite state));
        destruct (Z.eqb_spec (Z.of_nat (length vs)) 0);
        cbn [negb andb];
        (split; [intros Hflag; first [discriminate Hflag | lia]|]);
        (split; [intros Hflag; first [discriminate Hflag | lia]|]);
        (split;
         [ split; intros Hflag;
           first [ lia
                 | apply Hnil; repeat split; first [reflexivity | assumption]
                 | discriminate Hflag
                 | apply Hnil in Hflag as (Hl1 & Hl2 & Hl3 & Hl4);
                   first [discriminate Hl1 | discriminate Hl2 | discriminate Hl3 | lia] ]
         | intros Hflag;
           first [ reflexivity
                 | discriminate Hflag
                 | apply Hnil in Hflag as (Hl1 & Hl2 & Hl3 & Hl4);
                   first [discriminate Hl1 | discriminate Hl2 | discriminate Hl3 | lia] ] ]).
    + unfold ScanTLS. rewrite Hp.
      change (String.eqb "https" "https") with true. cbn [negb].
      unfold bind, DialWithDialer, lift, ret. rewrite Hdial. intros H. discriminate H.
  - unfold ScanTLS. apply String.eqb_neq in Hp. rewrite Hp. cbn [negb].
    intros [= <-]. cbn [not_https IsSecure Score tls_Vulnerabilities].
    split; [discriminate|]. split; [lia|]. split; [|discriminate].
    split; intros Hflag; discriminate Hflag.
Qed.

(** X18. For an HTTPS target, [ScanTLS] fails exactly when the first
    handshake fails, after that one handshake. When it completes, the
    analyzer makes three more handshakes, pinned to SSL 3.0, to TLS 1.0 and
    to two weak cipher suites, in this order and whatever the first one
    negotiated, and lists at most six vulnerabilities. *)
Theorem ScanTLS_handshakes (target : TargetInfo) (st : St) :
  Protocol target = "https" ->
  (forall e w1,
     tls_Dial (dial_addr target) (main_config target) st.1 = (Err e, w1) ->
     ScanTLS target st
     = (Err ("TLS connection failed: " +:+ e),
        (w1, snd st ++ [EvDial (dial_addr target) (main_config target)]))) /\
  (forall state w1,
     tls_Dial (dial_addr target) (main_config target) st.1 = (Ok state, w1) ->
     exists scan,
       (ScanTLS target st).1 = Ok scan /\
       (length (tls_Vulnerabilities scan) <= 6)%nat /\
       snd (ScanTLS target st).2
       = snd st ++ [
           EvDial (dial_addr target) (main_config target);
           EvDial (dial_addr target)
             {| ServerName := Domain target; InsecureSkipVerify := true;
                MinVersion := VersionSSL30; MaxVersion := VersionSSL30;
                CipherSuites := [] |};
           EvDial (dial_addr target)
             {| ServerName := Domain target; InsecureSkipVerify := true;
                MinVersion := VersionTLS10; MaxVersion := VersionTLS10;
                CipherSuites := [] |};
           EvDial (dial_addr target)
             {| ServerName := Domain target; InsecureSkipVerify := true;
                MinVersion := 0; MaxVersion := 0;
                CipherSuites :=
                  [TLS_RSA_WITH_RC4_128_SHA; TLS_RSA_WITH_3DES_EDE_CBC_SHA] |} ]).
Proof.
  intros Hp. split.
  - intros e w1 Hdial. unfold ScanTLS. rewrite Hp.
    change (String.eqb "https" "https") with true. cbn [negb].
    unfold bind, DialWithDialer, lift, ret. rewrite Hdial. reflexivity.
  - intros state w1 Hdial.
    destruct (ScanTLS_outcome target st state w1 Hp Hdial)
      as (scan1 & st1 & vs & Hcert & Hvs & Hrun & Hlog).
    eexists. split; [exact Hrun|]. split; [|exact Hlog].
    destruct (checks_fields scan1 (cs_Version state) (cs_CipherSuite state) vs)
      as (_ & _ & (lv & lc & -> & _ & _ & Hlv & Hlc) & _ & _).
    rewrite !length_app.
    destruct (check_certificate_cases _ _ _ _ _ Hcert)
      as [_ [[_ ->] | (info & _ & [(_ & ->) | [(_ & _ & ->) | (_ & _ & ->)]])]];
      cbn [tls_Vulnerabilities deduct mark_insecure add_vulnerabilities set_Certificate
           app length]; lia.
Qed.

Lemma hex_digit_plain (d : Z) :
  all_chars (fun c => negb (Ascii.eqb c "T")) (hex_digit false d) = true.
Proof.
  unfold hex_digit.
  destruct (Z.to_nat d) as [|[|[|[|[|[|[|[|[|[|[|[|[|[|[|[|n]]]]]]]]]]]]]]]];
    reflexivity.
Qed.

Lemma Contains_needs_head (s p : string) (c : ascii) :
  all_chars (fun x => negb (Ascii.eqb x c)) s = true ->
  Contains s (String c p) = false.
Proof.
  induction s as [|x s IH]; [reflexivity|].
  cbn [all_chars]. intros H. apply andb_true_iff in H as [Hx Hs].
  rewrite Contains_unfold, (IH Hs). cbn [HasPrefix].
  apply negb_true_iff in Hx. rewrite Hx. reflexivity.
Qed.

(** The name of a version above TLS 1.2 mentions neither TLS 1.0 nor
    TLS 1.1. *)
Lemma modern_version_name (version : Z) :
  VersionTLS12 < version ->
  Contains (getTLSVersion version) "TLS 1.0" = false /\
  Contains (getTLSVersion version) "TLS 1.1" = false.
Proof.
  unfold VersionTLS12. intros Hv. unfold getTLSVersion.
  unfold VersionSSL30, VersionTLS10, VersionTLS11, VersionTLS12, VersionTLS13.
  destruct (Z.eqb_spec version 768); [lia|].
  destruct (Z.eqb_spec version 769); [lia|].
  destruct (Z.eqb_spec version 770); [lia|].
  destruct (Z.eqb_spec version 771); [lia|].
  destruct (Z.eqb_spec version 772); [split; reflexivity|].
  assert (Hplain : all_chars (fun c => negb (Ascii.eqb c "T"))
                     ("Unknown (0x" +:+ hex4 false version +:+ ")") = true).
  { unfold hex4. rewrite !all_chars_app, !hex_digit_plain. reflexivity. }
  split; apply Contains_needs_head; exact Hplain.
Qed.

(** X19. The recommendations for a TLS result obtained over a handshake:
    when the server presented a certificate, there is no recommendation
    exactly when the score is 100. When it presented none, the certificate
    of the result is the zero value, which counts as expiring within 30
    days: the recommendation to plan the renewal is given, and no points are
    deducted for it. *)
Theorem TLS_recommendations (target : TargetInfo) (st : St) (state : ConnectionState)
    (w1 : World) (scan : TLSScan) :
  Protocol target = "https" ->
  tls_Dial (dial_addr target) (main_config target) st.1 = (Ok state, w1) ->
  (ScanTLS target st).1 = Ok scan ->
  (PeerCertificates state <> [] ->
   (GetTLSRecommendations scan = [] <-> Score scan = 100)) /\
  (PeerCertificates state = [] ->
   Certificate scan = zero_CertificateInfo /\
   In "Plan certificate renewal soon" (GetTLSRecommendations scan) /\
   Score scan
   = Z.max 0 (100
              - (if cs_Version state <? VersionTLS12 then 30
                 else if cs_Version state =? VersionTLS12 then 5 else 0)
              - (if isWeakCipher (cs_CipherSuite state) then 20 else 0)
              - 10 * Z.of_nat (length (testTLSVulnerabilities target
                     (w1, snd st ++ [EvDial (dial_addr target) (main_config target)])).1))).
Proof.
  intros Hp Hdial.
  destruct (ScanTLS_https target st state w1 Hp Hdial)
    as (scan1 & st1 & vs & st2 & Hcert & Hprobes & Hrun).
  rewrite Hrun. cbn [fst]. intros [= <-].
  destruct (checks_fields scan1 (cs_Version state) (cs_CipherSuite state) vs)
    as (Hscore & Hsecure & (lv & lc & Hvulns & Hlv & Hlc & _ & _) & Hproto & Hcertificate).
  pose proof (Nat2Z.is_nonneg (length vs)) as Hlen.
  assert (Hvs : vs = [] <-> Z.of_nat (length vs) = 0)
    by (destruct vs; cbn [length]; split; intros Hx;
        first [reflexivity|discriminate Hx|lia]).
  unfold GetTLSRecommendations.
  rewrite Hscore, Hsecure, Hvulns, Hproto, Hcertificate.
  clear Hscore Hsecure Hvulns Hproto Hcertificate.
  split.
  - intros Hcerts.
    destruct (check_certificate_cases _ _ _ _ _ Hcert)
      as [_ [[Hnil _] | (info & _ & Hcases)]]; [contradiction|].
    assert (Hnil : lv ++ lc ++ vs = [] <->
              (cs_Version state <? VersionTLS12) = false /\
              (cs_Version state =? VersionTLS12) = false /\
              isWeakCipher (cs_CipherSuite state) = false /\
              Z.of_nat (length vs) = 0).
    { split.
      - intros Happ. apply app_eq_nil in Happ as [Hlv' Hrest].
        apply app_eq_nil in Hrest as [Hlc' Hvs'].
        apply Hlv in Hlv' as [Hl1 Hl2]. apply Hlc in Hlc'. apply Hvs in Hvs'.
        repeat split; assumption.
      - intros (Hl1 & Hl2 & Hl3 & Hl4).
        rewrite (proj2 Hlv (conj Hl1 Hl2)), (proj2 Hlc Hl3), (proj2 Hvs Hl4).
        reflexivity. }
    clear Hlv Hlc Hvs. revert Hnil. generalize (lv ++ lc ++ vs). intros l Hnil.
    pose proof (modern_version_name (cs_Version state)) as Hmodern.
    unfold VersionTLS12 in *.
    destruct Hcases as [(Hexp & ->) | [(Hexp & Hsoon & ->) | (Hexp & Hlate & ->)]];
      cbn [Certificate Score IsSecure tls_Vulnerabilities tls_Protocol deduct mark_insecure
           add_vulnerabilities set_Certificate app andb negb];
      rewrite Hexp;
      [ | apply Z.ltb_lt in Hsoon; rewrite Hsoon | apply Z.ltb_ge in Hlate; rewrite Hlate ];
      destruct (Z.ltb_spec (cs_Version state) 771);
      destruct (Z.eqb_spec (cs_Version state) 771); try lia;
      destruct (isWeakCipher (cs_CipherSuite state));
      destruct (Z.eqb_spec (Z.of_nat (length vs)) 0);
      cbn [negb andb];
      try (split; intros Hrecs; [exfalso|lia];
           destruct (_ || _); destruct (0 <? Z.of_nat _); discriminate Hrecs);
      (destruct l as [|x l'];
       [ try (destruct (proj1 Hnil eq_refl) as (Hl1 & Hl2 & Hl3 & Hl4);
              first [discriminate Hl1 | discriminate Hl2 | discriminate Hl3 | lia])
       | change (0 <? Z.of_nat (length (x :: l'))) with true; cbv iota ]);
      try (split; intros Hrecs; [exfalso|lia];
           destruct (_ || _); discriminate Hrecs).
    + destruct Hmodern as [-> ->]; [lia|]. cbn [orb app].
      change (0 <? Z.of_nat (length (@nil string))) with false. cbv iota.
      split; intros _; [lia|reflexivity].
    + exfalso.
      assert (Hx : x :: l' = []) by (apply Hnil; repeat split; assumption).
      discriminate Hx.
  - intros Hcerts. rewrite Hcerts in Hcert.
    destruct (check_certificate_cases _ _ _ _ _ Hcert)
      as [Hst1 [[_ ->] | (info & Hne & _)]]; [|congruence].
    cbn [Certificate Score IsSecure tls_Vulnerabilities tls_Protocol app andb].
    split; [reflexivity|]. split.
    + cbn [zero_CertificateInfo IsExpired DaysToExpiry].
      change (0 <? 30) with true. cbv iota.
      destruct (0 <? Z.of_nat (length (lv ++ lc ++ vs)));
        rewrite ?in_app_iff; cbn [In]; tauto.
    + unfold check_certificate, ret in Hcert. injection Hcert as <-.
      rewrite Hprobes. reflexivity.
Qed.

End TLSProbe.

Lemma ScanTLS_score_and_flag_witness :
  exists scan : models.TLSScan,
    (@tls.ScanTLS (examples.tls_env tls.VersionTLS13 0x1301) examples.https_target
       (tt, [])).1 = Ok scan /\
    models.IsSecure scan = false /\ models.Score scan <= 90.
Proof.
  pose (E := examples.tls_env tls.VersionTLS13 0x1301).
  destruct (@tls.ScanTLS E examples.https_target (tt, [])) as [r st'] eqn:Hrun.
  assert (Hr : exists scan, r = Ok scan /\ models.IsSecure scan = false).
  { vm_compute in Hrun. injection Hrun as <- _. eexists. split; reflexivity. }
  destruct Hr as (scan & -> & Hflag). exists scan.
  assert (Hfst : (@tls.ScanTLS E examples.https_target (tt, [])).1 = Ok scan)
    by (rewrite Hrun; reflexivity).
  destruct (@ScanTLS_score_and_flag E examples.https_target (tt, []) scan Hfst)
    as (_ & Hlow & _ & _).
  split; [exact Hfst|]. split; [exact Hflag|apply Hlow; exact Hflag].
Defined.

Lemma ScanTLS_handshakes_witness :
  exists scan : models.TLSScan,
    (@tls.ScanTLS (examples.tls_env tls.VersionTLS13 0x1301) examples.https_target
       (tt, [])).1 = Ok scan /\
    (length (models.tls_Vulnerabilities scan) <= 6)%nat /\
    length (snd (@tls.ScanTLS (examples.tls_env tls.VersionTLS13 0x1301)
                   examples.https_target (tt, [])).2) = 4%nat.
Proof.
  pose (E := examples.tls_env tls.VersionTLS13 0x1301).
  destruct (@ScanTLS_handshakes E examples.https_target (tt, []) eq_refl) as [_ Hok].
  destruct (Hok {| net.cs_Version := tls.VersionTLS13; net.cs_CipherSuite := 0x1301;
                   net.PeerCertificates := [examples.old_cert] |} tt eq_refl)
    as (scan & Hrun & Hlen & Hlog).
  exists scan. split; [exact Hrun|]. split; [exact Hlen|].
  unfold E in Hlog. rewrite Hlog. reflexivity.
Defined.

Lemma TLS_recommendations_witness :
  exists scan : models.TLSScan,
    (@tls.ScanTLS samples.bare_env examples.https_target (tt, [])).1 = Ok scan /\
    models.Score scan = 100 /\
    In "Plan certificate renewal soon" (recommendations.GetTLSRecommendations scan).
Proof.
  destruct (@tls.ScanTLS samples.bare_env examples.https_target (tt, []))
    as [r st'] eqn:Hrun.
  assert (Hr : exists scan, r = Ok scan /\ models.Score scan = 100).
  { vm_compute in Hrun. injection Hrun as <- _. eexists. split; reflexivity. }
  destruct Hr as (scan & -> & Hscore). exists scan.
  assert (Hfst : (@tls.ScanTLS samples.bare_env examples.https_target (tt, [])).1
                 = Ok scan) by (rewrite Hrun; reflexivity).
  destruct (@TLS_recommendations samples.bare_env examples.https_target (tt, [])
              {| net.cs_Version := tls.VersionTLS13; net.cs_CipherSuite := 0x1301;
                 net.PeerCertificates := [] |} tt scan eq_refl eq_refl Hfst)
    as [_ Hbare].
  destruct (Hbare eq_refl) as (_ & Hin & _).
  split; [reflexivity|]. split; [exact Hscore|exact Hin].
Defined.
